(** * FEC engine of numma: parser, compliance validator and serializer

    Shallow embedding of the FEC module ([modules/fec-module.js], bundled in
    [numma-loader.js]): [validateEntry], [validateFECCompliance],
    [generateFECFile], [parseFECFile] and [getStatistics], together with
    the host functions they call (string trimming and splitting,
    [parseFloat], [toFixed], [Array.prototype.sort], [Object.entries]), and
    of the module loader of the same bundle: [isModuleLoaded],
    [checkDependencies], [initializeModules] and [getModuleStatus], as
    functions of the registry, the loading state and the globals the window
    defines.

    Conventions of the embedding.
    - A JavaScript string is a Rocq [string]; a character is one code unit in
      the range 0..255, i.e. the ISO-8859-1 repertoire the FEC format
      mandates.
    - A JavaScript number is an IEEE 754 binary64 value, [spec_float] with
      precision 53 and maximal exponent 1024; arithmetic and comparisons are
      the ones of [SpecFloat].
    - An exception is a value of [Completion]: [Returned v] or [Thrown e].
    - A template literal is kept as a constructor of [Message] holding the
      interpolated values. *)

From Stdlib Require Import ZArith List Bool Lia Ascii String.
From Stdlib Require Import Floats.SpecFloat.
From Stdlib Require Import Sorting.Sorted Sorting.Permutation.
From Stdlib Require Import DecimalString.
Import ListNotations.

Local Open Scope string_scope.
Local Open Scope Z_scope.

(* ================================================================== *)
(** ** Strings *)

Module Str.

Definition LF : ascii := ascii_of_nat 10.
Definition CR : ascii := ascii_of_nat 13.

(** [WhiteSpace] and [LineTerminator] code units below 256: TAB, LF, VT, FF,
    CR, SP and NBSP. *)
Definition isWhiteSpace (c : ascii) : bool :=
  let n := nat_of_ascii c in
  (Nat.eqb n 9 || Nat.eqb n 10 || Nat.eqb n 11 || Nat.eqb n 12
   || Nat.eqb n 13 || Nat.eqb n 32 || Nat.eqb n 160)%bool.

Fixpoint trimStart (s : string) : string :=
  match s with
  | EmptyString => EmptyString
  | String c r => if isWhiteSpace c then trimStart r else s
  end.

Fixpoint trimEnd (s : string) : string :=
  match s with
  | EmptyString => EmptyString
  | String c r =>
      match trimEnd r with
      | EmptyString => if isWhiteSpace c then EmptyString else String c EmptyString
      | r' => String c r'
      end
  end.

(** [s.trim()] *)
Definition trim (s : string) : string := trimEnd (trimStart s).

(** [s.split(sep)] for a one-character separator: never the empty list. *)
Fixpoint split (sep : ascii) (s : string) : list string :=
  match s with
  | EmptyString => [EmptyString]
  | String c r =>
      if Ascii.eqb c sep then EmptyString :: split sep r
      else match split sep r with
           | p :: ps => String c p :: ps
           | [] => [String c EmptyString]
           end
  end.

(** [s.split(/\r?\n/)]: a line ends at LF, or at CR immediately followed by
    LF. *)
Fixpoint splitLines (s : string) : list string :=
  match s with
  | EmptyString => [EmptyString]
  | String c r =>
      if Ascii.eqb c LF then EmptyString :: splitLines r
      else
        let keep :=
          match splitLines r with
          | p :: ps => String c p :: ps
          | [] => [String c EmptyString]
          end in
        if Ascii.eqb c CR then
          match r with
          | String c2 r2 =>
              if Ascii.eqb c2 LF then EmptyString :: splitLines r2 else keep
          | EmptyString => keep
          end
        else keep
  end.

(** [l.join(sep)] *)
Definition join (sep : string) (l : list string) : string := concat sep l.

(** [s.replace(c, d)] with one-character strings: the first occurrence. *)
Fixpoint replaceFirst (c d : ascii) (s : string) : string :=
  match s with
  | EmptyString => EmptyString
  | String x r => if Ascii.eqb x c then String d r else String x (replaceFirst c d r)
  end.

(** [s.replace(/c/g, '')] for a one-character pattern. *)
Fixpoint removeAll (c : ascii) (s : string) : string :=
  match s with
  | EmptyString => EmptyString
  | String x r => if Ascii.eqb x c then removeAll c r else String x (removeAll c r)
  end.

Fixpoint forallb (p : ascii -> bool) (s : string) : bool :=
  match s with
  | EmptyString => true
  | String c r => p c && forallb p r
  end.

Fixpoint count (c : ascii) (s : string) : nat :=
  match s with
  | EmptyString => O
  | String x r => if Ascii.eqb x c then S (count c r) else count c r
  end.

Definition isEmpty (s : string) : bool :=
  match s with EmptyString => true | _ => false end.

(** [a || b] on strings: the empty string is the only falsy one. *)
Definition or (a b : string) : string := if isEmpty a then b else a.

Definition isDigit (c : ascii) : bool :=
  let n := nat_of_ascii c in (Nat.leb 48 n && Nat.leb n 57)%bool.

Definition digitValue (c : ascii) : Z := Z.of_nat (nat_of_ascii c) - 48.

(** Longest prefix of decimal digits, and the rest. *)
Fixpoint spanDigits (s : string) : string * string :=
  match s with
  | EmptyString => (EmptyString, EmptyString)
  | String c r =>
      if isDigit c then let '(d, t) := spanDigits r in (String c d, t)
      else (EmptyString, s)
  end.

Fixpoint digitsValueFrom (acc : Z) (s : string) : Z :=
  match s with
  | EmptyString => acc
  | String c r => digitsValueFrom (10 * acc + digitValue c) r
  end.

Definition digitsValue (s : string) : Z := digitsValueFrom 0 s.

(** Decimal digits of a natural number, [ToString] of a non-negative
    integer. *)
Definition ofZ (n : Z) : string :=
  NilZero.string_of_uint (N.to_uint (Z.to_N n)).

End Str.

(* ================================================================== *)
(** ** Numbers *)

Module Num.

Definition number : Type := spec_float.

Definition prec : Z := 53.
Definition emax : Z := 1024.

Definition NaN : number := S754_nan.
Definition zero : number := S754_zero false.

Definition add : number -> number -> number := SFadd prec emax.
Definition sub : number -> number -> number := SFsub prec emax.
Definition abs : number -> number := SFabs.
(** [a > b] *)
Definition gt (a b : number) : bool := SFltb b a.
(** [a === b] on numbers *)
Definition eq (a b : number) : bool := SFeqb a b.

Definition isNaN (x : number) : bool :=
  match x with S754_nan => true | _ => false end.

(** The number nearest to [num / den] (ties to even), with sign [neg]. *)
Definition ofRatio (neg : bool) (num den : positive) : number :=
  SFdiv prec emax (S754_finite neg num 0) (S754_finite false den 0).

(** The number denoted by the decimal [digits * 10 ^ exp10]. *)
Definition ofDecimal (neg : bool) (digits exp10 : Z) : number :=
  match digits with
  | Zpos m =>
      if 0 <=? exp10
      then ofRatio neg (m * Z.to_pos (10 ^ exp10)) 1
      else ofRatio neg m (Z.to_pos (10 ^ (- exp10)))
  | _ => S754_zero neg
  end.

Definition isExponentIndicator (c : ascii) : bool :=
  (Ascii.eqb c "e" || Ascii.eqb c "E")%bool.

(** [ExponentPart]: the exponent that follows the mantissa, 0 when there is
    none; an indicator without digits is not part of the literal. *)
Definition exponentPart (s : string) : Z :=
  match s with
  | String c r =>
      if isExponentIndicator c then
        let '(neg, u) :=
          match r with
          | String "-" t => (true, t)
          | String "+" t => (false, t)
          | _ => (false, r)
          end in
        let '(d, _) := Str.spanDigits u in
        if Str.isEmpty d then 0
        else if neg then - Str.digitsValue d else Str.digitsValue d
      else 0
  | EmptyString => 0
  end.

(** [parseFloat(s)] for a string [s]: leading white space is dropped, the
    longest prefix that is a [StrDecimalLiteral] is read, and its exact
    value is rounded to the nearest number, ties to even; [NaN] when there
    is no such prefix. *)
Definition parseFloat (s : string) : number :=
  let t := Str.trimStart s in
  let '(neg, u) :=
    match t with
    | String "-" r => (true, r)
    | String "+" r => (false, r)
    | _ => (false, t)
    end in
  if prefix "Infinity" u then S754_infinity neg
  else
    let '(ip, r1) := Str.spanDigits u in
    let '(fp, r2) :=
      match r1 with
      | String "." r => Str.spanDigits r
      | _ => (EmptyString, r1)
      end in
    if (Str.isEmpty ip && Str.isEmpty fp)%bool then NaN
    else
      ofDecimal neg (Str.digitsValue (ip ++ fp))
                (exponentPart r2 - Z.of_nat (String.length fp)).

(** [parseFloat(v || 0)]: the empty string is falsy and [parseFloat(0)]
    reads the text "0". *)
Definition parseFloatOr0 (v : string) : number :=
  if Str.isEmpty v then parseFloat "0" else parseFloat v.

(** *** [Number.prototype.toFixed(2)] *)

(** The exact value of a finite number is [m * 2 ^ e]. [scaled100 m e] is
    the integer [n] for which [n / 100] is nearest to it, the larger one
    when two are as near. *)
Definition scaled100 (m : positive) (e : Z) : Z :=
  if 0 <=? e then Zpos m * 100 * 2 ^ e
  else (2 * (Zpos m * 100) + 2 ^ (- e)) / (2 * 2 ^ (- e)).

Definition twoDigits (n : Z) : string :=
  if n <? 10 then "0" ++ Str.ofZ n else Str.ofZ n.

(** The digits of [n] with a point before the last two. *)
Definition fixed2 (n : Z) : string :=
  Str.ofZ (n / 100) ++ "." ++ twoDigits (n mod 100).

(** [Number::toString] of a finite number whose value is the integer
    [X >= 10 ^ 21]: the shortest digit string [s] such that
    [s * 10 ^ p] rounds to the number, the nearest one when several do, in
    exponential notation. *)
Definition roundsTo (v : Z) (x : number) : bool :=
  eq (binary_normalize prec emax v 0 false) x.

Definition shortestAt (X : Z) (x : number) (D k : Z) : option (Z * Z) :=
  let p := D - k in
  let lo := X / 10 ^ p in
  let vlo := lo * 10 ^ p in
  let vhi := vlo + 10 ^ p in
  match roundsTo vlo x, roundsTo vhi x with
  | true, true =>
      match (X - vlo) ?= (vhi - X) with
      | Lt => Some (lo, p)
      | Gt => Some (lo + 1, p)
      | Eq => if Z.even lo then Some (lo, p) else Some (lo + 1, p)
      end
  | true, false => Some (lo, p)
  | false, true => Some (lo + 1, p)
  | false, false => None
  end.

Fixpoint shortestFrom (X : Z) (x : number) (D k : Z) (fuel : nat) : Z * Z :=
  match fuel with
  | O => (X, 0)
  | S fuel' =>
      match shortestAt X x D k with
      | Some r => r
      | None => shortestFrom X x D (k + 1) fuel'
      end
  end.

Fixpoint stripZeros (fuel : nat) (s p : Z) : Z * Z :=
  match fuel with
  | O => (s, p)
  | S fuel' =>
      if (0 <? s) && (s mod 10 =? 0) then stripZeros fuel' (s / 10) (p + 1)
      else (s, p)
  end.

Definition exponential (s p : Z) : string :=
  let digits := Str.ofZ s in
  let n := Z.of_nat (String.length digits) + p in
  match digits with
  | String d EmptyString => String d ("e+" ++ Str.ofZ (n - 1))
  | String d rest => String d ("." ++ rest ++ "e+" ++ Str.ofZ (n - 1))
  | EmptyString => EmptyString
  end.

Definition toStringLarge (m : positive) (e : Z) : string :=
  let X := Zpos m * 2 ^ e in
  let D := Z.of_nat (String.length (Str.ofZ X)) in
  let '(s0, p0) := shortestFrom X (S754_finite false m e) D 1 (Z.to_nat D) in
  let '(s, p) := stripZeros (Z.to_nat D) s0 p0 in
  exponential s p.

(** [x >= 10 ^ 21] for the finite number [m * 2 ^ e]; the mantissa is
    below [2 ^ 53], so this needs [e >= 0]. *)
Definition atLeast1e21 (m : positive) (e : Z) : bool :=
  (0 <=? e) && (10 ^ 21 <=? Zpos m * 2 ^ e).

(** [x.toFixed(2)] *)
Definition toFixed2 (x : number) : string :=
  match x with
  | S754_nan => "NaN"
  | S754_infinity neg => if neg then "-Infinity" else "Infinity"
  | S754_zero _ => "0.00"
  | S754_finite neg m e =>
      (if neg then "-" else "") ++
      (if atLeast1e21 m e then toStringLarge m e else fixed2 (scaled100 m e))
  end.

End Num.

(* ================================================================== *)
(** ** Object literals used as tables *)

Module Obj.

(** Property names every object literal inherits from [Object.prototype];
    each is bound to a function or an object, hence truthy. *)
Definition inheritedNames : list string :=
  [ "constructor"; "__defineGetter__"; "__defineSetter__"; "hasOwnProperty";
    "__lookupGetter__"; "__lookupSetter__"; "isPrototypeOf";
    "propertyIsEnumerable"; "toString"; "valueOf"; "__proto__";
    "toLocaleString" ].

Definition mem (k : string) (l : list string) : bool :=
  existsb (String.eqb k) l.

Definition inherited (k : string) : bool := mem k inheritedNames.

(** [!!table[k]] for a literal whose own properties are the names [own],
    all bound to non-empty strings. *)
Definition truthyAt (own : list string) (k : string) : bool :=
  (mem k own || inherited k)%bool.

(** An array index is the canonical decimal text of an integer below
    [2^32 - 1]; [Object.entries] lists those keys first, in increasing
    numeric order, then the other keys in insertion order. *)
Definition isArrayIndex (k : string) : bool :=
  (negb (Str.isEmpty k) && Str.forallb Str.isDigit k
   && String.eqb (Str.ofZ (Str.digitsValue k)) k
   && (Str.digitsValue k <? 2 ^ 32 - 1))%bool.

Section Entries.
Context {V : Type}.

Fixpoint insertIndex (kv : string * V) (l : list (string * V))
  : list (string * V) :=
  match l with
  | [] => [kv]
  | kv' :: r =>
      if Str.digitsValue (fst kv) <? Str.digitsValue (fst kv')
      then kv :: l else kv' :: insertIndex kv r
  end.

Definition sortIndices (l : list (string * V)) : list (string * V) :=
  fold_right insertIndex [] l.

(** [Object.entries(o)] for an object whose own properties were created
    in the order of [o]. *)
Definition entries (o : list (string * V)) : list (string * V) :=
  sortIndices (filter (fun kv => isArrayIndex (fst kv)) o)
  ++ filter (fun kv => negb (isArrayIndex (fst kv))) o.

Fixpoint lookup (k : string) (o : list (string * V)) : option V :=
  match o with
  | [] => None
  | (k', v) :: r => if String.eqb k k' then Some v else lookup k r
  end.

(** [o[k] = f(o[k])] on an own property. *)
Fixpoint update (k : string) (f : V -> V) (o : list (string * V))
  : list (string * V) :=
  match o with
  | [] => []
  | (k', v) :: r =>
      if String.eqb k k' then (k', f v) :: r else (k', v) :: update k f r
  end.
End Entries.

End Obj.

(* ================================================================== *)
(** ** Arrays: [sort] *)

Module Arr.

Section Sort.
Context {A : Type}.
(** [before x y]: the comparison puts [x] no later than [y]
    ([comparefn(x, y) <= 0]). *)
Variable before : A -> A -> bool.

Fixpoint insert (x : A) (l : list A) : list A :=
  match l with
  | [] => [x]
  | y :: r => if before x y then x :: l else y :: insert x r
  end.

(** [l.sort(comparefn)]: the stable sort, for a consistent comparison. *)
Definition sort (l : list A) : list A := fold_right insert [] l.
End Sort.

(** Indices and elements, as [forEach((item, index) => ...)] sees them. *)
Definition indexed {A : Type} (l : list A) : list (nat * A) :=
  combine (seq 0 (List.length l)) l.

End Arr.

(* ================================================================== *)
(** ** FEC_CONFIG and the data model *)

(** The names of the 18 fields of a FEC line. *)
Module Field.

Inductive t : Type :=
| JournalCode
| JournalLib
| EcritureNum
| EcritureDate
| CompteNum
| CompteLib
| CompAuxNum
| CompAuxLib
| PieceRef
| PieceDate
| EcritureLib
| Debit
| Credit
| EcritureLet
| DateLet
| ValidDate
| Montantdevise
| Idevise.

Definition name (f : t) : string :=
  match f with
  | JournalCode => "JournalCode"
  | JournalLib => "JournalLib"
  | EcritureNum => "EcritureNum"
  | EcritureDate => "EcritureDate"
  | CompteNum => "CompteNum"
  | CompteLib => "CompteLib"
  | CompAuxNum => "CompAuxNum"
  | CompAuxLib => "CompAuxLib"
  | PieceRef => "PieceRef"
  | PieceDate => "PieceDate"
  | EcritureLib => "EcritureLib"
  | Debit => "Debit"
  | Credit => "Credit"
  | EcritureLet => "EcritureLet"
  | DateLet => "DateLet"
  | ValidDate => "ValidDate"
  | Montantdevise => "Montantdevise"
  | Idevise => "Idevise"
  end.

Definition eqb (f g : t) : bool := String.eqb (name f) (name g).

End Field.

(** An entry object as [parseFECFile] builds it: each of the 18 fields holds
    a string. *)
Record Entry : Type := mkEntry {
  JournalCode : string;
  JournalLib : string;
  EcritureNum : string;
  EcritureDate : string;
  CompteNum : string;
  CompteLib : string;
  CompAuxNum : string;
  CompAuxLib : string;
  PieceRef : string;
  PieceDate : string;
  EcritureLib : string;
  Debit : string;
  Credit : string;
  EcritureLet : string;
  DateLet : string;
  ValidDate : string;
  Montantdevise : string;
  Idevise : string
}.

(** [entry[field]] *)
Definition get (entry : Entry) (field : Field.t) : string :=
  match field with
  | Field.JournalCode => JournalCode entry
  | Field.JournalLib => JournalLib entry
  | Field.EcritureNum => EcritureNum entry
  | Field.EcritureDate => EcritureDate entry
  | Field.CompteNum => CompteNum entry
  | Field.CompteLib => CompteLib entry
  | Field.CompAuxNum => CompAuxNum entry
  | Field.CompAuxLib => CompAuxLib entry
  | Field.PieceRef => PieceRef entry
  | Field.PieceDate => PieceDate entry
  | Field.EcritureLib => EcritureLib entry
  | Field.Debit => Debit entry
  | Field.Credit => Credit entry
  | Field.EcritureLet => EcritureLet entry
  | Field.DateLet => DateLet entry
  | Field.ValidDate => ValidDate entry
  | Field.Montantdevise => Montantdevise entry
  | Field.Idevise => Idevise entry
  end.

(** [entry[field] = value] *)
Definition set (entry : Entry) (field : Field.t) (value : string) : Entry :=
  match field with
  | Field.JournalCode =>
      mkEntry value (JournalLib entry) (EcritureNum entry) (EcritureDate entry) (CompteNum entry) (CompteLib entry) (CompAuxNum entry) (CompAuxLib entry) (PieceRef entry) (PieceDate entry) (EcritureLib entry) (Debit entry) (Credit entry) (EcritureLet entry) (DateLet entry) (ValidDate entry) (Montantdevise entry) (Idevise entry)
  | Field.JournalLib =>
      mkEntry (JournalCode entry) value (EcritureNum entry) (EcritureDate entry) (CompteNum entry) (CompteLib entry) (CompAuxNum entry) (CompAuxLib entry) (PieceRef entry) (PieceDate entry) (EcritureLib entry) (Debit entry) (Credit entry) (EcritureLet entry) (DateLet entry) (ValidDate entry) (Montantdevise entry) (Idevise entry)
  | Field.EcritureNum =>
      mkEntry (JournalCode entry) (JournalLib entry) value (EcritureDate entry) (CompteNum entry) (CompteLib entry) (CompAuxNum entry) (CompAuxLib entry) (PieceRef entry) (PieceDate entry) (EcritureLib entry) (Debit entry) (Credit entry) (EcritureLet entry) (DateLet entry) (ValidDate entry) (Montantdevise entry) (Idevise entry)
  | Field.EcritureDate =>
      mkEntry (JournalCode entry) (JournalLib entry) (EcritureNum entry) value (CompteNum entry) (CompteLib entry) (CompAuxNum entry) (CompAuxLib entry) (PieceRef entry) (PieceDate entry) (EcritureLib entry) (Debit entry) (Credit entry) (EcritureLet entry) (DateLet entry) (ValidDate entry) (Montantdevise entry) (Idevise entry)
  | Field.CompteNum =>
      mkEntry (JournalCode entry) (JournalLib entry) (EcritureNum entry) (EcritureDate entry) value (CompteLib entry) (CompAuxNum entry) (CompAuxLib entry) (PieceRef entry) (PieceDate entry) (EcritureLib entry) (Debit entry) (Credit entry) (EcritureLet entry) (DateLet entry) (ValidDate entry) (Montantdevise entry) (Idevise entry)
  | Field.CompteLib =>
      mkEntry (JournalCode entry) (JournalLib entry) (EcritureNum entry) (EcritureDate entry) (CompteNum entry) value (CompAuxNum entry) (CompAuxLib entry) (PieceRef entry) (PieceDate entry) (EcritureLib entry) (Debit entry) (Credit entry) (EcritureLet entry) (DateLet entry) (ValidDate entry) (Montantdevise entry) (Idevise entry)
  | Field.CompAuxNum =>
      mkEntry (JournalCode entry) (JournalLib entry) (EcritureNum entry) (EcritureDate entry) (CompteNum entry) (CompteLib entry) value (CompAuxLib entry) (PieceRef entry) (PieceDate entry) (EcritureLib entry) (Debit entry) (Credit entry) (EcritureLet entry) (DateLet entry) (ValidDate entry) (Montantdevise entry) (Idevise entry)
  | Field.CompAuxLib =>
      mkEntry (JournalCode entry) (JournalLib entry) (EcritureNum entry) (EcritureDate entry) (CompteNum entry) (CompteLib entry) (CompAuxNum entry) value (PieceRef entry) (PieceDate entry) (EcritureLib entry) (Debit entry) (Credit entry) (EcritureLet entry) (DateLet entry) (ValidDate entry) (Montantdevise entry) (Idevise entry)
  | Field.PieceRef =>
      mkEntry (JournalCode entry) (JournalLib entry) (EcritureNum entry) (EcritureDate entry) (CompteNum entry) (CompteLib entry) (CompAuxNum entry) (CompAuxLib entry) value (PieceDate entry) (EcritureLib entry) (Debit entry) (Credit entry) (EcritureLet entry) (DateLet entry) (ValidDate entry) (Montantdevise entry) (Idevise entry)
  | Field.PieceDate =>
      mkEntry (JournalCode entry) (JournalLib entry) (EcritureNum entry) (EcritureDate entry) (CompteNum entry) (CompteLib entry) (CompAuxNum entry) (CompAuxLib entry) (PieceRef entry) value (EcritureLib entry) (Debit entry) (Credit entry) (EcritureLet entry) (DateLet entry) (ValidDate entry) (Montantdevise entry) (Idevise entry)
  | Field.EcritureLib =>
      mkEntry (JournalCode entry) (JournalLib entry) (EcritureNum entry) (EcritureDate entry) (CompteNum entry) (CompteLib entry) (CompAuxNum entry) (CompAuxLib entry) (PieceRef entry) (PieceDate entry) value (Debit entry) (Credit entry) (EcritureLet entry) (DateLet entry) (ValidDate entry) (Montantdevise entry) (Idevise entry)
  | Field.Debit =>
      mkEntry (JournalCode entry) (JournalLib entry) (EcritureNum entry) (EcritureDate entry) (CompteNum entry) (CompteLib entry) (CompAuxNum entry) (CompAuxLib entry) (PieceRef entry) (PieceDate entry) (EcritureLib entry) value (Credit entry) (EcritureLet entry) (DateLet entry) (ValidDate entry) (Montantdevise entry) (Idevise entry)
  | Field.Credit =>
      mkEntry (JournalCode entry) (JournalLib entry) (EcritureNum entry) (EcritureDate entry) (CompteNum entry) (CompteLib entry) (CompAuxNum entry) (CompAuxLib entry) (PieceRef entry) (PieceDate entry) (EcritureLib entry) (Debit entry) value (EcritureLet entry) (DateLet entry) (ValidDate entry) (Montantdevise entry) (Idevise entry)
  | Field.EcritureLet =>
      mkEntry (JournalCode entry) (JournalLib entry) (EcritureNum entry) (EcritureDate entry) (CompteNum entry) (CompteLib entry) (CompAuxNum entry) (CompAuxLib entry) (PieceRef entry) (PieceDate entry) (EcritureLib entry) (Debit entry) (Credit entry) value (DateLet entry) (ValidDate entry) (Montantdevise entry) (Idevise entry)
  | Field.DateLet =>
      mkEntry (JournalCode entry) (JournalLib entry) (EcritureNum entry) (EcritureDate entry) (CompteNum entry) (CompteLib entry) (CompAuxNum entry) (CompAuxLib entry) (PieceRef entry) (PieceDate entry) (EcritureLib entry) (Debit entry) (Credit entry) (EcritureLet entry) value (ValidDate entry) (Montantdevise entry) (Idevise entry)
  | Field.ValidDate =>
      mkEntry (JournalCode entry) (JournalLib entry) (EcritureNum entry) (EcritureDate entry) (CompteNum entry) (CompteLib entry) (CompAuxNum entry) (CompAuxLib entry) (PieceRef entry) (PieceDate entry) (EcritureLib entry) (Debit entry) (Credit entry) (EcritureLet entry) (DateLet entry) value (Montantdevise entry) (Idevise entry)
  | Field.Montantdevise =>
      mkEntry (JournalCode entry) (JournalLib entry) (EcritureNum entry) (EcritureDate entry) (CompteNum entry) (CompteLib entry) (CompAuxNum entry) (CompAuxLib entry) (PieceRef entry) (PieceDate entry) (EcritureLib entry) (Debit entry) (Credit entry) (EcritureLet entry) (DateLet entry) (ValidDate entry) value (Idevise entry)
  | Field.Idevise =>
      mkEntry (JournalCode entry) (JournalLib entry) (EcritureNum entry) (EcritureDate entry) (CompteNum entry) (CompteLib entry) (CompAuxNum entry) (CompAuxLib entry) (PieceRef entry) (PieceDate entry) (EcritureLib entry) (Debit entry) (Credit entry) (EcritureLet entry) (DateLet entry) (ValidDate entry) (Montantdevise entry) value
  end.

Module FEC_CONFIG.

Definition FIELDS : list Field.t :=
  [ Field.JournalCode;
    Field.JournalLib;
    Field.EcritureNum;
    Field.EcritureDate;
    Field.CompteNum;
    Field.CompteLib;
    Field.CompAuxNum;
    Field.CompAuxLib;
    Field.PieceRef;
    Field.PieceDate;
    Field.EcritureLib;
    Field.Debit;
    Field.Credit;
    Field.EcritureLet;
    Field.DateLet;
    Field.ValidDate;
    Field.Montantdevise;
    Field.Idevise ].

Module VALIDATION.
(** [/^\d{8}$/.test(s)] *)
Definition DATE_FORMAT (s : string) : bool :=
  (Str.forallb Str.isDigit s && Nat.eqb (String.length s) 8)%bool.
Definition ACCOUNT_MIN_LENGTH : nat := 3.
Definition ACCOUNT_MAX_LENGTH : nat := 20.
(** The literal [9999999999.99] *)
Definition MAX_AMOUNT : Num.number := Num.parseFloat "9999999999.99".
(** The literal [0.01] *)
Definition BALANCE_TOLERANCE : Num.number := Num.parseFloat "0.01".
End VALIDATION.

(** Own property names of the two tables; the labels they are bound to are
    non-empty strings. *)
Definition PCG_CLASSES : list string :=
  [ "1"; "2"; "3"; "4"; "5"; "6"; "7"; "8" ].

Definition JOURNAL_CODES : list string :=
  [ "AC"; "VE"; "BQ"; "CA"; "OD"; "AN" ].

End FEC_CONFIG.

(* ================================================================== *)
(** ** Messages, issues and completions *)

(** One constructor per message template of the module, with the values the
    template interpolates. *)
Inductive Message : Type :=
| MissingField (field : Field.t)          (* Champ requis manquant: F *)
| BadDateFormat (date : string)           (* Format de date invalide: D *)
| BadAccountNumber (num : string)         (* Numero de compte invalide: N *)
| BadAccountClass (class : string)        (* Classe de compte invalide: C *)
| BadDebit (text : string)                (* Montant debit invalide: T *)
| BadCredit (text : string)               (* Montant credit invalide: T *)
| DebitTooHigh (debit : Num.number)       (* Debit trop eleve: X *)
| CreditTooHigh (credit : Num.number)     (* Credit trop eleve: X *)
| NoAmount            (* Au moins un montant ... doit etre non nul *)
| BothAmounts         (* Debit et credit ne peuvent pas etre tous deux renseignes *)
| NothingToValidate   (* Aucune ecriture a valider *)
| Unbalanced (ref debit credit : string)  (* Piece R desequilibree: Debit D, Credit C *)
| OutOfOrder (num date prevNum prevDate : string)
                      (* Ordre chronologique non respecte: N (D) apres N' (D') *)
| DuplicateNumber (num : string)          (* Numero d'ecriture duplique: N *)
| ZeroVat (account : string)              (* Compte TVA A avec montant nul *)
| NonStandardJournal (code : string)      (* Code journal non standard: J *)
| NothingToExport     (* Aucune ecriture a exporter *)
| EmptyFile           (* Fichier FEC vide *)
| TooFewLines         (* Fichier FEC invalide: moins de 2 lignes *)
| BadHeader (columns expected : nat)
                      (* Format FEC invalide: N colonnes au lieu de M *)
| CannotPush          (* pieceRefs[ref].entries.push cannot be called *).

Inductive Exception : Type :=
| Error (message : Message)
| TypeError (message : Message).

Inductive Completion (A : Type) : Type :=
| Returned (value : A)
| Thrown (e : Exception).

Arguments Returned {A} value.
Arguments Thrown {A} e.

Inductive IssueType : Type :=
| EMPTY_FEC
| ENTRY_INVALID
| BALANCE_ERROR
| CHRONOLOGY_WARNING
| DUPLICATE_NUM
| VAT_WARNING
| UNKNOWN_JOURNAL.

Definition IssueType_eqb (a b : IssueType) : bool :=
  match a, b with
  | EMPTY_FEC, EMPTY_FEC | ENTRY_INVALID, ENTRY_INVALID
  | BALANCE_ERROR, BALANCE_ERROR | CHRONOLOGY_WARNING, CHRONOLOGY_WARNING
  | DUPLICATE_NUM, DUPLICATE_NUM | VAT_WARNING, VAT_WARNING
  | UNKNOWN_JOURNAL, UNKNOWN_JOURNAL => true
  | _, _ => false
  end.

(** An element of [errors] or [warnings]; [entry] is [None] where the
    object literal has no such property. *)
Module Issue.
Record t : Type := mk {
  type : IssueType;
  message : Message;
  entry : option string
}.
End Issue.

(** The result of [validateEntry]. *)
Module EntryResult.
Record t : Type := mk {
  valid : bool;
  errors : list Message
}.
End EntryResult.

(** The result of [validateFECCompliance]. *)
Module Report.
Record t : Type := mk {
  valid : bool;
  errors : list Issue.t;
  warnings : list Issue.t
}.
End Report.

(* ================================================================== *)
(** ** Validation *)

Import FEC_CONFIG.
Local Open Scope list_scope.

Definition requiredFields : list Field.t :=
  [ Field.JournalCode; Field.EcritureNum; Field.EcritureDate;
    Field.CompteNum; Field.CompteLib; Field.PieceRef; Field.EcritureLib ].

(** [when c l]: what an [if (c) errors.push(...)] adds. *)
Definition when {A : Type} (c : bool) (l : list A) : list A :=
  if c then l else [].

(** [s[0]] of a non-empty string, as a one-character string. *)
Definition firstChar (s : string) : string :=
  match s with
  | String c _ => String c EmptyString
  | EmptyString => EmptyString
  end.

Definition validateEntry (entry : Entry) : EntryResult.t :=
  let missing :=
    flat_map (fun field =>
      when (Str.isEmpty (get entry field)
            || Str.isEmpty (Str.trim (get entry field)))
           [MissingField field]) requiredFields in
  let date :=
    when (negb (Str.isEmpty (EcritureDate entry))
          && negb (VALIDATION.DATE_FORMAT (EcritureDate entry)))
         [BadDateFormat (EcritureDate entry)] in
  let account :=
    when (negb (Str.isEmpty (CompteNum entry)))
      (let accountLen := String.length (CompteNum entry) in
       let accountClass := firstChar (CompteNum entry) in
       when (Nat.ltb accountLen VALIDATION.ACCOUNT_MIN_LENGTH
             || Nat.ltb VALIDATION.ACCOUNT_MAX_LENGTH accountLen)
            [BadAccountNumber (CompteNum entry)]
       ++ when (negb (Obj.truthyAt PCG_CLASSES accountClass))
               [BadAccountClass accountClass]) in
  let debit := Num.parseFloatOr0 (Debit entry) in
  let credit := Num.parseFloatOr0 (Credit entry) in
  let amounts :=
    when (Num.isNaN debit) [BadDebit (Debit entry)]
    ++ when (Num.isNaN credit) [BadCredit (Credit entry)]
    ++ when (Num.gt debit VALIDATION.MAX_AMOUNT) [DebitTooHigh debit]
    ++ when (Num.gt credit VALIDATION.MAX_AMOUNT) [CreditTooHigh credit]
    ++ when (Num.eq debit Num.zero && Num.eq credit Num.zero) [NoAmount]
    ++ when (Num.gt debit Num.zero && Num.gt credit Num.zero) [BothAmounts] in
  let errors := missing ++ date ++ account ++ amounts in
  EntryResult.mk (Nat.eqb (List.length errors) 0) errors.

(** The running totals of one piece, [{ debit, credit, entries }]. *)
Module Totals.
Record t : Type := mk {
  debit : Num.number;
  credit : Num.number;
  entries : list string
}.
End Totals.

(** The three updates of [pieceRefs[ref]] for one entry. *)
Definition accumulate (entry : Entry) (totals : Totals.t) : Totals.t :=
  Totals.mk (Num.add (Totals.debit totals) (Num.parseFloatOr0 (Debit entry)))
            (Num.add (Totals.credit totals) (Num.parseFloatOr0 (Credit entry)))
            (Totals.entries totals ++ [EcritureNum entry]).

(** One step of the loop that fills [pieceRefs]. When [ref] names a member
    inherited from [Object.prototype], [pieceRefs[ref]] is truthy, no totals
    object is created, and [pieceRefs[ref].entries.push] throws. *)
Definition addToPiece (pieceRefs : list (string * Totals.t)) (entry : Entry)
  : Completion (list (string * Totals.t)) :=
  let ref := PieceRef entry in
  match Obj.lookup ref pieceRefs with
  | Some _ => Returned (Obj.update ref (accumulate entry) pieceRefs)
  | None =>
      if Obj.inherited ref then Thrown (TypeError CannotPush)
      else Returned (pieceRefs
                     ++ [(ref, accumulate entry (Totals.mk Num.zero Num.zero []))])
  end.

Fixpoint collectPieces (pieceRefs : list (string * Totals.t))
  (entries : list Entry) : Completion (list (string * Totals.t)) :=
  match entries with
  | [] => Returned pieceRefs
  | entry :: rest =>
      match addToPiece pieceRefs entry with
      | Returned pieceRefs' => collectPieces pieceRefs' rest
      | Thrown e => Thrown e
      end
  end.

Definition balanceErrors (pieceRefs : list (string * Totals.t))
  : list Issue.t :=
  flat_map (fun '(ref, totals) =>
    let diff := Num.abs (Num.sub (Totals.debit totals) (Totals.credit totals)) in
    when (Num.gt diff VALIDATION.BALANCE_TOLERANCE)
      [Issue.mk BALANCE_ERROR
         (Unbalanced ref (Num.toFixed2 (Totals.debit totals))
                         (Num.toFixed2 (Totals.credit totals)))
         (Some ref)])
    (Obj.entries pieceRefs).

(** An element of [dates], [{ date, num }]. *)
Module DateNum.
Record t : Type := mk { date : string; num : string }.
End DateNum.

(** The [forEach] over the sorted [dates], with the closure variable
    [prevDate] and the running [index]. *)
Fixpoint chronologyFrom (dates : list DateNum.t) (prevDate : string)
  (index : nat) (items : list DateNum.t) : list Issue.t :=
  match items with
  | [] => []
  | item :: rest =>
      when (Nat.ltb 0 index && String.ltb (DateNum.date item) prevDate)
        (let prev := nth (index - 1) dates (DateNum.mk "" "") in
         [Issue.mk CHRONOLOGY_WARNING
            (OutOfOrder (DateNum.num item) (DateNum.date item)
                        (DateNum.num prev) (DateNum.date prev))
            None])
      ++ chronologyFrom dates (DateNum.date item) (S index) rest
  end.

(** The loop [for (i = 1; i < n; i++)] over the sorted numbers. *)
Fixpoint duplicateErrors (ecritureNums : list string) : list Issue.t :=
  match ecritureNums with
  | previous :: (current :: _) as rest =>
      when (String.eqb current previous)
        [Issue.mk DUPLICATE_NUM (DuplicateNumber current) None]
      ++ duplicateErrors rest
  | _ => []
  end.

Definition vatWarnings (entries : list Entry) : list Issue.t :=
  flat_map (fun entry =>
    when (negb (Str.isEmpty (CompteNum entry))
          && prefix "445" (CompteNum entry))
      (let amount :=
         Num.parseFloatOr0 (Str.or (Debit entry) (Credit entry)) in
       when (Num.eq amount Num.zero)
         [Issue.mk VAT_WARNING (ZeroVat (CompteNum entry))
            (Some (EcritureNum entry))]))
    entries.

Definition journalWarnings (entries : list Entry) : list Issue.t :=
  flat_map (fun entry =>
    when (negb (Str.isEmpty (JournalCode entry))
          && negb (Obj.truthyAt JOURNAL_CODES (JournalCode entry)))
      [Issue.mk UNKNOWN_JOURNAL (NonStandardJournal (JournalCode entry))
         (Some (EcritureNum entry))])
    entries.

(** [entry.EcritureNum || `Ligne ${index + 1}`] *)
Definition entryTag (entry : Entry) (index : nat) : string :=
  Str.or (EcritureNum entry)
         ("Ligne " ++ Str.ofZ (Z.of_nat index + 1))%string.

Definition entryErrors (entries : list Entry) : list Issue.t :=
  flat_map (fun '(index, entry) =>
    let validation := validateEntry entry in
    when (negb (EntryResult.valid validation))
      (map (fun error =>
              Issue.mk ENTRY_INVALID error (Some (entryTag entry index)))
           (EntryResult.errors validation)))
    (Arr.indexed entries).

Section Validate.

(** [a.localeCompare(b)]: the collation of the host, a number that is
    negative, zero or positive. *)
Variable localeCompare : string -> string -> Z.

Definition sortedDates (entries : list Entry) : list DateNum.t :=
  Arr.sort
    (fun a b => localeCompare (DateNum.date a) (DateNum.date b) <=? 0)
    (map (fun e => DateNum.mk (EcritureDate e) (EcritureNum e)) entries).

Definition chronologyWarnings (entries : list Entry) : list Issue.t :=
  let dates := sortedDates entries in
  chronologyFrom dates "" 0 dates.

(** [entries.map(e => e.EcritureNum).sort()]: code unit order. *)
Definition sortedNums (entries : list Entry) : list string :=
  Arr.sort String.leb (map EcritureNum entries).

Definition validateFECCompliance (entries : list Entry)
  : Completion Report.t :=
  if Nat.eqb (List.length entries) 0 then
    Returned (Report.mk false
                [Issue.mk EMPTY_FEC NothingToValidate None] [])
  else
    let errors1 := entryErrors entries in
    match collectPieces [] entries with
    | Thrown e => Thrown e
    | Returned pieceRefs =>
        let errors2 := balanceErrors pieceRefs in
        let warnings3 := chronologyWarnings entries in
        let errors4 := duplicateErrors (sortedNums entries) in
        let warnings5 := vatWarnings entries in
        let warnings6 := journalWarnings entries in
        let errors := errors1 ++ errors2 ++ errors4 in
        let warnings := warnings3 ++ warnings5 ++ warnings6 in
        Returned (Report.mk (Nat.eqb (List.length errors) 0) errors warnings)
    end.

End Validate.

(* ================================================================== *)
(** ** Generation and parsing *)

Definition isAmountField (field : Field.t) : bool :=
  (Field.eqb field Field.Debit || Field.eqb field Field.Credit
   || Field.eqb field Field.Montantdevise)%bool.

(** An entry object handed to [generateFECFile]: a property may be absent
    ([undefined]). *)
Definition EntryObject : Type := Field.t -> option string.

(** The object [parseFECFile] built, seen as such an object. *)
Definition objectOf (entry : Entry) : EntryObject :=
  fun field => Some (get entry field).

(** The body of [FIELDS.map(field => ...)]: the text of one column. *)
Definition columnText (entry : EntryObject) (field : Field.t) : string :=
  let value :=
    match entry field with
    | Some v => Str.or v ""
    | None => ""
    end in
  let value :=
    if isAmountField field then
      let num := Num.parseFloatOr0 value in
      Str.replaceFirst "." "," (Num.toFixed2 num)
    else value in
  Str.removeAll "|" value.

Definition CRLF : string := String Str.CR (String Str.LF EmptyString).

Definition headerLine : string := Str.join "|" (map Field.name FIELDS).

Definition dataLine (entry : EntryObject) : string :=
  Str.join "|" (map (columnText entry) FIELDS).

Definition generateFECFile (entries : list EntryObject) : Completion string :=
  if Nat.eqb (List.length entries) 0 then Thrown (Error NothingToExport)
  else
    let header := headerLine in
    let lines := map dataLine entries in
    Returned (Str.join CRLF (header :: lines)).

(** The object literal [{}] before its properties are assigned; all 18 are
    assigned before the object is used. *)
Definition emptyObject : Entry :=
  mkEntry "" "" "" "" "" "" "" "" "" "" "" "" "" "" "" "" "" "".

(** The body of [expectedFields.forEach((field, index) => ...)]. *)
Definition assignField (values : list string) (entry : Entry)
  (indexField : nat * Field.t) : Entry :=
  let '(index, field) := indexField in
  let value := Str.trim (nth index values "") in
  let value :=
    if isAmountField field then Str.replaceFirst "," "." value else value in
  set entry field value.

Definition entryOfValues (values : list string) : Entry :=
  fold_left (assignField values) (Arr.indexed FIELDS) emptyObject.

(** The loop over the data lines: a line whose column count is not the
    expected one is skipped. *)
Definition parseLines (dataLines : list string) : list Entry :=
  flat_map (fun line =>
    let values := Str.split "|" line in
    if negb (Nat.eqb (List.length values) (List.length FIELDS)) then []
    else [entryOfValues values]) dataLines.

(** [content.split(/\r?\n/).filter(line => line.trim() !== '')] *)
Definition nonBlankLines (content : string) : list string :=
  filter (fun line => negb (Str.isEmpty (Str.trim line)))
         (Str.splitLines content).

Definition parseFECFile (content : string) : Completion (list Entry) :=
  if (Str.isEmpty content || Str.isEmpty (Str.trim content))%bool
  then Thrown (Error EmptyFile)
  else
    let lines := nonBlankLines content in
    if Nat.ltb (List.length lines) 2 then Thrown (Error TooFewLines)
    else
      let header := Str.split "|" (nth 0 lines "") in
      if negb (Nat.eqb (List.length header) (List.length FIELDS))
      then Thrown (Error (BadHeader (List.length header) (List.length FIELDS)))
      else Returned (parseLines (tl lines)).

(* ================================================================== *)
(** ** Statistics *)

Module NumText.

(** [ToNumber] of a string. *)

Definition hexValue (c : ascii) : option Z :=
  let n := Z.of_nat (nat_of_ascii c) in
  if (48 <=? n) && (n <=? 57) then Some (n - 48)
  else if (65 <=? n) && (n <=? 70) then Some (n - 55)
  else if (97 <=? n) && (n <=? 102) then Some (n - 87)
  else None.

(** The value of a non-empty string of digits in the base, [None] when a
    character is not such a digit. *)
Fixpoint digitsInBase (base : Z) (acc : Z) (s : string) : option Z :=
  match s with
  | EmptyString => Some acc
  | String c r =>
      match hexValue c with
      | Some d => if d <? base then digitsInBase base (base * acc + d) r
                  else None
      | None => None
      end
  end.

(** [NonDecimalIntegerLiteral]: 0x, 0o or 0b and at least one digit. *)
Definition nonDecimal (s : string) : option (option Z) :=
  match s with
  | String "0" (String p r) =>
      let base :=
        if (Ascii.eqb p "x" || Ascii.eqb p "X")%bool then Some 16
        else if (Ascii.eqb p "o" || Ascii.eqb p "O")%bool then Some 8
        else if (Ascii.eqb p "b" || Ascii.eqb p "B")%bool then Some 2
        else None in
      match base with
      | Some b => Some (if Str.isEmpty r then None else digitsInBase b 0 r)
      | None => None
      end
  | _ => None
  end.

(** The exponent part and what follows it. *)
Definition exponentAndRest (s : string) : Z * string :=
  match s with
  | String c r =>
      if Num.isExponentIndicator c then
        let '(neg, u) :=
          match r with
          | String "-" t => (true, t)
          | String "+" t => (false, t)
          | _ => (false, r)
          end in
        let '(d, rest) := Str.spanDigits u in
        if Str.isEmpty d then (0, s)
        else (if neg then - Str.digitsValue d else Str.digitsValue d, rest)
      else (0, s)
  | EmptyString => (0, s)
  end.

(** [StrDecimalLiteral]: the whole string must be one. *)
Definition decimal (t : string) : Num.number :=
  let '(neg, u) :=
    match t with
    | String "-" r => (true, r)
    | String "+" r => (false, r)
    | _ => (false, t)
    end in
  if String.eqb u "Infinity" then S754_infinity neg
  else
    let '(ip, r1) := Str.spanDigits u in
    let '(fp, r2) :=
      match r1 with
      | String "." r => Str.spanDigits r
      | _ => (EmptyString, r1)
      end in
    if (Str.isEmpty ip && Str.isEmpty fp)%bool then Num.NaN
    else
      let '(e, rest) := exponentAndRest r2 in
      if Str.isEmpty rest
      then Num.ofDecimal neg (Str.digitsValue (ip ++ fp))
                         (e - Z.of_nat (String.length fp))
      else Num.NaN.

(** [Number(s)]: white space is dropped at both ends; the empty text is 0;
    a text that is not a numeric literal as a whole is NaN. *)
Definition toNumber (s : string) : Num.number :=
  let t := Str.trim s in
  if Str.isEmpty t then Num.zero
  else
    match nonDecimal t with
    | Some (Some n) => Num.ofDecimal false n 0
    | Some None => Num.NaN
    | None => decimal t
    end.

End NumText.

(** [Math.min] and [Math.max] of at least one number: NaN if any argument
    is, and [-0] counts as smaller than [+0]. *)
Definition min2 (a b : Num.number) : Num.number :=
  if (Num.isNaN a || Num.isNaN b)%bool then Num.NaN
  else match a, b with
       | S754_zero sa, S754_zero sb => S754_zero (sa || sb)
       | _, _ => if SFltb b a then b else a
       end.

Definition max2 (a b : Num.number) : Num.number :=
  if (Num.isNaN a || Num.isNaN b)%bool then Num.NaN
  else match a, b with
       | S754_zero sa, S754_zero sb => S754_zero (sa && sb)
       | _, _ => if SFltb a b then b else a
       end.

Definition Math_min (l : list Num.number) : Num.number :=
  fold_left min2 l (S754_infinity false).

Definition Math_max (l : list Num.number) : Num.number :=
  fold_left max2 l (S754_infinity true).

(** A value of the object [countByField] fills: a count, or, once a key
    met a member inherited from [Object.prototype], a text. *)
Inductive Tally : Type :=
| Count (n : nat)
| Text (s : string).

(** The e with an acute accent, in ISO-8859-1. *)
Definition eAcute : ascii := ascii_of_nat 233.

(** The text [Non renseigne], with its accent. *)
Definition NonRenseigne : string :=
  ("Non renseign" ++ String eAcute "")%string.

Section CountByField.

(** [String(Object.prototype[name])] for a member other than [__proto__]:
    the source text of a built-in function, which the host chooses. *)
Variable sourceText : string -> string.

(** One turn of the loop: [counts[value] = (counts[value] || 0) + 1]. An
    inherited member is truthy, so adding 1 to it makes a text; the
    assignment to [__proto__] of a text changes nothing. *)
Definition tally (counts : list (string * Tally)) (value : string)
  : list (string * Tally) :=
  match Obj.lookup value counts with
  | Some _ =>
      Obj.update value
        (fun t => match t with
                  | Count n => Count (n + 1)
                  | Text s => Text (s ++ "1")
                  end) counts
  | None =>
      if String.eqb value "__proto__" then counts
      else if Obj.inherited value
        then counts ++ [(value, Text (sourceText value ++ "1"))]
        else counts ++ [(value, Count 1)]
  end.

Definition countByField (entries : list Entry) (field : Field.t)
  : list (string * Tally) :=
  fold_left (fun counts entry =>
               tally counts (Str.or (get entry field) NonRenseigne))
            entries [].

End CountByField.

(** The labels of the account classes. *)
Definition PCG_CLASS_LABELS : list (string * string) :=
  [ ("1", "Comptes de capitaux");
    ("2", "Comptes d'immobilisations");
    ("3", "Comptes de stocks");
    ("4", "Comptes de tiers");
    ("5", "Comptes financiers");
    ("6", "Comptes de charges");
    ("7", "Comptes de produits");
    ("8", ("Comptes sp" ++ String eAcute "ciaux")%string) ].

(** [FEC_CONFIG.PCG_CLASSES[classNum] || 'Classe inconnue'] for a key of
    one character. *)
Definition className (classNum : string) : string :=
  match Obj.lookup classNum PCG_CLASS_LABELS with
  | Some label => label
  | None => "Classe inconnue"
  end.

(** A value of the object [countAccountClasses] fills. *)
Module ClassCount.
Record t : Type := mk { name : string; count : nat }.
End ClassCount.

Definition countAccountClasses (entries : list Entry)
  : list (string * ClassCount.t) :=
  fold_left (fun classes entry =>
    if Str.isEmpty (CompteNum entry) then classes
    else
      let classNum := firstChar (CompteNum entry) in
      let classes :=
        match Obj.lookup classNum classes with
        | Some _ => classes
        | None => classes ++ [(classNum, ClassCount.mk (className classNum) 0)]
        end in
      Obj.update classNum
        (fun c => ClassCount.mk (ClassCount.name c) (ClassCount.count c + 1))
        classes)
    entries [].

(** The result of [getStatistics]; [dateRange] holds [null] for an empty
    ledger. *)
Module Stats.
Record t : Type := mk {
  totalEntries : nat;
  validatedEntries : nat;
  totalDebit : Num.number;
  totalCredit : Num.number;
  dateRangeStart : option Num.number;
  dateRangeEnd : option Num.number;
  journalCounts : list (string * Tally);
  accountClasses : list (string * ClassCount.t)
}.
End Stats.

Definition getStatistics (sourceText : string -> string)
  (entries : list Entry) : Stats.t :=
  Stats.mk
    (List.length entries)
    (List.length
       (filter (fun e => negb (Str.isEmpty (ValidDate e))
                         && negb (Str.isEmpty (Str.trim (ValidDate e))))
               entries))
    (fold_left (fun sum e => Num.add sum (Num.parseFloatOr0 (Debit e)))
               entries Num.zero)
    (fold_left (fun sum e => Num.add sum (Num.parseFloatOr0 (Credit e)))
               entries Num.zero)
    (if Nat.ltb 0 (List.length entries)
     then Some (Math_min (map (fun e => NumText.toNumber (EcritureDate e))
                              entries))
     else None)
    (if Nat.ltb 0 (List.length entries)
     then Some (Math_max (map (fun e => NumText.toNumber (EcritureDate e))
                              entries))
     else None)
    (countByField sourceText entries Field.JournalCode)
    (countAccountClasses entries).

(* ================================================================== *)
(** ** The module loader *)

(** An entry of [moduleRegistry]; [depends] is absent from some. *)
Module ModuleInfo.
Record t : Type := mk {
  loaded : bool;
  required : bool;
  path : string;
  global : string;
  depends : option (list string)
}.

(** [module.loaded = true]. *)
Definition markLoaded (m : t) : t :=
  mk true (required m) (path m) (global m) (depends m).
End ModuleInfo.

Definition Registry : Type := list (string * ModuleInfo.t).

Definition moduleRegistry : Registry :=
  [ ("security",
     ModuleInfo.mk false true "utils/security.js" "NUMMA_SECURITY" None);
    ("table-helpers",
     ModuleInfo.mk false true "utils/table-helpers.js" "TABLE_HELPERS" None);
    ("messages",
     ModuleInfo.mk false true "modules/numma-messages.js" "showMessage"
                   (Some ["security"]));
    ("invoices",
     ModuleInfo.mk false false "modules/numma-invoices.js" "InvoiceAPI"
                   (Some ["security"; "messages"]));
    ("employees",
     ModuleInfo.mk false false "modules/numma-employees.js" "EmployeeAPI"
                   (Some ["security"; "messages"; "exports"]));
    ("pointages",
     ModuleInfo.mk false false "modules/numma-pointages.js" "PointageAPI"
                   (Some ["security"; "messages"]));
    ("exports",
     ModuleInfo.mk false false "modules/numma-exports.js" "NummaExports"
                   (Some ["security"]));
    ("fec",
     ModuleInfo.mk false false "modules/fec-module.js" "FECModule" (Some []));
    ("imports",
     ModuleInfo.mk false false "modules/numma-imports.js" "ImportsModule"
                   (Some ["security"; "messages"; "fec"]));
    ("interactive",
     ModuleInfo.mk false false "modules/numma-interactive-complete.js"
                   "InteractiveModule" (Some ["security"]));
    ("quick-actions",
     ModuleInfo.mk false false "modules/quick-actions.js" "QuickActions"
                   (Some ["security"; "messages"]));
    ("main",
     ModuleInfo.mk false true "app/main.js" "AppState"
                   (Some ["security"; "messages"])) ].

(** [loadingState]. *)
Module LoadingState.
Record t : Type := mk {
  initialized : bool;
  errors : list string;
  warnings : list string
}.

Definition initial : t := mk false [] [].

Definition setInitialized (s : t) : t := mk true (errors s) (warnings s).

Definition pushError (message : string) (s : t) : t :=
  mk (initialized s) (errors s ++ [message]) (warnings s).

Definition pushWarning (message : string) (s : t) : t :=
  mk (initialized s) (errors s) (warnings s ++ [message]).
End LoadingState.

(** What [isModuleLoaded] returns: a boolean, or [undefined] when the name
    is a member of [Object.prototype], whose value has no [loaded]. *)
Inductive Answer : Type :=
| Boolean (b : bool)
| Undefined.

Definition truthy (a : Answer) : bool :=
  match a with
  | Boolean b => b
  | Undefined => false
  end.

(** The result of [checkDependencies]. *)
Module Dependencies.
Record t : Type := mk { satisfied : bool; missing : list string }.
End Dependencies.

Section Loader.

(** [typeof window[name] !== 'undefined'], at the time of the call. *)
Variable defined : string -> bool.

(** [isModuleLoaded(moduleName)]: the answer and the registry, in which
    the module found may have been marked. Console output is left out. *)
Definition isModuleLoaded (registry : Registry) (moduleName : string)
  : Answer * Registry :=
  match Obj.lookup moduleName registry with
  | None =>
      if Obj.inherited moduleName then (Undefined, registry)
      else (Boolean false, registry)
  | Some module =>
      if Str.isEmpty (ModuleInfo.global module)
      then (Boolean (ModuleInfo.loaded module), registry)
      else
        let exists_ := defined (ModuleInfo.global module) in
        (Boolean exists_,
         if (exists_ && negb (ModuleInfo.loaded module))%bool
         then Obj.update moduleName ModuleInfo.markLoaded registry
         else registry)
  end.

(** The loop of [checkDependencies]. *)
Definition checkEach (depends : list string) (registry : Registry)
  : list string * Registry :=
  fold_left (fun (acc : list string * Registry) depName =>
               let (answer, registry) :=
                 isModuleLoaded (snd acc) depName in
               if truthy answer then (fst acc, registry)
               else (fst acc ++ [depName], registry))
            depends ([], registry).

Definition checkDependencies (registry : Registry) (moduleName : string)
  : Dependencies.t * Registry :=
  match Obj.lookup moduleName registry with
  | None => (Dependencies.mk true [], registry)
  | Some module =>
      match ModuleInfo.depends module with
      | None => (Dependencies.mk true [], registry)
      | Some depends =>
          let (missing, registry) := checkEach depends registry in
          (Dependencies.mk (Nat.eqb (List.length missing) 0) missing,
           registry)
      end
  end.

(** One turn of the loop of [initializeModules], on an element of
    [Object.entries(moduleRegistry)]. *)
Definition checkModule (state : Registry * LoadingState.t)
  (entry : string * ModuleInfo.t) : Registry * LoadingState.t :=
  let (moduleName, module) := entry in
  let (loaded, registry) := isModuleLoaded (fst state) moduleName in
  if negb (truthy loaded) then
    let message := ("Module " ++ moduleName ++ " not loaded")%string in
    if ModuleInfo.required module
    then (registry, LoadingState.pushError message (snd state))
    else (registry, LoadingState.pushWarning message (snd state))
  else
    let (deps, registry) := checkDependencies registry moduleName in
    if negb (Dependencies.satisfied deps) then
      let message :=
        (moduleName ++ " missing dependencies: "
         ++ Str.join ", " (Dependencies.missing deps))%string in
      (registry, LoadingState.pushWarning message (snd state))
    else (registry, snd state).

(** [initializeModules()]: what it returns, and the registry and the
    loading state it leaves. The summary it prints and the call of
    [window.showError] are left out. *)
Definition initializeModules (state : Registry * LoadingState.t)
  : bool * (Registry * LoadingState.t) :=
  let state' :=
    fold_left checkModule (Obj.entries (fst state))
              (fst state, LoadingState.setInitialized (snd state)) in
  (Nat.eqb (List.length (LoadingState.errors (snd state'))) 0, state').

End Loader.

(** An entry of the object [getModuleStatus] returns. *)
Module ModuleStatus.
Record t : Type := mk {
  loaded : Answer;
  required : bool;
  path : string;
  dependencies : list string;
  dependenciesSatisfied : bool;
  missingDependencies : list string
}.
End ModuleStatus.

(** [o[k] = v] for a key other than [__proto__], which an object literal
    such as the registry cannot hold as an own property. *)
Definition assign {V : Type} (k : string) (v : V) (o : list (string * V))
  : list (string * V) :=
  match Obj.lookup k o with
  | Some _ => Obj.update k (fun _ => v) o
  | None => o ++ [(k, v)]
  end.

Section Diagnostics.
Variable defined : string -> bool.

(** One turn of the loop of [getModuleStatus]. *)
Definition moduleStatus
  (acc : list (string * ModuleStatus.t) * Registry)
  (entry : string * ModuleInfo.t)
  : list (string * ModuleStatus.t) * Registry :=
  let (name, module) := entry in
  let (loaded, registry) := isModuleLoaded defined (snd acc) name in
  let (deps, registry) := checkDependencies defined registry name in
  (assign name
     (ModuleStatus.mk loaded
        (ModuleInfo.required module)
        (ModuleInfo.path module)
        (match ModuleInfo.depends module with
         | Some depends => depends
         | None => []
         end)
        (Dependencies.satisfied deps)
        (Dependencies.missing deps))
     (fst acc),
   registry).

(** [getModuleStatus()]: the status object and the registry it leaves. *)
Definition getModuleStatus (registry : Registry)
  : list (string * ModuleStatus.t) * Registry :=
  fold_left moduleStatus (Obj.entries registry) ([], registry).

End Diagnostics.

(* ================================================================== *)
(** ** Vocabulary of the statements *)

(** A collation that orders strings by their code units; on strings of
    ASCII digits every collation of the host agrees with it. *)
Definition codeUnitCompare (a b : string) : Z :=
  match String.compare a b with
  | Lt => -1
  | Eq => 0
  | Gt => 1
  end.

(** The column of a field in a FEC line, from 0. *)
Definition position (field : Field.t) : nat :=
  match field with
  | Field.JournalCode => 0 | Field.JournalLib => 1 | Field.EcritureNum => 2
  | Field.EcritureDate => 3 | Field.CompteNum => 4 | Field.CompteLib => 5
  | Field.CompAuxNum => 6 | Field.CompAuxLib => 7 | Field.PieceRef => 8
  | Field.PieceDate => 9 | Field.EcritureLib => 10 | Field.Debit => 11
  | Field.Credit => 12 | Field.EcritureLet => 13 | Field.DateLet => 14
  | Field.ValidDate => 15 | Field.Montantdevise => 16 | Field.Idevise => 17
  end%nat.

(** No [PieceRef] of the ledger names a member of [Object.prototype]. *)
Definition plainRefs (entries : list Entry) : Prop :=
  Forall (fun e => Obj.inherited (PieceRef e) = false) entries.

(** The debit and credit of an entry as the validator reads them. *)
Definition debitOf (e : Entry) : Num.number := Num.parseFloatOr0 (Debit e).
Definition creditOf (e : Entry) : Num.number := Num.parseFloatOr0 (Credit e).

(** The entries of a piece, in ledger order, and the sums of their debits
    and credits, added in that order from 0. *)
Definition pieceOf (ref : string) (entries : list Entry) : list Entry :=
  filter (fun e => String.eqb (PieceRef e) ref) entries.

Definition sumOf (amounts : list Num.number) : Num.number :=
  fold_left Num.add amounts Num.zero.

(** The collation agrees with the code unit order on texts of eight
    digits. *)
Definition agreesOnDates (localeCompare : string -> string -> Z) : Prop :=
  forall a b,
    VALIDATION.DATE_FORMAT a = true -> VALIDATION.DATE_FORMAT b = true ->
    (localeCompare a b <=? 0) = String.leb a b.

Definition wellDated (entries : list Entry) : Prop :=
  Forall (fun e => VALIDATION.DATE_FORMAT (EcritureDate e) = true) entries.

(** The number of columns of a line, [line.split('|').length]. *)
Definition columns (line : string) : nat :=
  List.length (Str.split "|" line).

(** The [DUPLICATE_NUM] errors that mention the number [v]. *)
Definition isDuplicateOf (v : string) (i : Issue.t) : bool :=
  (IssueType_eqb (Issue.type i) DUPLICATE_NUM
   && match Issue.message i with
      | DuplicateNumber n => String.eqb n v
      | _ => false
      end)%bool.

Definition duplicateReports (v : string) (errors : list Issue.t) : nat :=
  List.length (filter (isDuplicateOf v) errors).

(** How many entries of the ledger carry the number [v]. *)
Definition occurrences (v : string) (entries : list Entry) : nat :=
  count_occ string_dec (map EcritureNum entries) v.

(** The sums of the debits and of the credits of a piece. *)
Definition debitSum (ref : string) (entries : list Entry) : Num.number :=
  sumOf (map debitOf (pieceOf ref entries)).

Definition creditSum (ref : string) (entries : list Entry) : Num.number :=
  sumOf (map creditOf (pieceOf ref entries)).

(** [|debit - credit| > BALANCE_TOLERANCE] for the sums of a piece. *)
Definition beyondTolerance (ref : string) (entries : list Entry) : bool :=
  Num.gt (Num.abs (Num.sub (debitSum ref entries) (creditSum ref entries)))
         VALIDATION.BALANCE_TOLERANCE.

(** The [BALANCE_ERROR] of a piece: its reference and both sums with two
    decimals. *)
Definition balanceError (ref : string) (entries : list Entry) : Issue.t :=
  Issue.mk BALANCE_ERROR
    (Unbalanced ref (Num.toFixed2 (debitSum ref entries))
                    (Num.toFixed2 (creditSum ref entries)))
    (Some ref).

(** The totals of a piece after the entries [es] were added to [t]. *)
Definition absorbAll (es : list Entry) (t : Totals.t) : Totals.t :=
  fold_left (fun t e => accumulate e t) es t.

(** The text [generateFECFile] writes for an amount and [parseFECFile]
    reads back: the value with two decimals and a point. *)
Definition canonicalAmount (v : string) : string :=
  Num.toFixed2 (Num.parseFloatOr0 v).

(** An entry with its three amounts in that form. *)
Definition normalizeAmounts (e : Entry) : Entry :=
  set (set (set e Field.Debit (canonicalAmount (Debit e)))
           Field.Credit (canonicalAmount (Credit e)))
      Field.Montantdevise (canonicalAmount (Montantdevise e)).

(** A text that survives writing and reading: no '|', no line feed, no
    white space at either end. *)
Definition cleanText (v : string) : Prop :=
  Str.count "|" v = 0%nat /\ Str.count Str.LF v = 0%nat /\ Str.trim v = v.

Definition cleanEntry (e : Entry) : Prop :=
  forall field, isAmountField field = false -> cleanText (get e field).

Definition canonicalAmounts (e : Entry) : Prop :=
  canonicalAmount (Debit e) = Debit e
  /\ canonicalAmount (Credit e) = Credit e
  /\ canonicalAmount (Montantdevise e) = Montantdevise e.

(** The characters [toFixed] can produce. *)
Definition amountChar (c : ascii) : bool :=
  (Str.isDigit c || Ascii.eqb c "." || Ascii.eqb c "-" || Ascii.eqb c "+"
   || Ascii.eqb c "e" || Ascii.eqb c "N" || Ascii.eqb c "a"
   || Ascii.eqb c "I" || Ascii.eqb c "n" || Ascii.eqb c "f"
   || Ascii.eqb c "i" || Ascii.eqb c "t" || Ascii.eqb c "y")%bool.

(** Characters that are neither white space nor the separator. *)
Definition safeChar (c : ascii) : bool :=
  (negb (Str.isWhiteSpace c) && negb (Ascii.eqb c "|"))%bool.

(* ================================================================== *)
(** ** Sample ledgers and files *)

(** A sale of 1000.00 on account 707000 and its counterpart on 411000, as
    [parseFECFile] reads them from lines with [0,00] and [1000,00]. *)
Definition saleCredit : Entry :=
  mkEntry "VE" "Ventes" "1" "20240115" "707000" "Ventes" "" "" "F001"
          "20240115" "Vente marchandise" "0.00" "1000.00" "" "" "20240116"
          "" "".

Definition saleDebit : Entry :=
  mkEntry "VE" "Ventes" "2" "20240115" "411000" "Clients" "" "" "F001"
          "20240115" "Vente marchandise" "1000.00" "0.00" "" "" "20240116"
          "" "".

(** Collected VAT of 200.00 credited on account 445710. *)
Definition vatCredit : Entry :=
  mkEntry "VE" "Ventes" "3" "20240115" "445710" "TVA collectee" "" "" "F002"
          "20240115" "TVA sur vente" "0.00" "200.00" "" "" "" "" "".

(** An entry object with an unreadable debit, no credit property and an
    empty foreign amount. *)
Definition oddAmounts : EntryObject :=
  fun field =>
    match field with
    | Field.Debit => Some "abc"
    | Field.Credit => None
    | _ => Some ""
    end.

(** The sale with its journal label and document date left empty. *)
Definition unlabelledCredit : Entry :=
  mkEntry "VE" "" "1" "20240115" "707000" "Ventes" "" "" "F001"
          "" "Vente marchandise" "0.00" "1000.00" "" "" "20240116" "" "".

(** A debit of -5.00 and a debit of 5.00 on the same piece. *)
Definition negativeDebit : Entry :=
  mkEntry "OD" "Operations diverses" "10" "20240120" "658000" "Charges" ""
          "" "OD01" "20240120" "Regularisation" "-5.00" "0.00" "" "" "" ""
          "".

Definition positiveDebit : Entry :=
  mkEntry "OD" "Operations diverses" "11" "20240120" "658000" "Charges" ""
          "" "OD01" "20240120" "Regularisation" "5.00" "0.00" "" "" "" ""
          "".

(** The sale recorded on the 16th, listed before its counterpart of the
    15th. *)
Definition lateCredit : Entry :=
  mkEntry "VE" "Ventes" "1" "20240116" "707000" "Ventes" "" "" "F001"
          "20240116" "Vente marchandise" "0.00" "1000.00" "" "" "20240116"
          "" "".

(** An entry without amounts. *)
Definition emptyAmounts : Entry :=
  mkEntry "VE" "Ventes" "" "20240115" "707000" "Ventes" "" "" "F003"
          "20240115" "Vente marchandise" "" "0.00" "" "" "" "" "".

(** A file with the header, one line of 17 columns and one good line. *)
Definition shortLineFile : string :=
  (headerLine ++ CRLF
   ++ "VE|Ventes|1|20240115|707000|Ventes|||F001|20240115|Vente|0,00|1000,00|||20240116|"
   ++ CRLF
   ++ "VE|Ventes|2|20240115|411000|Clients|||F001|20240115|Vente|1000,00|0,00|||20240116||"
   ++ CRLF)%string.

(** The sale entered a second and a third time under the number 2. *)
Definition saleDebitAgain : Entry :=
  mkEntry "VE" "Ventes" "2" "20240115" "411000" "Clients" "" "" "F004"
          "20240115" "Vente marchandise" "1000.00" "0.00" "" "" "20240116"
          "" "".

(** The sale whose piece reference is the word [constructor]. *)
Definition constructorCredit : Entry :=
  mkEntry "VE" "Ventes" "1" "20240115" "707000" "Ventes" "" "" "constructor"
          "20240115" "Vente marchandise" "0.00" "1000.00" "" "" "20240116"
          "" "".

(** The first scenario line of the format: debit [0], credit [1000,00], no
    foreign amount. *)
Definition scenarioSale : Entry :=
  mkEntry "VE" "Ventes" "1" "20240115" "707000" "Ventes" "" "" "F001"
          "20240115" "Vente marchandise" "0" "1000.00" "" "" "20240116"
          "" "".

(** The sale with its three amounts written with two decimals. *)
Definition canonicalSale : Entry :=
  mkEntry "VE" "Ventes" "1" "20240115" "707000" "Ventes" "" "" "F001"
          "20240115" "Vente marchandise" "0.00" "1000.00" "" "" "20240116"
          "0.00" "".

(** A debit of 0.07 and a credit of 0.06 on one piece. *)
Definition sevenCents : Entry :=
  mkEntry "OD" "Operations diverses" "20" "20240120" "658000" "Charges" ""
          "" "OD02" "20240120" "Arrondi" "0.07" "0.00" "" "" "" "" "".

Definition sixCents : Entry :=
  mkEntry "OD" "Operations diverses" "21" "20240120" "758000" "Produits" ""
          "" "OD02" "20240120" "Arrondi" "0.00" "0.06" "" "" "" "" "".

(* ================================================================== *)
(** ** Further vocabulary *)

(** The kinds [validateFECCompliance] files under [errors] and under
    [warnings]. *)
Definition isErrorKind (t : IssueType) : bool :=
  match t with
  | EMPTY_FEC | ENTRY_INVALID | BALANCE_ERROR | DUPLICATE_NUM => true
  | _ => false
  end.

Definition isWarningKind (t : IssueType) : bool :=
  match t with
  | CHRONOLOGY_WARNING | VAT_WARNING | UNKNOWN_JOURNAL => true
  | _ => false
  end.

(** The sale with a journal code that is not in the table. *)
Definition oddJournalCredit : Entry :=
  mkEntry "ZZ" "Divers" "1" "20240115" "707000" "Ventes" "" "" "F001"
          "20240115" "Vente marchandise" "0.00" "1000.00" "" "" "20240116"
          "" "".

(** A VAT line without any amount. *)
Definition vatEmpty : Entry :=
  mkEntry "VE" "Ventes" "4" "20240115" "445710" "TVA collectee" "" "" "F005"
          "20240115" "TVA sur vente" "" "0.00" "" "" "" "" "".

(** What [validateEntry] requires of an entry, as one test: the seven
    required fields not blank, the entry date of eight digits, the account
    number of 3 to 20 characters beginning with a class from 1 to 8, both
    amounts readable and not above the maximum, and the two amounts
    neither both zero nor both positive. *)
Definition wellFormedEntry (e : Entry) : bool :=
  (List.forallb (fun f => negb (Str.isEmpty (Str.trim (get e f))))
               requiredFields
   && VALIDATION.DATE_FORMAT (EcritureDate e)
   && Nat.leb VALIDATION.ACCOUNT_MIN_LENGTH (String.length (CompteNum e))
   && Nat.leb (String.length (CompteNum e)) VALIDATION.ACCOUNT_MAX_LENGTH
   && Obj.mem (firstChar (CompteNum e)) PCG_CLASSES
   && negb (Num.isNaN (debitOf e))
   && negb (Num.isNaN (creditOf e))
   && negb (Num.gt (debitOf e) VALIDATION.MAX_AMOUNT)
   && negb (Num.gt (creditOf e) VALIDATION.MAX_AMOUNT)
   && negb (Num.eq (debitOf e) Num.zero && Num.eq (creditOf e) Num.zero)
   && negb (Num.gt (debitOf e) Num.zero && Num.gt (creditOf e) Num.zero))%bool.

(** The file of the sale with line feeds only, an indented line, a blank
    line and header names of its own. *)
Definition looseFile : string :=
  ("a|b|c|d|e|f|g|h|i|j|k|l|m|n|o|p|q|r" ++ String Str.LF ""
   ++ "  VE | Ventes|1|20240115|707000|Ventes|||F001|20240115|Vente|0,5|1000,00|||20240116||EUR  "
   ++ String Str.LF "" ++ "   " ++ String Str.LF "")%string.

(** The entries whose account number begins with the class [key]. *)
Definition inClass (key : string) (e : Entry) : bool :=
  (negb (Str.isEmpty (CompteNum e))
   && String.eqb (firstChar (CompteNum e)) key)%bool.

(** The key [countByField] files an entry under. *)
Definition tallyKey (field : Field.t) (e : Entry) : string :=
  Str.or (get e field) NonRenseigne.

Definition filedUnder (field : Field.t) (key : string) (e : Entry) : bool :=
  String.eqb (tallyKey field e) key.

(** The sum of the counts of a tally object. *)
Definition totalCount (counts : list (string * Tally)) : nat :=
  fold_right (fun kv acc =>
                match snd kv with Count n => (n + acc)%nat | Text _ => acc end)
             0%nat counts.

(** The sale dated with dashes. *)
Definition dashedDate : Entry :=
  mkEntry "VE" "Ventes" "1" "2024-01-15" "707000" "Ventes" "" "" "F001"
          "20240115" "Vente marchandise" "0.00" "1000.00" "" "" "20240116"
          "" "".

(** The registry without its [loaded] flags, the only part the loader
    writes. *)
Definition unmarked (m : ModuleInfo.t) : ModuleInfo.t :=
  ModuleInfo.mk false (ModuleInfo.required m) (ModuleInfo.path m)
                (ModuleInfo.global m) (ModuleInfo.depends m).

Definition static (registry : Registry) : Registry :=
  map (fun kv => (fst kv, unmarked (snd kv))) registry.

(** A state of [moduleRegistry]: the literal, whatever the flags. *)
Definition registered (registry : Registry) : Prop :=
  static registry = moduleRegistry.

(** Whether the global of a module of the registry is defined. *)
Definition detected (defined : string -> bool) (name : string) : bool :=
  match Obj.lookup name moduleRegistry with
  | Some m => defined (ModuleInfo.global m)
  | None => false
  end.

(** The dependencies the registry declares for a module. *)
Definition dependsOf (name : string) : list string :=
  match Obj.lookup name moduleRegistry with
  | Some m =>
      match ModuleInfo.depends m with
      | Some l => l
      | None => []
      end
  | None => []
  end.

Definition missingOf (defined : string -> bool) (name : string)
  : list string :=
  filter (fun dep => negb (detected defined dep)) (dependsOf name).

(** The messages one module adds to the errors and to the warnings. *)
Definition errorNote (defined : string -> bool)
  (entry : string * ModuleInfo.t) : list string :=
  if detected defined (fst entry) then []
  else if ModuleInfo.required (snd entry)
       then [("Module " ++ fst entry ++ " not loaded")%string]
       else [].

Definition warningNote (defined : string -> bool)
  (entry : string * ModuleInfo.t) : list string :=
  if detected defined (fst entry) then
    match missingOf defined (fst entry) with
    | [] => []
    | missing =>
        [(fst entry ++ " missing dependencies: "
          ++ Str.join ", " missing)%string]
    end
  else if ModuleInfo.required (snd entry) then []
       else [("Module " ++ fst entry ++ " not loaded")%string].

(** The window in which only the listed globals are defined. *)
Definition windowOf (globals : list string) (name : string) : bool :=
  Obj.mem name globals.

(** The registry after the security module alone was detected. *)
Definition securityDetected : Registry :=
  Obj.update "security" ModuleInfo.markLoaded moduleRegistry.

(** The [loaded] flag of a module in a state of the registry. *)
Definition flagOf (registry : Registry) (name : string) : bool :=
  match Obj.lookup name registry with
  | Some m => ModuleInfo.loaded m
  | None => false
  end.

(** Whether the turn of [initializeModules] for the module [name] asks for
    the module [k]: it is the module itself, or one of its dependencies
    when the module is detected. *)
Definition visits (defined : string -> bool) (name k : string) : bool :=
  (String.eqb k name
   || (detected defined name && Obj.mem k (dependsOf name)))%bool.

(** What [getModuleStatus] reports for an entry of the registry. *)
Definition answerOf (defined : string -> bool) (name : string) : Answer :=
  match Obj.lookup name moduleRegistry with
  | Some m => Boolean (defined (ModuleInfo.global m))
  | None => if Obj.inherited name then Undefined else Boolean false
  end.

Definition report (defined : string -> bool)
  (entry : string * ModuleInfo.t) : string * ModuleStatus.t :=
  (fst entry,
   ModuleStatus.mk
     (answerOf defined (fst entry))
     (ModuleInfo.required (snd entry))
     (ModuleInfo.path (snd entry))
     (match ModuleInfo.depends (snd entry) with
      | Some depends => depends
      | None => []
      end)
     (Nat.eqb (List.length (missingOf defined (fst entry))) 0)
     (missingOf defined (fst entry))).

(** A sale whose debit is not a number. *)
Definition unreadableDebit : Entry :=
  mkEntry "VE" "Ventes" "1" "20240115" "707000" "Ventes" "" "" "F001"
          "20240115" "Vente marchandise" "abc" "1000.00" "" "" "20240116"
          "" "".

(* ================================================================== *)
(** ** Numbers: sample values *)

Example parseFloat_tenth :
  Num.parseFloat "0.1" = S754_finite false 7205759403792794 (-56).
Proof. vm_compute. reflexivity. Qed.

Example parseFloat_1e23 :
  Num.parseFloat "1e23" = S754_finite false 5960464477539062 24.
Proof. vm_compute. reflexivity. Qed.

Example parseFloat_prefix :
  Num.parseFloat "  12abc" = Num.parseFloat "12"
  /\ Num.parseFloat "abc" = Num.NaN
  /\ Num.parseFloat "" = Num.NaN
  /\ Num.parseFloat "-0" = S754_zero true.
Proof. repeat split; vm_compute; reflexivity. Qed.

Example MAX_AMOUNT_value :
  VALIDATION.MAX_AMOUNT = S754_finite false 5242879999994757 (-19).
Proof. vm_compute. reflexivity. Qed.

Example BALANCE_TOLERANCE_value :
  VALIDATION.BALANCE_TOLERANCE = S754_finite false 5764607523034235 (-59).
Proof. vm_compute. reflexivity. Qed.

Example toFixed2_samples :
  Num.toFixed2 (Num.parseFloat "1234.56") = "1234.56"
  /\ Num.toFixed2 (Num.parseFloat "1.005") = "1.00"
  /\ Num.toFixed2 (Num.parseFloat "8.345") = "8.35"
  /\ Num.toFixed2 (Num.parseFloat "-1e-7") = "-0.00"
  /\ Num.toFixed2 (Num.parseFloat "1e21") = "1e+21"
  /\ Num.toFixed2 (Num.parseFloat "123456789012345678901234567890")
     = "1.2345678901234568e+29"
  /\ Num.toFixed2 Num.NaN = "NaN".
Proof. repeat split; vm_compute; reflexivity. Qed.

(** Sums are those of the numbers of the language: 0.07 - 0.06 is greater
    than 0.01, and 0.03 - 0.02 is not. *)
Example subtraction_is_rounded :
  Num.gt (Num.sub (Num.parseFloat "0.07") (Num.parseFloat "0.06"))
         VALIDATION.BALANCE_TOLERANCE = true
  /\ Num.gt (Num.sub (Num.parseFloat "0.03") (Num.parseFloat "0.02"))
            VALIDATION.BALANCE_TOLERANCE = false.
Proof. split; vm_compute; reflexivity. Qed.


(* ================================================================== *)
(** ** Strings: splitting and joining *)

Lemma position_nth (field : Field.t) :
  nth_error FIELDS (position field) = Some field.
Proof. destruct field; reflexivity. Qed.

Lemma split_not_nil (sep : ascii) (s : string) : Str.split sep s <> [].
Proof.
  destruct s as [|c r]; simpl; [discriminate|].
  destruct (Ascii.eqb c sep); [discriminate|].
  destruct (Str.split sep r); discriminate.
Qed.

Lemma split_free (sep : ascii) (s : string) :
  Str.count sep s = 0%nat -> Str.split sep s = [s].
Proof.
  induction s as [|c r IH]; simpl; [reflexivity|].
  destruct (Ascii.eqb c sep); [discriminate|].
  intros H. rewrite (IH H). reflexivity.
Qed.

Lemma split_app (sep : ascii) (s t : string) :
  Str.count sep s = 0%nat ->
  Str.split sep (s ++ String sep t)%string = s :: Str.split sep t.
Proof.
  induction s as [|c r IH]; simpl.
  - rewrite Ascii.eqb_refl. reflexivity.
  - destruct (Ascii.eqb c sep); [discriminate|].
    intros H. rewrite (IH H). reflexivity.
Qed.

Lemma split_join (sep : ascii) (l : list string) :
  l <> [] ->
  Forall (fun s => Str.count sep s = 0%nat) l ->
  Str.split sep (Str.join (String sep EmptyString) l) = l.
Proof.
  intros Hne Hall. induction Hall as [|s l Hs Hl IH]; [congruence|].
  destruct l as [|s' l'].
  - simpl. apply split_free, Hs.
  - change (Str.join (String sep "") (s :: s' :: l'))
      with (s ++ String sep (Str.join (String sep "") (s' :: l')))%string.
    rewrite (split_app _ _ _ Hs), IH; [reflexivity|discriminate].
Qed.

Lemma split_length (sep : ascii) (s : string) :
  List.length (Str.split sep s) = S (Str.count sep s).
Proof.
  induction s as [|c r IH]; simpl; [reflexivity|].
  destruct (Ascii.eqb c sep); simpl; [now rewrite IH|].
  destruct (Str.split sep r); simpl in *; [discriminate|exact IH].
Qed.

Lemma count_removeAll (c : ascii) (s : string) :
  Str.count c (Str.removeAll c s) = 0%nat.
Proof.
  induction s as [|x r IH]; simpl; [reflexivity|].
  destruct (Ascii.eqb x c) eqn:E; simpl; [exact IH|].
  rewrite E. exact IH.
Qed.

Lemma columns_of_dataLine (entry : EntryObject) :
  Str.split "|" (dataLine entry) = map (columnText entry) FIELDS.
Proof.
  unfold dataLine. apply split_join.
  - discriminate.
  - apply Forall_forall. intros s Hs.
    apply in_map_iff in Hs. destruct Hs as [f [<- _]].
    unfold columnText. apply count_removeAll.
Qed.

Lemma column_at (entry : EntryObject) (field : Field.t) :
  nth (position field) (Str.split "|" (dataLine entry)) "" =
  columnText entry field.
Proof.
  rewrite columns_of_dataLine.
  apply nth_error_nth.
  rewrite nth_error_map, position_nth. reflexivity.
Qed.

(* ================================================================== *)
(** ** The empty ledger *)

(** C7. [validateFECCompliance] applied to the empty ledger returns (it does
    not throw) the report with [valid = false], the single error of kind
    [EMPTY_FEC] and no warning; nothing else is checked, whatever the
    collation. *)
Theorem C7_empty_ledger :
  forall localeCompare : string -> string -> Z,
    validateFECCompliance localeCompare [] =
    Returned (Report.mk false [Issue.mk EMPTY_FEC NothingToValidate None] []).
Proof. intros localeCompare. reflexivity. Qed.

(* ================================================================== *)
(** ** Amount columns of the generated file *)

Lemma columnText_amount (entry : EntryObject) (field : Field.t) :
  isAmountField field = true ->
  columnText entry field =
  Str.removeAll "|"
    (Str.replaceFirst "." ","
       (Num.toFixed2
          (Num.parseFloatOr0
             match entry field with Some v => Str.or v "" | None => "" end))).
Proof. intros H. unfold columnText. rewrite H. reflexivity. Qed.

(** C10. For a non-empty list of entry objects [generateFECFile] returns the
    header and one line per entry joined by CRLF. In the line of an entry,
    the column of [Debit], [Credit] or [Montantdevise] is the text [NaN]
    when the property is a non-empty string that [parseFloat] reads as NaN,
    and the text [0,00] when the property is absent or the empty string. *)
Theorem C10_unreadable_amount_written_as_NaN :
  forall (entries : list EntryObject) (entry : EntryObject) (field : Field.t),
    In entry entries ->
    isAmountField field = true ->
    generateFECFile entries =
      Returned (Str.join CRLF (headerLine :: map dataLine entries))
    /\ (forall v, entry field = Some v -> v <> "" ->
          Num.isNaN (Num.parseFloat v) = true ->
          nth (position field) (Str.split "|" (dataLine entry)) "" = "NaN")
    /\ (entry field = None \/ entry field = Some "" ->
          nth (position field) (Str.split "|" (dataLine entry)) "" = "0,00").
Proof.
  intros entries entry field Hin Hamount. split; [|split].
  - unfold generateFECFile. destruct entries; [contradiction|reflexivity].
  - intros v Hv Hne Hnan.
    rewrite column_at, (columnText_amount _ _ Hamount), Hv.
    destruct v as [|c r]; [congruence|].
    unfold Str.or, Num.parseFloatOr0; simpl Str.isEmpty; cbv iota.
    destruct (Num.parseFloat (String c r)); try discriminate.
    reflexivity.
  - intros Habsent.
    rewrite column_at, (columnText_amount _ _ Hamount).
    destruct Habsent as [-> | ->]; reflexivity.
Qed.

Lemma C10_witness :
  In oddAmounts [oddAmounts]
  /\ isAmountField Field.Debit = true
  /\ nth (position Field.Debit) (Str.split "|" (dataLine oddAmounts)) "" = "NaN".
Proof.
  split; [left; reflexivity|]. split; [reflexivity|].
  apply (proj1 (proj2 (C10_unreadable_amount_written_as_NaN
                         [oddAmounts] oddAmounts Field.Debit
                         (or_introl eq_refl) eq_refl)) "abc");
    [reflexivity|discriminate|reflexivity].
Defined.

(* ================================================================== *)
(** ** VAT accounts *)

(** C9. Evaluation at a VAT entry with a credit of 200.00 and a debit
    column [0,00]: the debit text [0.00] is a non-empty string, so
    [entry.Debit || entry.Credit || 0] is the debit, the amount is 0 and a
    [VAT_WARNING] is issued although the credit is not zero. *)
Theorem C9_vat_warning_despite_credit :
  forall localeCompare : string -> string -> Z,
    Num.eq (creditOf vatCredit) Num.zero = false
    /\ prefix "445" (CompteNum vatCredit) = true
    /\ exists report,
         validateFECCompliance localeCompare [vatCredit] = Returned report
         /\ In (Issue.mk VAT_WARNING (ZeroVat "445710") (Some "3"))
               (Report.warnings report).
Proof.
  intros localeCompare. split; [reflexivity|]. split; [reflexivity|].
  eexists. split; [vm_compute; reflexivity|].
  simpl. left. reflexivity.
Qed.

(* ================================================================== *)
(** ** The report of a non-empty ledger *)

Lemma validate_unfold (localeCompare : string -> string -> Z)
  (entries : list Entry) (pieceRefs : list (string * Totals.t)) :
  entries <> [] ->
  collectPieces [] entries = Returned pieceRefs ->
  validateFECCompliance localeCompare entries =
  Returned
    (Report.mk
       (Nat.eqb (List.length (entryErrors entries ++ balanceErrors pieceRefs
                              ++ duplicateErrors (sortedNums entries))) 0)
       (entryErrors entries ++ balanceErrors pieceRefs
        ++ duplicateErrors (sortedNums entries))
       (chronologyWarnings localeCompare entries ++ vatWarnings entries
        ++ journalWarnings entries)).
Proof.
  intros Hne Hp. unfold validateFECCompliance.
  destruct entries as [|e r]; [congruence|].
  cbn [List.length Nat.eqb]. rewrite Hp. reflexivity.
Qed.

Lemma addToPiece_returns (pieceRefs : list (string * Totals.t)) (e : Entry) :
  Obj.inherited (PieceRef e) = false ->
  exists pieceRefs', addToPiece pieceRefs e = Returned pieceRefs'.
Proof.
  intros H. unfold addToPiece.
  destruct (Obj.lookup (PieceRef e) pieceRefs); [eauto|].
  rewrite H. eauto.
Qed.

Lemma collectPieces_returns (entries : list Entry) :
  plainRefs entries ->
  forall pieceRefs,
  exists pieceRefs', collectPieces pieceRefs entries = Returned pieceRefs'.
Proof.
  induction 1 as [|e r He Hr IH]; intros pieceRefs; simpl; [eauto|].
  destruct (addToPiece_returns pieceRefs e He) as [p' ->]. apply IH.
Qed.

(** A ledger is validated to a report exactly when its piece references are
    plain; otherwise the balance pass throws. *)
Lemma validate_returns (localeCompare : string -> string -> Z)
  (entries : list Entry) :
  plainRefs entries ->
  exists report, validateFECCompliance localeCompare entries = Returned report.
Proof.
  intros H. destruct entries as [|e r]; [eexists; reflexivity|].
  destruct (collectPieces_returns (e :: r) H []) as [p Hp].
  rewrite (validate_unfold localeCompare (e :: r) p);
    [eauto|discriminate|exact Hp].
Qed.

Lemma valid_false_of_error (errors : list Issue.t) (i : Issue.t) :
  In i errors -> Nat.eqb (List.length errors) 0 = false.
Proof. destruct errors; [contradiction|reflexivity]. Qed.

Lemma when_In {A : Type} (c : bool) (l : list A) (x : A) :
  In x (when c l) <-> c = true /\ In x l.
Proof. destruct c; simpl; intuition congruence. Qed.

Lemma indexed_In {A : Type} (l : list A) (i : nat) (x : A) :
  nth_error l i = Some x -> In (i, x) (Arr.indexed l).
Proof.
  unfold Arr.indexed. intros H.
  assert (Hlt : (i < List.length l)%nat)
    by (apply nth_error_Some; congruence).
  assert (Hi : nth_error (seq 0 (List.length l)) i = Some i).
  { rewrite nth_error_nth' with (d := 0%nat); [|now rewrite length_seq].
    rewrite seq_nth; [reflexivity|exact Hlt]. }
  apply nth_error_In with (n := i).
  rewrite nth_error_nth' with (d := (0%nat, x)).
  - rewrite combine_nth; [|now rewrite length_seq].
    f_equal. f_equal.
    + apply nth_error_nth with (d := 0%nat) in Hi. exact Hi.
    + apply nth_error_nth. exact H.
  - rewrite length_combine, length_seq. lia.
Qed.

(** An error of [validateEntry] on the entry at [index] is reported, tagged
    with that entry. *)
Lemma entryErrors_In (entries : list Entry) (index : nat) (e : Entry)
  (m : Message) :
  nth_error entries index = Some e ->
  In m (EntryResult.errors (validateEntry e)) ->
  In (Issue.mk ENTRY_INVALID m (Some (entryTag e index))) (entryErrors entries).
Proof.
  intros Hnth Hm. unfold entryErrors.
  apply in_flat_map. exists (index, e). split; [now apply indexed_In|].
  apply when_In. split.
  - unfold validateEntry in *. cbn [EntryResult.valid EntryResult.errors] in *.
    match goal with H : In m ?l |- _ => destruct l; [contradiction|reflexivity] end.
  - apply in_map_iff. exists m. split; [reflexivity|exact Hm].
Qed.

(* ================================================================== *)
(** ** Entry rules: amounts and required fields *)

Lemma validateEntry_amounts (e : Entry) (m : Message) :
  In m (when (Num.eq (debitOf e) Num.zero && Num.eq (creditOf e) Num.zero)
             [NoAmount]
        ++ when (Num.gt (debitOf e) Num.zero && Num.gt (creditOf e) Num.zero)
                [BothAmounts]) ->
  In m (EntryResult.errors (validateEntry e)).
Proof.
  intros H. unfold validateEntry. cbn [EntryResult.errors].
  fold (debitOf e). fold (creditOf e).
  do 3 (apply in_or_app; right).
  do 4 (apply in_or_app; right). exact H.
Qed.

Lemma validateEntry_missing (e : Entry) (field : Field.t) :
  In field requiredFields ->
  Str.trim (get e field) = "" ->
  In (MissingField field) (EntryResult.errors (validateEntry e)).
Proof.
  intros Hin Hblank. unfold validateEntry. cbn [EntryResult.errors].
  apply in_or_app. left.
  apply in_flat_map. exists field. split; [exact Hin|].
  apply when_In. split; [|left; reflexivity].
  rewrite Hblank. apply orb_true_r.
Qed.

(** An error found on an entry makes the report invalid and is in it. *)
Lemma entry_error_reported (localeCompare : string -> string -> Z)
  (entries : list Entry) (index : nat) (e : Entry) (m : Message) :
  plainRefs entries ->
  nth_error entries index = Some e ->
  In m (EntryResult.errors (validateEntry e)) ->
  exists report,
    validateFECCompliance localeCompare entries = Returned report
    /\ Report.valid report = false
    /\ In (Issue.mk ENTRY_INVALID m (Some (entryTag e index)))
          (Report.errors report).
Proof.
  intros Hplain Hnth Hm.
  destruct (collectPieces_returns entries Hplain []) as [p Hp].
  assert (Hne : entries <> []) by (intros ->; destruct index; discriminate).
  rewrite (validate_unfold localeCompare entries p Hne Hp).
  eexists. split; [reflexivity|]. cbn [Report.valid Report.errors].
  assert (Hin : In (Issue.mk ENTRY_INVALID m (Some (entryTag e index)))
                   (entryErrors entries ++ balanceErrors p
                    ++ duplicateErrors (sortedNums entries))).
  { apply in_or_app. left. now apply entryErrors_In. }
  split; [exact (valid_false_of_error _ _ Hin)|exact Hin].
Qed.

(** C4, as the code has it. In a ledger whose piece references are plain,
    an entry whose debit and credit are both zero, or both greater than
    zero, gets an [ENTRY_INVALID] error tagged with that entry, and the
    report is not valid. *)
Theorem C4_both_zero_or_both_positive :
  forall (localeCompare : string -> string -> Z) (entries : list Entry)
         (index : nat) (e : Entry),
    plainRefs entries ->
    nth_error entries index = Some e ->
    (Num.eq (debitOf e) Num.zero && Num.eq (creditOf e) Num.zero = true
     \/ Num.gt (debitOf e) Num.zero && Num.gt (creditOf e) Num.zero = true) ->
    exists report message,
      validateFECCompliance localeCompare entries = Returned report
      /\ Report.valid report = false
      /\ (message = NoAmount \/ message = BothAmounts)
      /\ In (Issue.mk ENTRY_INVALID message (Some (entryTag e index)))
            (Report.errors report).
Proof.
  intros localeCompare entries index e Hplain Hnth Hcase.
  assert (Hm : exists m, (m = NoAmount \/ m = BothAmounts)
                         /\ In m (EntryResult.errors (validateEntry e))).
  { destruct Hcase as [H | H].
    - exists NoAmount. split; [now left|].
      apply validateEntry_amounts. rewrite H. left. reflexivity.
    - exists BothAmounts. split; [now right|].
      apply validateEntry_amounts. rewrite H. apply in_or_app. right.
      left. reflexivity. }
  destruct Hm as [m [Hkind Hm]].
  destruct (entry_error_reported localeCompare entries index e m
              Hplain Hnth Hm) as [report [Hr [Hv Hin]]].
  exists report, m. auto.
Qed.

(** C4, counterexample to the claim as stated: a ledger with a negative
    debit validates without any error. *)
Lemma C4_negative_debit_accepted :
  Num.gt Num.zero (debitOf negativeDebit) = true
  /\ validateFECCompliance codeUnitCompare [negativeDebit; positiveDebit] =
     Returned (Report.mk true [] []).
Proof. split; vm_compute; reflexivity. Qed.

(** C5, as the code has it. In a ledger whose piece references are plain,
    an entry with an empty or blank value in one of the seven fields of
    [requiredFields] (JournalCode, EcritureNum, EcritureDate, CompteNum,
    CompteLib, PieceRef, EcritureLib) gets an [ENTRY_INVALID] error naming
    the field, tagged with the entry number or, when that is empty, with
    the line position counted from 1. *)
Theorem C5_required_field_missing :
  forall (localeCompare : string -> string -> Z) (entries : list Entry)
         (index : nat) (e : Entry) (field : Field.t),
    plainRefs entries ->
    nth_error entries index = Some e ->
    In field requiredFields ->
    Str.trim (get e field) = "" ->
    (exists report,
       validateFECCompliance localeCompare entries = Returned report
       /\ Report.valid report = false
       /\ In (Issue.mk ENTRY_INVALID (MissingField field)
                (Some (entryTag e index)))
             (Report.errors report))
    /\ (EcritureNum e <> "" -> entryTag e index = EcritureNum e)
    /\ (EcritureNum e = "" ->
        entryTag e index = ("Ligne " ++ Str.ofZ (Z.of_nat index + 1))%string).
Proof.
  intros localeCompare entries index e field Hplain Hnth Hreq Hblank.
  split; [|split].
  - apply entry_error_reported; [exact Hplain|exact Hnth|].
    now apply validateEntry_missing.
  - unfold entryTag, Str.or. destruct (EcritureNum e); [congruence|reflexivity].
  - unfold entryTag, Str.or. intros ->. reflexivity.
Qed.

(** C5, counterexample to the claim as stated: an entry with an empty
    journal label and an empty document date raises no error. *)
Lemma C5_empty_label_accepted :
  JournalLib unlabelledCredit = "" /\ PieceDate unlabelledCredit = ""
  /\ validateFECCompliance codeUnitCompare [unlabelledCredit; saleDebit] =
     Returned (Report.mk true [] []).
Proof. repeat split; vm_compute; reflexivity. Qed.

Lemma plainRefs_one (e : Entry) :
  Obj.inherited (PieceRef e) = false -> plainRefs [e].
Proof. intros H. constructor; [exact H|constructor]. Qed.

Lemma plainRefs_two (e1 e2 : Entry) :
  Obj.inherited (PieceRef e1) = false ->
  Obj.inherited (PieceRef e2) = false -> plainRefs [e1; e2].
Proof. intros H1 H2. constructor; [exact H1|now apply plainRefs_one]. Qed.

Lemma C4_witness :
  exists report message,
    validateFECCompliance codeUnitCompare [emptyAmounts] = Returned report
    /\ Report.valid report = false
    /\ (message = NoAmount \/ message = BothAmounts)
    /\ In (Issue.mk ENTRY_INVALID message (Some (entryTag emptyAmounts 0)))
          (Report.errors report).
Proof.
  apply (C4_both_zero_or_both_positive codeUnitCompare [emptyAmounts] 0
           emptyAmounts).
  - apply plainRefs_one. reflexivity.
  - reflexivity.
  - left. reflexivity.
Defined.

Lemma C5_witness :
  exists report,
    validateFECCompliance codeUnitCompare [emptyAmounts] = Returned report
    /\ Report.valid report = false
    /\ In (Issue.mk ENTRY_INVALID (MissingField Field.EcritureNum)
             (Some "Ligne 1"))
          (Report.errors report).
Proof.
  apply (C5_required_field_missing codeUnitCompare [emptyAmounts] 0
           emptyAmounts Field.EcritureNum).
  - apply plainRefs_one. reflexivity.
  - reflexivity.
  - right. left. reflexivity.
  - reflexivity.
Defined.

(* ================================================================== *)
(** ** Chronology *)

Section Insertion.
Context {A : Type}.
Variable before : A -> A -> bool.
Variable P : A -> Prop.
Hypothesis before_total :
  forall x y, P x -> P y -> before x y = false -> before y x = true.

Let R (x y : A) : Prop := before x y = true.

Lemma insert_HdRel (y x : A) (l : list A) :
  R y x -> HdRel R y l -> HdRel R y (Arr.insert before x l).
Proof.
  intros Hyx Hl. destruct l as [|z r]; simpl.
  - constructor. exact Hyx.
  - destruct (before x z); constructor; [exact Hyx|].
    inversion Hl; assumption.
Qed.

Lemma insert_Sorted (x : A) (l : list A) :
  P x -> Forall P l -> Sorted R l -> Sorted R (Arr.insert before x l).
Proof.
  intros Hx HP Hs. induction l as [|y r IH]; simpl.
  - repeat constructor.
  - inversion HP as [|? ? Hy Hr]; subst.
    inversion Hs as [|? ? Hsr Hhd]; subst.
    destruct (before x y) eqn:E.
    + constructor; [exact Hs|]. constructor. exact E.
    + constructor; [now apply IH|].
      apply insert_HdRel; [|exact Hhd].
      now apply before_total.
Qed.

Lemma insert_Forall (x : A) (l : list A) :
  P x -> Forall P l -> Forall P (Arr.insert before x l).
Proof.
  intros Hx HP. induction HP as [|y r Hy Hr IH]; simpl.
  - repeat constructor; exact Hx.
  - destruct (before x y); repeat constructor; assumption.
Qed.

Lemma sort_Sorted (l : list A) :
  Forall P l ->
  Sorted R (Arr.sort before l) /\ Forall P (Arr.sort before l).
Proof.
  induction 1 as [|x r Hx Hr [IHs IHp]]; simpl.
  - split; constructor.
  - split; [now apply insert_Sorted|now apply insert_Forall].
Qed.
End Insertion.

Lemma leb_not_ltb (a b : string) :
  String.leb a b = true -> String.ltb b a = false.
Proof.
  unfold String.leb, String.ltb. rewrite (String.compare_antisym a b).
  destruct (String.compare b a); simpl; congruence.
Qed.

Lemma leb_total_bool (a b : string) :
  String.leb a b = false -> String.leb b a = true.
Proof.
  intros H. destruct (String.leb_total a b) as [H' | H']; congruence.
Qed.

Section DeadCheck.
Variable localeCompare : string -> string -> Z.
Hypothesis agrees : agreesOnDates localeCompare.

Let dated (d : DateNum.t) : Prop :=
  VALIDATION.DATE_FORMAT (DateNum.date d) = true.
Let before (a b : DateNum.t) : bool :=
  localeCompare (DateNum.date a) (DateNum.date b) <=? 0.

Lemma chronologyFrom_sorted (dates items : list DateNum.t)
  (prevDate : string) (index : nat) :
  Forall dated items ->
  Sorted (fun a b => before a b = true) items ->
  (index = 0%nat \/
   (VALIDATION.DATE_FORMAT prevDate = true /\
    match items with
    | [] => True
    | i :: _ => (localeCompare prevDate (DateNum.date i) <=? 0) = true
    end)) ->
  chronologyFrom dates prevDate index items = [].
Proof.
  intros Hd. revert prevDate index.
  induction Hd as [|item rest Hitem Hrest IH]; intros prevDate index Hs Hprev;
    [reflexivity|].
  inversion Hs as [|? ? Hsr Hhd]; subst.
  simpl.
  assert (Hguard : (Nat.ltb 0 index
                    && String.ltb (DateNum.date item) prevDate) = false).
  { destruct Hprev as [-> | [Hfmt Hle]]; [reflexivity|].
    rewrite (agrees _ _ Hfmt Hitem) in Hle.
    rewrite (leb_not_ltb _ _ Hle). apply andb_false_r. }
  rewrite Hguard. simpl.
  apply IH; [exact Hsr|]. right. split; [exact Hitem|].
  destruct Hhd; [exact I|assumption].
Qed.

Lemma chronologyWarnings_nil (entries : list Entry) :
  wellDated entries -> chronologyWarnings localeCompare entries = [].
Proof.
  intros Hw. unfold chronologyWarnings, sortedDates.
  set (l := map (fun e => DateNum.mk (EcritureDate e) (EcritureNum e)) entries).
  assert (Hl : Forall dated l).
  { apply Forall_forall. intros d Hin. apply in_map_iff in Hin.
    destruct Hin as [e [<- He]].
    exact (proj1 (Forall_forall _ _) Hw e He). }
  destruct (sort_Sorted before dated) with (l := l) as [Hs Hp];
    [|exact Hl|].
  - intros x y Hx Hy. unfold before.
    rewrite (agrees _ _ Hx Hy), (agrees _ _ Hy Hx). apply leb_total_bool.
  - apply chronologyFrom_sorted; [exact Hp|exact Hs|now left].
Qed.
End DeadCheck.

Lemma codeUnitCompare_agrees : agreesOnDates codeUnitCompare.
Proof.
  intros a b _ _. unfold codeUnitCompare, String.leb.
  destruct (String.compare a b); reflexivity.
Qed.

Lemma vatWarnings_type (entries : list Entry) (w : Issue.t) :
  In w (vatWarnings entries) -> Issue.type w = VAT_WARNING.
Proof.
  unfold vatWarnings. intros H. apply in_flat_map in H.
  destruct H as [e [_ H]].
  apply when_In in H. destruct H as [_ H].
  apply when_In in H. destruct H as [_ [<- | []]]. reflexivity.
Qed.

Lemma journalWarnings_type (entries : list Entry) (w : Issue.t) :
  In w (journalWarnings entries) -> Issue.type w = UNKNOWN_JOURNAL.
Proof.
  unfold journalWarnings. intros H. apply in_flat_map in H.
  destruct H as [e [_ H]].
  apply when_In in H. destruct H as [_ [<- | []]]. reflexivity.
Qed.

(** C2. What the code does instead of the claimed check: [dates] is sorted
    before it is scanned, so on a ledger whose dates are eight digits the
    scan never meets a decrease and no [CHRONOLOGY_WARNING] is issued,
    whatever the order of the entries in the ledger. *)
Theorem C2_chronology_check_is_dead :
  forall (localeCompare : string -> string -> Z) (entries : list Entry),
    agreesOnDates localeCompare ->
    wellDated entries ->
    plainRefs entries ->
    exists report,
      validateFECCompliance localeCompare entries = Returned report
      /\ forall w, In w (Report.warnings report) ->
                   Issue.type w <> CHRONOLOGY_WARNING.
Proof.
  intros localeCompare entries Hagree Hdated Hplain.
  destruct entries as [|e r].
  - eexists. split; [reflexivity|]. intros w [].
  - destruct (collectPieces_returns (e :: r) Hplain []) as [p Hp].
    rewrite (validate_unfold localeCompare (e :: r) p); [|discriminate|exact Hp].
    eexists. split; [reflexivity|]. cbn [Report.warnings].
    rewrite (chronologyWarnings_nil localeCompare Hagree (e :: r) Hdated).
    intros w Hw. cbn [app] in Hw. apply in_app_or in Hw.
    destruct Hw as [Hw | Hw].
    + rewrite (vatWarnings_type _ _ Hw). discriminate.
    + rewrite (journalWarnings_type _ _ Hw). discriminate.
Qed.

Lemma C2_witness :
  String.ltb (EcritureDate saleDebit) (EcritureDate lateCredit) = true
  /\ exists report,
       validateFECCompliance codeUnitCompare [lateCredit; saleDebit] =
       Returned report
       /\ forall w, In w (Report.warnings report) ->
                    Issue.type w <> CHRONOLOGY_WARNING.
Proof.
  split; [reflexivity|].
  apply (C2_chronology_check_is_dead codeUnitCompare [lateCredit; saleDebit]).
  - exact codeUnitCompare_agrees.
  - repeat constructor.
  - apply plainRefs_two; reflexivity.
Defined.

(** The ledger of the witness, evaluated: the entry of the 15th follows the
    entry of the 16th and the report has no warning at all. *)
Example decreasing_dates_unnoticed :
  validateFECCompliance codeUnitCompare [lateCredit; saleDebit] =
  Returned (Report.mk true [] []).
Proof. vm_compute. reflexivity. Qed.

(* ================================================================== *)
(** ** Parsing: failures and skipped lines *)

Lemma isEmpty_true (s : string) : Str.isEmpty s = true <-> s = "".
Proof. destruct s; simpl; split; congruence. Qed.

Lemma isEmpty_false (s : string) : Str.isEmpty s = false <-> s <> "".
Proof. destruct s; simpl; split; congruence. Qed.

Lemma parseLines_length (dataLines : list string) :
  List.length (parseLines dataLines) =
  List.length (filter (fun l => Nat.eqb (columns l) 18) dataLines).
Proof.
  unfold parseLines. induction dataLines as [|l r IH]; [reflexivity|].
  cbn [flat_map filter]. rewrite length_app, IH.
  change (List.length FIELDS) with 18%nat. fold (columns l).
  destruct (Nat.eqb (columns l) 18); reflexivity.
Qed.

Lemma filter_all {A : Type} (p : A -> bool) (l : list A) :
  Forall (fun x => p x = true) l -> filter p l = l.
Proof.
  induction 1 as [|x r Hx Hr IH]; simpl; [reflexivity|].
  rewrite Hx, IH. reflexivity.
Qed.

Lemma parseFECFile_cases (content : string) :
  (Str.trim content = "" /\ parseFECFile content = Thrown (Error EmptyFile))
  \/ (Str.trim content <> ""
      /\ (List.length (nonBlankLines content) < 2)%nat
      /\ parseFECFile content = Thrown (Error TooFewLines))
  \/ (Str.trim content <> ""
      /\ (2 <= List.length (nonBlankLines content))%nat
      /\ columns (nth 0 (nonBlankLines content) "") <> 18%nat
      /\ parseFECFile content =
         Thrown (Error (BadHeader
                          (columns (nth 0 (nonBlankLines content) "")) 18)))
  \/ (Str.trim content <> ""
      /\ (2 <= List.length (nonBlankLines content))%nat
      /\ columns (nth 0 (nonBlankLines content) "") = 18%nat
      /\ parseFECFile content =
         Returned (parseLines (tl (nonBlankLines content)))).
Proof.
  unfold parseFECFile.
  destruct (Str.isEmpty (Str.trim content)) eqn:Et.
  - left. rewrite orb_true_r. split; [now apply isEmpty_true|reflexivity].
  - right. apply isEmpty_false in Et.
    assert (Ec : Str.isEmpty content = false).
    { destruct content; [exfalso; apply Et; reflexivity|reflexivity]. }
    rewrite Ec. cbn [orb].
    destruct (Nat.ltb (List.length (nonBlankLines content)) 2) eqn:El.
    + left. apply Nat.ltb_lt in El. auto.
    + right. apply Nat.ltb_ge in El.
      change (List.length FIELDS) with 18%nat.
      fold (columns (nth 0 (nonBlankLines content) "")).
      destruct (Nat.eqb (columns (nth 0 (nonBlankLines content) "")) 18) eqn:Eh.
      * right. apply Nat.eqb_eq in Eh. auto.
      * left. apply Nat.eqb_neq in Eh. auto.
Qed.

(** C6. [parseFECFile] throws, and then an [Error], exactly when the
    content is empty or blank, or has fewer than 2 non-blank lines, or its
    first non-blank line does not split on '|' into 18 columns. Otherwise it
    returns one entry per data line of 18 columns, the other lines being
    skipped; so with a single data line of 17 columns among lines of 18
    columns it returns one entry fewer than there are data lines. *)
Theorem C6_parse_failures_and_skipped_lines :
  forall content : string,
    ((exists e, parseFECFile content = Thrown e) <->
     (Str.trim content = ""
      \/ (List.length (nonBlankLines content) < 2)%nat
      \/ columns (nth 0 (nonBlankLines content) "") <> 18%nat))
    /\ (forall e, parseFECFile content = Thrown e -> exists m, e = Error m)
    /\ (forall entries,
          parseFECFile content = Returned entries ->
          List.length entries =
          List.length (filter (fun l => Nat.eqb (columns l) 18)
                              (tl (nonBlankLines content))))
    /\ (forall before bad after,
          Str.trim content <> "" ->
          columns (nth 0 (nonBlankLines content) "") = 18%nat ->
          tl (nonBlankLines content) = before ++ bad :: after ->
          columns bad = 17%nat ->
          Forall (fun l => columns l = 18%nat) (before ++ after) ->
          exists entries,
            parseFECFile content = Returned entries
            /\ S (List.length entries) =
               List.length (tl (nonBlankLines content))).
Proof.
  intros content.
  destruct (parseFECFile_cases content)
    as [[Ht Hp] | [[Ht [Hl Hp]] | [[Ht [Hl [Hh Hp]]] | [Ht [Hl [Hh Hp]]]]]];
    rewrite Hp.
  - repeat split; try (intros; discriminate); eauto.
    + intros e [= <-]. eauto.
    + intros; contradiction.
  - repeat split; try (intros; discriminate); eauto.
    + intros e [= <-]. eauto.
    + intros before bad after _ _ Htl _ _. exfalso.
      destruct (nonBlankLines content) as [|h [|x r]]; simpl in *;
        try lia; destruct before; discriminate.
  - repeat split; try (intros; discriminate); eauto.
    + intros e [= <-]. eauto.
    + intros; contradiction.
  - split; [|split; [|split]].
    + split; [intros [e He]; discriminate|].
      intros [H | [H | H]]; [contradiction|lia|contradiction].
    + intros e He. discriminate.
    + intros entries [= <-]. apply parseLines_length.
    + intros before bad after _ _ Htl Hbad Hgood.
      eexists. split; [reflexivity|].
      rewrite parseLines_length, Htl, filter_app. cbn [filter].
      rewrite Hbad. cbn [Nat.eqb].
      apply Forall_app in Hgood. destruct Hgood as [Hb Ha].
      rewrite !filter_all.
      * rewrite !length_app. simpl. lia.
      * eapply Forall_impl; [|exact Ha]. intros l ->. reflexivity.
      * eapply Forall_impl; [|exact Hb]. intros l ->. reflexivity.
Qed.

Lemma C6_witness :
  exists entries,
    parseFECFile shortLineFile = Returned entries
    /\ S (List.length entries) =
       List.length (tl (nonBlankLines shortLineFile)).
Proof.
  apply (proj2 (proj2 (proj2
           (C6_parse_failures_and_skipped_lines shortLineFile)))
           []
           "VE|Ventes|1|20240115|707000|Ventes|||F001|20240115|Vente|0,00|1000,00|||20240116|"
           ["VE|Ventes|2|20240115|411000|Clients|||F001|20240115|Vente|1000,00|0,00|||20240116||"]).
  - vm_compute. discriminate.
  - vm_compute. reflexivity.
  - vm_compute. reflexivity.
  - vm_compute. reflexivity.
  - repeat constructor.
Defined.

(* ================================================================== *)
(** ** Duplicate entry numbers *)

Lemma ascii_compare_lt_trans (x y z : ascii) :
  Ascii.compare x y = Lt -> Ascii.compare y z = Lt -> Ascii.compare x z = Lt.
Proof.
  unfold Ascii.compare. rewrite !N.compare_lt_iff. apply N.lt_trans.
Qed.

Lemma compare_le_trans (a b c : string) :
  String.compare a b <> Gt -> String.compare b c <> Gt ->
  String.compare a c <> Gt.
Proof.
  revert b c. induction a as [|x a IH]; intros [|y b] [|z c]; simpl;
    try congruence.
  destruct (Ascii.compare x y) eqn:Exy; [| |congruence].
  - apply Ascii.compare_eq_iff in Exy. subst y.
    destruct (Ascii.compare x z); [apply IH|congruence|congruence].
  - destruct (Ascii.compare y z) eqn:Eyz; [| |congruence].
    + apply Ascii.compare_eq_iff in Eyz. subst z. rewrite Exy. congruence.
    + rewrite (ascii_compare_lt_trans _ _ _ Exy Eyz). congruence.
Qed.

Lemma leb_trans (a b c : string) :
  String.leb a b = true -> String.leb b c = true -> String.leb a c = true.
Proof.
  unfold String.leb. intros Hab Hbc.
  assert (H : String.compare a c <> Gt).
  { apply (compare_le_trans a b c).
    - destruct (String.compare a b); congruence.
    - destruct (String.compare b c); congruence. }
  destruct (String.compare a c); congruence.
Qed.

Lemma insert_count (before : string -> string -> bool) (x v : string)
  (l : list string) :
  count_occ string_dec (Arr.insert before x l) v =
  count_occ string_dec (x :: l) v.
Proof.
  induction l as [|y r IH]; [reflexivity|].
  cbn [Arr.insert]. destruct (before x y); [reflexivity|].
  cbn [count_occ] in *. rewrite IH.
  destruct (string_dec x v), (string_dec y v); reflexivity.
Qed.

Lemma sort_count (before : string -> string -> bool) (v : string)
  (l : list string) :
  count_occ string_dec (Arr.sort before l) v = count_occ string_dec l v.
Proof.
  induction l as [|x r IH]; [reflexivity|].
  cbn [Arr.sort fold_right]. fold (Arr.sort before r).
  rewrite insert_count. cbn [count_occ]. rewrite IH. reflexivity.
Qed.

Lemma sortedNums_StronglySorted (entries : list Entry) :
  StronglySorted (fun a b => String.leb a b = true) (sortedNums entries).
Proof.
  apply Sorted_StronglySorted.
  - intros a b c. apply leb_trans.
  - unfold sortedNums.
    apply (sort_Sorted String.leb (fun _ => True)).
    + intros x y _ _. apply leb_total_bool.
    + apply Forall_forall. trivial.
Qed.

Lemma duplicateErrors_count (v : string) (l : list string) :
  StronglySorted (fun a b => String.leb a b = true) l ->
  duplicateReports v (duplicateErrors l) = pred (count_occ string_dec l v).
Proof.
  unfold duplicateReports.
  induction l as [|a [|b r] IH]; intros Hs.
  - reflexivity.
  - simpl. destruct (string_dec a v); reflexivity.
  - inversion Hs as [|? ? Hs' Ha]; subst.
    specialize (IH Hs').
    change (duplicateErrors (a :: b :: r))
      with (when (String.eqb b a)
                 [Issue.mk DUPLICATE_NUM (DuplicateNumber b) None]
            ++ duplicateErrors (b :: r)).
    rewrite filter_app, length_app, IH.
    change (count_occ string_dec (a :: b :: r) v)
      with (if string_dec a v
            then S (count_occ string_dec (b :: r) v)
            else count_occ string_dec (b :: r) v).
    destruct (string_dec a v) as [-> | Hav].
    + destruct (String.eqb b v) eqn:Ebv.
      * apply String.eqb_eq in Ebv. subst b.
        cbn [when filter isDuplicateOf Issue.type Issue.message
             IssueType_eqb andb].
        rewrite String.eqb_refl. cbn [List.length count_occ].
        destruct (string_dec v v); [reflexivity|congruence].
      * cbn [when List.length filter].
        assert (Hnone : count_occ string_dec (b :: r) v = 0%nat).
        { apply count_occ_not_In. intros Hin.
          inversion Hs' as [|? ? _ Hb]; subst.
          assert (Hvb : String.leb v b = true)
            by exact (proj1 (Forall_forall _ _) Ha b (or_introl eq_refl)).
          assert (Hbv : String.leb b v = true).
          { destruct Hin as [-> | Hin]; [exact Hvb|].
            exact (proj1 (Forall_forall _ _) Hb v Hin). }
          apply String.eqb_neq in Ebv. apply Ebv.
          now apply String.leb_antisym. }
        rewrite Hnone. reflexivity.
    + assert (Hno : filter (isDuplicateOf v)
                      (when (String.eqb b a)
                         [Issue.mk DUPLICATE_NUM (DuplicateNumber b) None])
                    = []).
      { destruct (String.eqb b a) eqn:Eba; [|reflexivity].
        apply String.eqb_eq in Eba. subst b.
        cbn [when filter isDuplicateOf Issue.type Issue.message
             IssueType_eqb andb].
        apply String.eqb_neq in Hav. rewrite Hav. reflexivity. }
      rewrite Hno. reflexivity.
Qed.

Lemma entryErrors_type (entries : list Entry) (i : Issue.t) :
  In i (entryErrors entries) -> Issue.type i = ENTRY_INVALID.
Proof.
  unfold entryErrors. intros H. apply in_flat_map in H.
  destruct H as [[index e] [_ H]].
  apply when_In in H. destruct H as [_ H].
  apply in_map_iff in H. destruct H as [m [<- _]]. reflexivity.
Qed.

Lemma balanceErrors_In (pieceRefs : list (string * Totals.t)) (i : Issue.t) :
  In i (balanceErrors pieceRefs) <->
  exists ref totals,
    In (ref, totals) (Obj.entries pieceRefs)
    /\ Num.gt (Num.abs (Num.sub (Totals.debit totals) (Totals.credit totals)))
              VALIDATION.BALANCE_TOLERANCE = true
    /\ i = Issue.mk BALANCE_ERROR
             (Unbalanced ref (Num.toFixed2 (Totals.debit totals))
                             (Num.toFixed2 (Totals.credit totals)))
             (Some ref).
Proof.
  unfold balanceErrors. rewrite in_flat_map. split.
  - intros [[ref totals] [Hin H]]. apply when_In in H.
    destruct H as [Hgt [<- | []]]. exists ref, totals. auto.
  - intros [ref [totals [Hin [Hgt ->]]]]. exists (ref, totals).
    split; [exact Hin|]. apply when_In. split; [exact Hgt|now left].
Qed.

Lemma filter_none {A : Type} (p : A -> bool) (l : list A) :
  (forall x, In x l -> p x = false) -> filter p l = [].
Proof.
  induction l as [|x r IH]; intros H; [reflexivity|].
  simpl. rewrite (H x (or_introl eq_refl)). apply IH.
  intros y Hy. apply H. now right.
Qed.

(** X10. In a ledger whose piece references are plain, a number carried by
    [k >= 2] entries is mentioned by exactly [k - 1] errors of kind
    [DUPLICATE_NUM] of the report. *)
Theorem duplicate_reports_count :
  forall (localeCompare : string -> string -> Z) (entries : list Entry)
         (v : string),
    plainRefs entries ->
    (2 <= occurrences v entries)%nat ->
    exists report,
      validateFECCompliance localeCompare entries = Returned report
      /\ duplicateReports v (Report.errors report) =
         (occurrences v entries - 1)%nat.
Proof.
  intros localeCompare entries v Hplain Hk.
  destruct (collectPieces_returns entries Hplain []) as [p Hp].
  assert (Hne : entries <> []).
  { intros ->. unfold occurrences in Hk. simpl in Hk. lia. }
  rewrite (validate_unfold localeCompare entries p Hne Hp).
  eexists. split; [reflexivity|]. cbn [Report.errors].
  unfold duplicateReports. rewrite !filter_app, !length_app.
  rewrite (filter_none _ (entryErrors entries)).
  2:{ intros i Hi. unfold isDuplicateOf.
      rewrite (entryErrors_type _ _ Hi). reflexivity. }
  rewrite (filter_none _ (balanceErrors p)).
  2:{ intros i Hi. apply balanceErrors_In in Hi.
      destruct Hi as [ref [t [_ [_ ->]]]]. reflexivity. }
  cbn [List.length Nat.add].
  fold (duplicateReports v (duplicateErrors (sortedNums entries))).
  rewrite (duplicateErrors_count v _ (sortedNums_StronglySorted entries)).
  unfold sortedNums. rewrite sort_count. unfold occurrences. lia.
Qed.

Example duplicate_reports_of_three :
  (2 <= occurrences "2" [saleCredit; saleDebit; saleDebitAgain])%nat
  /\ exists report,
       validateFECCompliance codeUnitCompare
         [saleCredit; saleDebit; saleDebitAgain] = Returned report
       /\ duplicateReports "2" (Report.errors report) = 1%nat.
Proof.
  split; [vm_compute; lia|].
  apply (duplicate_reports_count codeUnitCompare
           [saleCredit; saleDebit; saleDebitAgain] "2").
  - repeat constructor.
  - vm_compute. lia.
Defined.

(* ================================================================== *)
(** ** Balance of the pieces *)

Section ObjLemmas.
Context {V : Type}.

Lemma lookup_update (k k' : string) (f : V -> V) (o : list (string * V)) :
  Obj.lookup k (Obj.update k' f o) =
  if String.eqb k k' then option_map f (Obj.lookup k o) else Obj.lookup k o.
Proof.
  induction o as [|[k0 v] r IH]; simpl.
  - destruct (String.eqb k k'); reflexivity.
  - destruct (String.eqb k' k0) eqn:E0; simpl.
    + apply String.eqb_eq in E0. subst k0.
      destruct (String.eqb k k'); reflexivity.
    + destruct (String.eqb k k0) eqn:E1.
      * apply String.eqb_eq in E1. subst k0.
        rewrite String.eqb_sym, E0. reflexivity.
      * exact IH.
Qed.

Lemma lookup_app_one (k k' : string) (v : V) (o : list (string * V)) :
  Obj.lookup k (o ++ [(k', v)]) =
  match Obj.lookup k o with
  | Some x => Some x
  | None => if String.eqb k k' then Some v else None
  end.
Proof.
  induction o as [|[k0 v0] r IH]; simpl; [reflexivity|].
  destruct (String.eqb k k0); [reflexivity|exact IH].
Qed.

Lemma lookup_None (k : string) (o : list (string * V)) :
  Obj.lookup k o = None -> ~ In k (map fst o).
Proof.
  induction o as [|[k0 v0] r IH]; simpl; [tauto|].
  destruct (String.eqb k k0) eqn:E; [discriminate|].
  apply String.eqb_neq in E. intros H [H0 | H0]; [congruence|].
  now apply IH.
Qed.

Lemma lookup_In (k : string) (v : V) (o : list (string * V)) :
  Obj.lookup k o = Some v -> In (k, v) o.
Proof.
  induction o as [|[k0 v0] r IH]; simpl; [discriminate|].
  destruct (String.eqb k k0) eqn:E.
  - apply String.eqb_eq in E. subst k0. intros [= ->]. now left.
  - intros H. right. now apply IH.
Qed.

Lemma In_lookup (k : string) (v : V) (o : list (string * V)) :
  NoDup (map fst o) -> In (k, v) o -> Obj.lookup k o = Some v.
Proof.
  induction o as [|[k0 v0] r IH]; simpl; [tauto|].
  intros Hnd [H | H].
  - injection H as -> ->. rewrite String.eqb_refl. reflexivity.
  - inversion Hnd as [|? ? Hk0 Hr]; subst.
    destruct (String.eqb k k0) eqn:E.
    + apply String.eqb_eq in E. subst k0. exfalso. apply Hk0.
      apply in_map_iff. exists (k, v). auto.
    + now apply IH.
Qed.

Lemma update_keys (k : string) (f : V -> V) (o : list (string * V)) :
  map fst (Obj.update k f o) = map fst o.
Proof.
  induction o as [|[k0 v0] r IH]; simpl; [reflexivity|].
  destruct (String.eqb k k0); simpl; [reflexivity|now rewrite IH].
Qed.

Lemma insertIndex_In (kv x : string * V) (l : list (string * V)) :
  In x (Obj.insertIndex kv l) <-> x = kv \/ In x l.
Proof.
  induction l as [|y r IH]; simpl; [intuition|].
  destruct (Str.digitsValue (fst kv) <? Str.digitsValue (fst y)); simpl.
  - intuition.
  - rewrite IH. intuition.
Qed.

Lemma sortIndices_In (x : string * V) (l : list (string * V)) :
  In x (Obj.sortIndices l) <-> In x l.
Proof.
  induction l as [|y r IH]; simpl; [tauto|].
  rewrite insertIndex_In, IH. intuition.
Qed.

(** [Object.entries] lists the own properties, each once. *)
Lemma entries_In (x : string * V) (o : list (string * V)) :
  In x (Obj.entries o) <-> In x o.
Proof.
  unfold Obj.entries. rewrite in_app_iff, sortIndices_In, !filter_In.
  destruct (Obj.isArrayIndex (fst x)); simpl; intuition congruence.
Qed.
End ObjLemmas.

Lemma absorbAll_sums (es : list Entry) (t : Totals.t) :
  Totals.debit (absorbAll es t) =
    fold_left Num.add (map debitOf es) (Totals.debit t)
  /\ Totals.credit (absorbAll es t) =
    fold_left Num.add (map creditOf es) (Totals.credit t).
Proof.
  revert t. induction es as [|e r IH]; intros t; [split; reflexivity|].
  simpl. destruct (IH (accumulate e t)) as [Hd Hc].
  unfold absorbAll in *. rewrite Hd, Hc. split; reflexivity.
Qed.

Lemma addToPiece_lookup (acc acc' : list (string * Totals.t)) (e : Entry)
  (ref : string) :
  addToPiece acc e = Returned acc' ->
  Obj.lookup ref acc' =
  if String.eqb ref (PieceRef e)
  then Some (accumulate e match Obj.lookup ref acc with
                          | Some t => t
                          | None => Totals.mk Num.zero Num.zero []
                          end)
  else Obj.lookup ref acc.
Proof.
  unfold addToPiece.
  destruct (Obj.lookup (PieceRef e) acc) as [t0|] eqn:E0.
  - intros [= <-]. rewrite lookup_update.
    destruct (String.eqb ref (PieceRef e)) eqn:E; [|reflexivity].
    apply String.eqb_eq in E. subst ref. rewrite E0. reflexivity.
  - destruct (Obj.inherited (PieceRef e)); [discriminate|].
    intros [= <-]. rewrite lookup_app_one.
    destruct (String.eqb ref (PieceRef e)) eqn:E.
    + apply String.eqb_eq in E. subst ref. rewrite E0. reflexivity.
    + destruct (Obj.lookup ref acc); reflexivity.
Qed.

Lemma addToPiece_NoDup (acc acc' : list (string * Totals.t)) (e : Entry) :
  NoDup (map fst acc) ->
  addToPiece acc e = Returned acc' ->
  NoDup (map fst acc').
Proof.
  unfold addToPiece. intros Hnd.
  destruct (Obj.lookup (PieceRef e) acc) eqn:E0.
  - intros [= <-]. rewrite update_keys. exact Hnd.
  - destruct (Obj.inherited (PieceRef e)); [discriminate|].
    intros [= <-]. rewrite map_app. simpl.
    apply (Permutation_NoDup (l := PieceRef e :: map fst acc)).
    + apply Permutation_cons_append.
    + constructor; [now apply lookup_None|exact Hnd].
Qed.

Lemma collectPieces_spec (entries : list Entry) :
  forall acc p,
    NoDup (map fst acc) ->
    collectPieces acc entries = Returned p ->
    NoDup (map fst p)
    /\ forall ref,
         Obj.lookup ref p =
         match Obj.lookup ref acc, pieceOf ref entries with
         | Some t, es => Some (absorbAll es t)
         | None, [] => None
         | None, es => Some (absorbAll es (Totals.mk Num.zero Num.zero []))
         end.
Proof.
  induction entries as [|e r IH]; intros acc p Hnd Hp; simpl in Hp.
  - injection Hp as <-. split; [exact Hnd|].
    intros ref. simpl. destruct (Obj.lookup ref acc); reflexivity.
  - destruct (addToPiece acc e) as [acc'|] eqn:Ea; [|discriminate].
    destruct (IH acc' p (addToPiece_NoDup _ _ _ Hnd Ea) Hp) as [Hnd' Hl].
    split; [exact Hnd'|]. intros ref. rewrite Hl.
    rewrite (addToPiece_lookup _ _ _ ref Ea).
    unfold pieceOf. cbn [filter]. fold (pieceOf ref r).
    rewrite (String.eqb_sym (PieceRef e) ref).
    destruct (String.eqb ref (PieceRef e)).
    + destruct (Obj.lookup ref acc); reflexivity.
    + reflexivity.
Qed.

Lemma duplicateErrors_type (l : list string) (i : Issue.t) :
  In i (duplicateErrors l) -> Issue.type i = DUPLICATE_NUM.
Proof.
  induction l as [|a [|b r] IH]; simpl; try tauto.
  intros H. apply in_app_or in H. destruct H as [H | H].
  - apply when_In in H. destruct H as [_ [<- | []]]. reflexivity.
  - apply IH. exact H.
Qed.

Lemma pieceOf_not_nil (ref : string) (entries : list Entry) :
  In ref (map PieceRef entries) -> pieceOf ref entries <> [].
Proof.
  intros H. apply in_map_iff in H. destruct H as [e [He Hin]].
  assert (Hf : In e (pieceOf ref entries)).
  { apply filter_In. split; [exact Hin|]. now apply String.eqb_eq. }
  intros E. rewrite E in Hf. contradiction.
Qed.

(** The totals recorded for a piece are the sums of its debits and of its
    credits. *)
Lemma collectPieces_totals (entries : list Entry)
  (p : list (string * Totals.t)) (ref : string) :
  collectPieces [] entries = Returned p ->
  In ref (map PieceRef entries) ->
  NoDup (map fst p)
  /\ exists totals,
       Obj.lookup ref p = Some totals
       /\ Totals.debit totals = debitSum ref entries
       /\ Totals.credit totals = creditSum ref entries.
Proof.
  intros Hp Href.
  destruct (collectPieces_spec entries [] p (NoDup_nil _) Hp) as [Hnd Hl].
  split; [exact Hnd|].
  specialize (Hl ref). cbn [Obj.lookup] in Hl.
  pose proof (pieceOf_not_nil ref entries Href) as Hne.
  exists (absorbAll (pieceOf ref entries) (Totals.mk Num.zero Num.zero [])).
  split.
  - rewrite Hl. destruct (pieceOf ref entries); [congruence|reflexivity].
  - apply absorbAll_sums.
Qed.

(** X11. In a ledger whose piece references are plain, the report holds a
    [BALANCE_ERROR] for the piece [ref] exactly when the absolute difference
    of the sum of the debits and the sum of the credits of the entries of
    that piece is greater than the tolerance 0.01; the error then names the
    piece and gives both sums with two decimals. Sums and difference are
    those of the numbers of the language. *)
Theorem balance_error_iff_beyond_tolerance :
  forall (localeCompare : string -> string -> Z) (entries : list Entry)
         (ref : string),
    plainRefs entries ->
    In ref (map PieceRef entries) ->
    exists report,
      validateFECCompliance localeCompare entries = Returned report
      /\ forall i,
           (In i (Report.errors report)
            /\ Issue.type i = BALANCE_ERROR /\ Issue.entry i = Some ref)
           <-> (beyondTolerance ref entries = true
                /\ i = balanceError ref entries).
Proof.
  intros localeCompare entries ref Hplain Href.
  destruct (collectPieces_returns entries Hplain []) as [p Hp].
  assert (Hne : entries <> []) by (intros ->; contradiction).
  rewrite (validate_unfold localeCompare entries p Hne Hp).
  eexists. split; [reflexivity|]. cbn [Report.errors].
  destruct (collectPieces_totals entries p ref Hp Href)
    as [Hnd [totals [Hlook [Hd Hc]]]].
  intros i. split.
  - intros [Hin [Htype Hentry]].
    apply in_app_or in Hin. destruct Hin as [Hin | Hin].
    { rewrite (entryErrors_type _ _ Hin) in Htype. discriminate. }
    apply in_app_or in Hin. destruct Hin as [Hin | Hin].
    2:{ rewrite (duplicateErrors_type _ _ Hin) in Htype. discriminate. }
    apply balanceErrors_In in Hin.
    destruct Hin as [ref' [t [Hmem [Hgt ->]]]].
    cbn [Issue.entry] in Hentry. injection Hentry as ->.
    apply (proj1 (entries_In _ _)) in Hmem.
    rewrite (In_lookup _ _ _ Hnd Hmem) in Hlook. injection Hlook as ->.
    unfold beyondTolerance, balanceError. rewrite <- Hd, <- Hc.
    split; [exact Hgt|reflexivity].
  - intros [Hgt ->]. split; [|split; reflexivity].
    apply in_or_app. right. apply in_or_app. left.
    apply balanceErrors_In. exists ref, totals.
    split; [apply entries_In; now apply lookup_In|].
    unfold beyondTolerance, balanceError in *. rewrite Hd, Hc.
    split; [exact Hgt|reflexivity].
Qed.

Example balance_error_of_sale :
  exists report,
    validateFECCompliance codeUnitCompare [saleCredit; vatCredit] =
    Returned report
    /\ forall i,
         (In i (Report.errors report)
          /\ Issue.type i = BALANCE_ERROR /\ Issue.entry i = Some "F001")
         <-> (beyondTolerance "F001" [saleCredit; vatCredit] = true
              /\ i = balanceError "F001" [saleCredit; vatCredit]).
Proof.
  apply (balance_error_iff_beyond_tolerance codeUnitCompare
           [saleCredit; vatCredit] "F001").
  - repeat constructor.
  - left. reflexivity.
Defined.

(** The difference of a piece is the rounded one: a debit of 0.07 against a
    credit of 0.06 is beyond the tolerance and is reported. *)
Example one_cent_difference_reported :
  validateFECCompliance codeUnitCompare [sevenCents; sixCents] =
  Returned
    (Report.mk false
       [Issue.mk BALANCE_ERROR (Unbalanced "OD02" "0.07" "0.06")
          (Some "OD02")]
       []).
Proof. vm_compute. reflexivity. Qed.

(** C3. Evaluation at a ledger whose only piece is named [constructor] and
    is out of balance by 1000.00: [pieceRefs[ref]] finds the member
    inherited from [Object.prototype], no totals are recorded, and the
    validator throws instead of reporting a [BALANCE_ERROR] for the
    piece. *)
Theorem C3_inherited_reference_throws :
  forall localeCompare : string -> string -> Z,
    In "constructor" (map PieceRef [constructorCredit])
    /\ beyondTolerance "constructor" [constructorCredit] = true
    /\ validateFECCompliance localeCompare [constructorCredit] =
       Thrown (TypeError CannotPush).
Proof.
  intros localeCompare. split; [left; reflexivity|].
  split; vm_compute; reflexivity.
Qed.

(** C8. Evaluation at a ledger of two entries that share the number 1 and
    whose piece is named [constructor]: the balance pass throws before the
    numbers are compared, and no [DUPLICATE_NUM] error is reported. *)
Theorem C8_duplicates_lost_when_balance_throws :
  forall localeCompare : string -> string -> Z,
    occurrences "1" [constructorCredit; constructorCredit] = 2%nat
    /\ validateFECCompliance localeCompare
         [constructorCredit; constructorCredit] =
       Thrown (TypeError CannotPush).
Proof.
  intros localeCompare. split; vm_compute; reflexivity.
Qed.

(* ================================================================== *)
(** ** Round trip through the file format *)

Lemma forallb_app (p : ascii -> bool) (a b : string) :
  Str.forallb p (a ++ b)%string = (Str.forallb p a && Str.forallb p b)%bool.
Proof.
  induction a as [|c r IH]; simpl; [reflexivity|].
  rewrite IH. apply andb_assoc.
Qed.

Lemma forallb_impl (p q : ascii -> bool) (s : string) :
  (forall c, p c = true -> q c = true) ->
  Str.forallb p s = true -> Str.forallb q s = true.
Proof.
  intros Hpq. induction s as [|c r IH]; simpl; [reflexivity|].
  intros H. apply andb_true_iff in H. destruct H as [Hc Hr].
  rewrite (Hpq c Hc), (IH Hr). reflexivity.
Qed.

Lemma forallb_count (p : ascii -> bool) (c : ascii) (s : string) :
  p c = false -> Str.forallb p s = true -> Str.count c s = 0%nat.
Proof.
  intros Hc. induction s as [|x r IH]; simpl; [reflexivity|].
  intros H. apply andb_true_iff in H. destruct H as [Hx Hr].
  destruct (Ascii.eqb x c) eqn:E; [|now apply IH].
  apply Ascii.eqb_eq in E. congruence.
Qed.

Lemma count_app (c : ascii) (a b : string) :
  Str.count c (a ++ b)%string = (Str.count c a + Str.count c b)%nat.
Proof.
  induction a as [|x r IH]; simpl; [reflexivity|].
  destruct (Ascii.eqb x c); simpl; now rewrite IH.
Qed.

Lemma uint_digits (d : Decimal.uint) :
  Str.forallb Str.isDigit (NilEmpty.string_of_uint d) = true.
Proof. induction d; simpl; auto. Qed.

Lemma ofZ_digits (n : Z) : Str.forallb Str.isDigit (Str.ofZ n) = true.
Proof.
  unfold Str.ofZ, NilZero.string_of_uint.
  destruct (N.to_uint (Z.to_N n)); try reflexivity; apply uint_digits.
Qed.

Lemma digit_amountChar (c : ascii) :
  Str.isDigit c = true -> amountChar c = true.
Proof. unfold amountChar. intros ->. reflexivity. Qed.

Lemma ofZ_amountChars (n : Z) : Str.forallb amountChar (Str.ofZ n) = true.
Proof.
  apply (forallb_impl Str.isDigit); [exact digit_amountChar|apply ofZ_digits].
Qed.

Lemma exponential_chars (s p : Z) :
  Str.forallb amountChar (Num.exponential s p) = true.
Proof.
  unfold Num.exponential.
  pose proof (ofZ_amountChars s) as Hs.
  destruct (Str.ofZ s) as [|d [|d' rest]]; [reflexivity| |].
  - simpl in Hs. apply andb_true_iff in Hs. destruct Hs as [Hd _].
    cbn [Str.forallb]. rewrite Hd.
    change ("e+" ++ Str.ofZ (Z.of_nat (String.length (String d "")) + p - 1))%string
      with (String "e" (String "+"
              (Str.ofZ (Z.of_nat (String.length (String d "")) + p - 1)))).
    cbn [Str.forallb]. rewrite ofZ_amountChars. reflexivity.
  - cbn [Str.forallb] in Hs. apply andb_true_iff in Hs.
    destruct Hs as [Hd Hrest].
    cbn [Str.forallb]. rewrite Hd. cbn [andb].
    change ("." ++ ?x)%string with (String "." x).
    set (tail := String d' rest) in *.
    change (Str.forallb amountChar
              (String "." (tail ++ String "e" (String "+"
                 (Str.ofZ (Z.of_nat (String.length (String d tail)) + p - 1)))))
            = true).
    cbn [Str.forallb]. rewrite forallb_app. cbn [Str.forallb].
    change (Str.forallb amountChar tail) with
      (amountChar d' && Str.forallb amountChar rest)%bool.
    rewrite Hrest, ofZ_amountChars. reflexivity.
Qed.

Lemma toStringLarge_chars (m : positive) (e : Z) :
  Str.forallb amountChar (Num.toStringLarge m e) = true.
Proof.
  unfold Num.toStringLarge.
  destruct (Num.shortestFrom _ _ _ _ _) as [s0 p0].
  destruct (Num.stripZeros _ s0 p0) as [s p].
  apply exponential_chars.
Qed.

Lemma fixed2_chars (n : Z) : Str.forallb amountChar (Num.fixed2 n) = true.
Proof.
  unfold Num.fixed2, Num.twoDigits.
  rewrite forallb_app, ofZ_amountChars.
  destruct (n mod 100 <? 10); cbn [append Str.forallb andb];
    rewrite ?ofZ_amountChars; reflexivity.
Qed.

Lemma toFixed2_chars (x : Num.number) :
  Str.forallb amountChar (Num.toFixed2 x) = true.
Proof.
  destruct x as [s | s | | s m e]; cbn [Num.toFixed2];
    try (destruct s; reflexivity); try reflexivity.
  rewrite forallb_app.
  assert (H : Str.forallb amountChar
                (if Num.atLeast1e21 m e then Num.toStringLarge m e
                 else Num.fixed2 (Num.scaled100 m e)) = true).
  { destruct (Num.atLeast1e21 m e);
      [apply toStringLarge_chars|apply fixed2_chars]. }
  rewrite H. destruct s; reflexivity.
Qed.

Lemma amountChar_plain (c : ascii) :
  amountChar c = true -> safeChar c = true /\ Ascii.eqb c "," = false.
Proof.
  destruct c as [[] [] [] [] [] [] [] []]; vm_compute; intros H;
    try discriminate H; split; reflexivity.
Qed.

Lemma safeChar_spec (c : ascii) :
  safeChar c = true ->
  Str.isWhiteSpace c = false /\ Ascii.eqb c "|" = false
  /\ Ascii.eqb c Str.LF = false.
Proof.
  destruct c as [[] [] [] [] [] [] [] []]; vm_compute; intros H;
    try discriminate H; repeat split; reflexivity.
Qed.

Lemma removeAll_free (c : ascii) (s : string) :
  Str.count c s = 0%nat -> Str.removeAll c s = s.
Proof.
  induction s as [|x r IH]; simpl; [reflexivity|].
  destruct (Ascii.eqb x c); [discriminate|].
  intros H. now rewrite IH.
Qed.

Lemma trimEnd_safe (s : string) :
  Str.forallb (fun c => negb (Str.isWhiteSpace c)) s = true ->
  Str.trimEnd s = s.
Proof.
  induction s as [|c r IH]; simpl; [reflexivity|].
  intros H. apply andb_true_iff in H. destruct H as [Hc Hr].
  rewrite (IH Hr). apply negb_true_iff in Hc. rewrite Hc.
  destruct r; reflexivity.
Qed.

Lemma trim_safe (s : string) :
  Str.forallb (fun c => negb (Str.isWhiteSpace c)) s = true ->
  Str.trim s = s.
Proof.
  intros H. unfold Str.trim.
  assert (Hs : Str.trimStart s = s).
  { destruct s as [|c r]; [reflexivity|]. simpl in *.
    apply andb_true_iff in H. destruct H as [Hc _].
    apply negb_true_iff in Hc. now rewrite Hc. }
  rewrite Hs. now apply trimEnd_safe.
Qed.

Lemma trim_empty_blank (s : string) :
  Str.trim s = "" -> Str.forallb Str.isWhiteSpace s = true.
Proof.
  unfold Str.trim. induction s as [|c r IH]; [reflexivity|].
  cbn [Str.trimStart Str.forallb].
  destruct (Str.isWhiteSpace c) eqn:E; [exact IH|].
  cbn [Str.trimEnd]. rewrite E. destruct (Str.trimEnd r); discriminate.
Qed.

(** A line with a separator in it is not blank. *)
Lemma separator_not_blank (s : string) :
  (0 < Str.count "|" s)%nat -> Str.isEmpty (Str.trim s) = false.
Proof.
  intros H. apply isEmpty_false. intros E.
  apply trim_empty_blank in E.
  rewrite (forallb_count Str.isWhiteSpace "|" s) in H; [lia|reflexivity|exact E].
Qed.

Lemma replaceFirst_forallb (p : ascii -> bool) (c d : ascii) (s : string) :
  p d = true -> Str.forallb p s = true ->
  Str.forallb p (Str.replaceFirst c d s) = true.
Proof.
  intros Hd. induction s as [|x r IH]; simpl; [reflexivity|].
  intros H. apply andb_true_iff in H. destruct H as [Hx Hr].
  destruct (Ascii.eqb x c); simpl.
  - now rewrite Hd, Hr.
  - now rewrite Hx, IH.
Qed.

Lemma replaceFirst_back (s : string) :
  Str.count "," s = 0%nat ->
  Str.replaceFirst "," "." (Str.replaceFirst "." "," s) = s.
Proof.
  induction s as [|x r IH]; simpl; [reflexivity|].
  destruct (Ascii.eqb x ",") eqn:Ec; [discriminate|].
  intros H. destruct (Ascii.eqb x ".") eqn:Ed; simpl.
  - apply Ascii.eqb_eq in Ed. now subst x.
  - rewrite Ec, (IH H). reflexivity.
Qed.

(** What is written for an amount is read back as the canonical text. *)
Lemma amount_read_back (x : Num.number) :
  let written :=
    Str.removeAll "|" (Str.replaceFirst "." "," (Num.toFixed2 x)) in
  Str.replaceFirst "," "." (Str.trim written) = Num.toFixed2 x
  /\ Str.forallb safeChar written = true.
Proof.
  intros written.
  pose proof (toFixed2_chars x) as Hc.
  assert (Hsafe : Str.forallb safeChar
                    (Str.replaceFirst "." "," (Num.toFixed2 x)) = true).
  { apply replaceFirst_forallb; [reflexivity|].
    apply (forallb_impl amountChar); [|exact Hc].
    intros c H. apply (amountChar_plain c H). }
  assert (Hw : written = Str.replaceFirst "." "," (Num.toFixed2 x)).
  { apply removeAll_free.
    apply (forallb_count safeChar); [reflexivity|exact Hsafe]. }
  rewrite Hw. split; [|exact Hsafe].
  rewrite trim_safe.
  - apply replaceFirst_back.
    apply (forallb_count (fun c => negb (Ascii.eqb c ","))); [reflexivity|].
    apply (forallb_impl amountChar); [|exact Hc].
    intros c H. destruct (amountChar_plain c H) as [_ ->]. reflexivity.
  - apply (forallb_impl safeChar); [|exact Hsafe].
    intros c H. destruct (safeChar_spec c H) as [-> _]. reflexivity.
Qed.

Lemma count_cons_zero (c x : ascii) (r : string) :
  Str.count c (String x r) = 0%nat ->
  Ascii.eqb x c = false /\ Str.count c r = 0%nat.
Proof.
  simpl. destruct (Ascii.eqb x c); [discriminate|auto].
Qed.

Lemma splitLines_free (s : string) :
  Str.count Str.LF s = 0%nat -> Str.splitLines s = [s].
Proof.
  induction s as [|c r IH]; [reflexivity|].
  intros H. apply count_cons_zero in H. destruct H as [Ec H].
  cbn [Str.splitLines]. rewrite Ec, (IH H).
  destruct (Ascii.eqb c Str.CR); [|reflexivity].
  destruct r as [|c2 r2]; [reflexivity|].
  apply count_cons_zero in H. destruct H as [Ec2 _]. rewrite Ec2.
  reflexivity.
Qed.

Lemma splitLines_app (s t : string) :
  Str.count Str.LF s = 0%nat ->
  Str.splitLines (s ++ CRLF ++ t)%string = s :: Str.splitLines t.
Proof.
  induction s as [|c r IH]; [reflexivity|].
  intros H. apply count_cons_zero in H. destruct H as [Ec H].
  change (String c r ++ CRLF ++ t)%string
    with (String c (r ++ CRLF ++ t)%string).
  cbn [Str.splitLines]. rewrite Ec, (IH H).
  destruct (Ascii.eqb c Str.CR); [|reflexivity].
  destruct r as [|c2 r2]; [reflexivity|].
  apply count_cons_zero in H. destruct H as [Ec2 _].
  change (String c2 r2 ++ CRLF ++ t)%string
    with (String c2 (r2 ++ CRLF ++ t)%string).
  cbv beta iota. rewrite Ec2. reflexivity.
Qed.

Lemma splitLines_join (lines : list string) :
  lines <> [] ->
  Forall (fun l => Str.count Str.LF l = 0%nat) lines ->
  Str.splitLines (Str.join CRLF lines) = lines.
Proof.
  intros Hne Hall. induction Hall as [|l r Hl Hr IH]; [congruence|].
  destruct r as [|l' r'].
  - simpl. now apply splitLines_free.
  - change (Str.join CRLF (l :: l' :: r'))
      with (l ++ CRLF ++ Str.join CRLF (l' :: r'))%string.
    rewrite (splitLines_app _ _ Hl), IH; [reflexivity|discriminate].
Qed.

Lemma entryOfValues_columns (g : Field.t -> string) :
  entryOfValues (map g FIELDS) =
  mkEntry (Str.trim (g Field.JournalCode))
          (Str.trim (g Field.JournalLib))
          (Str.trim (g Field.EcritureNum))
          (Str.trim (g Field.EcritureDate))
          (Str.trim (g Field.CompteNum))
          (Str.trim (g Field.CompteLib))
          (Str.trim (g Field.CompAuxNum))
          (Str.trim (g Field.CompAuxLib))
          (Str.trim (g Field.PieceRef))
          (Str.trim (g Field.PieceDate))
          (Str.trim (g Field.EcritureLib))
          (Str.replaceFirst "," "." (Str.trim (g Field.Debit)))
          (Str.replaceFirst "," "." (Str.trim (g Field.Credit)))
          (Str.trim (g Field.EcritureLet))
          (Str.trim (g Field.DateLet))
          (Str.trim (g Field.ValidDate))
          (Str.replaceFirst "," "." (Str.trim (g Field.Montantdevise)))
          (Str.trim (g Field.Idevise)).
Proof. reflexivity. Qed.

Lemma or_empty (v : string) : Str.or v "" = v.
Proof. destruct v; reflexivity. Qed.

Lemma column_text_read (e : Entry) (field : Field.t) :
  isAmountField field = false ->
  cleanText (get e field) ->
  Str.trim (columnText (objectOf e) field) = get e field
  /\ Str.count Str.LF (columnText (objectOf e) field) = 0%nat.
Proof.
  intros Hf [Hpipe [Hlf Htrim]].
  unfold columnText, objectOf. rewrite Hf, or_empty.
  rewrite (removeAll_free _ _ Hpipe). auto.
Qed.

Lemma column_amount_read (e : Entry) (field : Field.t) :
  isAmountField field = true ->
  Str.replaceFirst "," "." (Str.trim (columnText (objectOf e) field)) =
    canonicalAmount (get e field)
  /\ Str.count Str.LF (columnText (objectOf e) field) = 0%nat.
Proof.
  intros Hf. unfold columnText, objectOf. rewrite Hf, or_empty.
  destruct (amount_read_back (Num.parseFloatOr0 (get e field))) as [Hr Hs].
  split; [exact Hr|].
  apply (forallb_count safeChar); [reflexivity|exact Hs].
Qed.

Lemma column_noLF (e : Entry) (field : Field.t) :
  cleanEntry e ->
  Str.count Str.LF (columnText (objectOf e) field) = 0%nat.
Proof.
  intros Hclean. destruct (isAmountField field) eqn:Hf.
  - exact (proj2 (column_amount_read e field Hf)).
  - exact (proj2 (column_text_read e field Hf (Hclean field Hf))).
Qed.

Lemma line_read (e : Entry) :
  cleanEntry e ->
  entryOfValues (Str.split "|" (dataLine (objectOf e))) = normalizeAmounts e.
Proof.
  intros Hclean.
  rewrite columns_of_dataLine, entryOfValues_columns.
  unfold normalizeAmounts. cbn [set JournalCode JournalLib EcritureNum
    EcritureDate CompteNum CompteLib CompAuxNum CompAuxLib PieceRef PieceDate
    EcritureLib Debit Credit EcritureLet DateLet ValidDate Montantdevise
    Idevise].
  rewrite (proj1 (column_amount_read e Field.Debit eq_refl)).
  rewrite (proj1 (column_amount_read e Field.Credit eq_refl)).
  rewrite (proj1 (column_amount_read e Field.Montantdevise eq_refl)).
  rewrite (proj1 (column_text_read e Field.JournalCode eq_refl
             (Hclean Field.JournalCode eq_refl))).
  rewrite (proj1 (column_text_read e Field.JournalLib eq_refl
             (Hclean Field.JournalLib eq_refl))).
  rewrite (proj1 (column_text_read e Field.EcritureNum eq_refl
             (Hclean Field.EcritureNum eq_refl))).
  rewrite (proj1 (column_text_read e Field.EcritureDate eq_refl
             (Hclean Field.EcritureDate eq_refl))).
  rewrite (proj1 (column_text_read e Field.CompteNum eq_refl
             (Hclean Field.CompteNum eq_refl))).
  rewrite (proj1 (column_text_read e Field.CompteLib eq_refl
             (Hclean Field.CompteLib eq_refl))).
  rewrite (proj1 (column_text_read e Field.CompAuxNum eq_refl
             (Hclean Field.CompAuxNum eq_refl))).
  rewrite (proj1 (column_text_read e Field.CompAuxLib eq_refl
             (Hclean Field.CompAuxLib eq_refl))).
  rewrite (proj1 (column_text_read e Field.PieceRef eq_refl
             (Hclean Field.PieceRef eq_refl))).
  rewrite (proj1 (column_text_read e Field.PieceDate eq_refl
             (Hclean Field.PieceDate eq_refl))).
  rewrite (proj1 (column_text_read e Field.EcritureLib eq_refl
             (Hclean Field.EcritureLib eq_refl))).
  rewrite (proj1 (column_text_read e Field.EcritureLet eq_refl
             (Hclean Field.EcritureLet eq_refl))).
  rewrite (proj1 (column_text_read e Field.DateLet eq_refl
             (Hclean Field.DateLet eq_refl))).
  rewrite (proj1 (column_text_read e Field.ValidDate eq_refl
             (Hclean Field.ValidDate eq_refl))).
  rewrite (proj1 (column_text_read e Field.Idevise eq_refl
             (Hclean Field.Idevise eq_refl))).
  reflexivity.
Qed.

Lemma count_join_zero (c sep : ascii) (l : list string) :
  Ascii.eqb sep c = false ->
  Forall (fun s => Str.count c s = 0%nat) l ->
  Str.count c (Str.join (String sep "") l) = 0%nat.
Proof.
  intros Hsep Hall. induction Hall as [|s r Hs Hr IH]; [reflexivity|].
  destruct r as [|s' r']; [exact Hs|].
  change (Str.join (String sep "") (s :: s' :: r'))
    with (s ++ String sep (Str.join (String sep "") (s' :: r')))%string.
  rewrite count_app, Hs. cbn [Str.count]. rewrite Hsep. exact IH.
Qed.

Lemma dataLine_noLF (e : Entry) :
  cleanEntry e -> Str.count Str.LF (dataLine (objectOf e)) = 0%nat.
Proof.
  intros Hclean. unfold dataLine. apply count_join_zero; [reflexivity|].
  apply Forall_forall. intros s Hs. apply in_map_iff in Hs.
  destruct Hs as [f [<- _]]. now apply column_noLF.
Qed.

Lemma dataLine_columns (o : EntryObject) : columns (dataLine o) = 18%nat.
Proof. unfold columns. rewrite columns_of_dataLine. reflexivity. Qed.

Lemma dataLine_not_blank (o : EntryObject) :
  Str.isEmpty (Str.trim (dataLine o)) = false.
Proof.
  apply separator_not_blank.
  pose proof (dataLine_columns o) as H. unfold columns in H.
  rewrite split_length in H. lia.
Qed.

Lemma parseLines_dataLines (L : list Entry) :
  Forall cleanEntry L ->
  parseLines (map dataLine (map objectOf L)) = map normalizeAmounts L.
Proof.
  induction 1 as [|e r He Hr IH]; [reflexivity|].
  cbn [map]. unfold parseLines in *. cbn [flat_map]. rewrite IH.
  fold (columns (dataLine (objectOf e))). rewrite dataLine_columns.
  cbn [List.length FIELDS Nat.eqb negb]. rewrite (line_read e He).
  reflexivity.
Qed.

(** The non-blank lines of a generated file are its header and its data
    lines. *)
Lemma generated_lines (L : list Entry) :
  Forall cleanEntry L ->
  nonBlankLines (Str.join CRLF (headerLine :: map dataLine (map objectOf L)))
  = headerLine :: map dataLine (map objectOf L).
Proof.
  intros Hclean. unfold nonBlankLines. rewrite splitLines_join.
  - apply filter_all. constructor; [reflexivity|].
    apply Forall_forall. intros l Hl. apply in_map_iff in Hl.
    destruct Hl as [o [<- _]]. rewrite dataLine_not_blank. reflexivity.
  - discriminate.
  - constructor; [reflexivity|].
    apply Forall_forall. intros l Hl. apply in_map_iff in Hl.
    destruct Hl as [o [<- Ho]]. apply in_map_iff in Ho.
    destruct Ho as [e [<- He]]. apply dataLine_noLF.
    exact (proj1 (Forall_forall _ _) Hclean e He).
Qed.

Lemma normalizeAmounts_canonical (e : Entry) :
  canonicalAmounts e -> normalizeAmounts e = e.
Proof.
  intros [Hd [Hc Hm]]. unfold normalizeAmounts. destruct e.
  cbn in *. rewrite Hd, Hc, Hm. reflexivity.
Qed.

Lemma generated_text_parses (L : list Entry) :
  L <> [] ->
  Forall cleanEntry L ->
  parseFECFile
    (Str.join CRLF (headerLine :: map dataLine (map objectOf L))) =
  Returned (map normalizeAmounts L).
Proof.
  intros Hne Hclean.
  set (text := Str.join CRLF (headerLine :: map dataLine (map objectOf L))).
  pose proof (generated_lines L Hclean) as Hlines. fold text in Hlines.
  assert (Hblank : Str.trim text <> "").
  { apply isEmpty_false. apply separator_not_blank.
    destruct L as [|e r]; [congruence|].
    unfold text. cbn [map].
    change (Str.join CRLF (headerLine :: ?l))
      with (headerLine ++ CRLF ++ Str.join CRLF l)%string.
    rewrite count_app.
    change (Str.count "|" headerLine) with 17%nat. lia. }
  destruct (parseFECFile_cases text)
    as [[Ht _] | [[_ [Hl _]] | [[_ [_ [Hh _]]] | [_ [_ [_ Hp]]]]]].
  - contradiction.
  - rewrite Hlines in Hl. destruct L; [congruence|]. simpl in Hl. lia.
  - rewrite Hlines in Hh. exfalso. apply Hh. reflexivity.
  - rewrite Hp, Hlines. cbn [tl]. now rewrite parseLines_dataLines.
Qed.

(** C1, as the code has it. For a non-empty ledger whose text fields hold
    no '|' and no line feed and have no white space at either end, the file
    generated from it parses to the same ledger with [Debit], [Credit] and
    [Montantdevise] replaced by their values written with two decimals
    (the empty text counting as 0); hence to the same ledger when those
    three fields are already in that form. *)
Theorem C1_round_trip_normalizes_amounts :
  forall L : list Entry,
    L <> [] ->
    Forall cleanEntry L ->
    exists text,
      generateFECFile (map objectOf L) = Returned text
      /\ parseFECFile text = Returned (map normalizeAmounts L)
      /\ (Forall canonicalAmounts L -> parseFECFile text = Returned L).
Proof.
  intros L Hne Hclean.
  exists (Str.join CRLF (headerLine :: map dataLine (map objectOf L))).
  split; [|split].
  - unfold generateFECFile. destruct L; [congruence|reflexivity].
  - now apply generated_text_parses.
  - intros Hcanon. rewrite (generated_text_parses L Hne Hclean).
    f_equal. induction Hcanon as [|e r He Hr IH]; [reflexivity|].
    cbn [map]. rewrite (normalizeAmounts_canonical e He).
    destruct r as [|e' r']; [reflexivity|].
    inversion Hclean; subst. rewrite IH; [reflexivity|discriminate|assumption].
Qed.

Lemma canonicalSale_clean : cleanEntry canonicalSale.
Proof.
  intros field Hf. destruct field; try discriminate Hf;
    repeat split; reflexivity.
Qed.

Lemma C1_witness :
  exists text,
    generateFECFile (map objectOf [canonicalSale]) = Returned text
    /\ parseFECFile text = Returned [canonicalSale].
Proof.
  destruct (C1_round_trip_normalizes_amounts [canonicalSale])
    as [text [Hg [_ Hp]]].
  - discriminate.
  - constructor; [exact canonicalSale_clean|constructor].
  - exists text. split; [exact Hg|]. apply Hp.
    constructor; [|constructor]. repeat split; reflexivity.
Defined.

(** C1, counterexample to the claim as stated: the entry of the first
    scenario line passes [validateEntry], and after generation and parsing
    its debit [0] is [0.00] and its empty foreign amount is [0.00]. *)
Lemma C1_amounts_rewritten :
  EntryResult.valid (validateEntry scenarioSale) = true
  /\ exists text parsed,
       generateFECFile (map objectOf [scenarioSale]) = Returned text
       /\ parseFECFile text = Returned [parsed]
       /\ Montantdevise scenarioSale = "" /\ Montantdevise parsed = "0.00"
       /\ Debit scenarioSale = "0" /\ Debit parsed = "0.00"
       /\ parsed <> scenarioSale.
Proof.
  split; [vm_compute; reflexivity|].
  eexists. eexists.
  split; [vm_compute; reflexivity|].
  split; [vm_compute; reflexivity|].
  repeat split; try reflexivity. discriminate.
Qed.

(* ================================================================== *)
(** ** When the validator throws *)

Lemma inheritedNames_fresh (pieceRefs : list (string * Totals.t))
  (ref : string) :
  Forall (fun kv => Obj.inherited (fst kv) = false) pieceRefs ->
  Obj.inherited ref = true ->
  Obj.lookup ref pieceRefs = None.
Proof.
  intros Hkeys Href. destruct (Obj.lookup ref pieceRefs) eqn:E; [|reflexivity].
  apply lookup_In in E.
  pose proof (proj1 (Forall_forall _ _) Hkeys _ E) as H. simpl in H.
  congruence.
Qed.

Lemma update_keys_plain (k : string) (f : Totals.t -> Totals.t)
  (o : list (string * Totals.t)) :
  Forall (fun kv => Obj.inherited (fst kv) = false) o ->
  Forall (fun kv => Obj.inherited (fst kv) = false) (Obj.update k f o).
Proof.
  induction 1 as [|[k0 v0] r H0 Hr IH]; simpl; [constructor|].
  destruct (String.eqb k k0); constructor; assumption.
Qed.

Lemma collectPieces_cases (entries : list Entry) :
  forall pieceRefs,
    Forall (fun kv => Obj.inherited (fst kv) = false) pieceRefs ->
    (plainRefs entries
     /\ exists pieceRefs', collectPieces pieceRefs entries = Returned pieceRefs')
    \/ (~ plainRefs entries
        /\ collectPieces pieceRefs entries = Thrown (TypeError CannotPush)).
Proof.
  induction entries as [|e r IH]; intros acc Hacc.
  - left. split; [constructor|]. simpl. eauto.
  - cbn [collectPieces]. unfold addToPiece.
    destruct (Obj.inherited (PieceRef e)) eqn:Einh.
    + right. rewrite (inheritedNames_fresh acc _ Hacc Einh).
      split; [|reflexivity].
      intros H. inversion H; subst. congruence.
    + assert (Hstep : exists acc',
                 match Obj.lookup (PieceRef e) acc with
                 | Some _ => Returned (Obj.update (PieceRef e) (accumulate e) acc)
                 | None => Returned
                     (acc ++ [(PieceRef e,
                               accumulate e (Totals.mk Num.zero Num.zero []))])
                 end = Returned acc'
                 /\ Forall (fun kv => Obj.inherited (fst kv) = false) acc').
      { destruct (Obj.lookup (PieceRef e) acc); eexists; split;
          try reflexivity.
        - now apply update_keys_plain.
        - apply Forall_app. split; [exact Hacc|].
          constructor; [exact Einh|constructor]. }
      destruct Hstep as [acc' [Hstep Hacc']]. rewrite Hstep.
      destruct (IH acc' Hacc') as [[Hp Hr] | [Hp Hr]].
      * left. split; [constructor; assumption|exact Hr].
      * right. split; [|exact Hr].
        intros H. inversion H; subst. contradiction.
Qed.

(** X1. [validateFECCompliance] returns a report exactly when no
    [PieceRef] of the ledger names a member of [Object.prototype], and
    throws a [TypeError] exactly when one does; there is no other
    outcome. *)
Theorem validate_returns_iff_plain :
  forall (localeCompare : string -> string -> Z) (entries : list Entry),
    ((exists report,
        validateFECCompliance localeCompare entries = Returned report)
     <-> plainRefs entries)
    /\ (validateFECCompliance localeCompare entries =
          Thrown (TypeError CannotPush)
        <-> ~ plainRefs entries).
Proof.
  intros localeCompare entries.
  destruct entries as [|e r].
  - split; split; intros H.
    + constructor.
    + eexists. reflexivity.
    + discriminate H.
    + exfalso. apply H. constructor.
  - destruct (collectPieces_cases (e :: r) [] (Forall_nil _))
      as [[Hp [p Hc]] | [Hp Hc]].
    + rewrite (validate_unfold localeCompare (e :: r) p);
        [|discriminate|exact Hc].
      split; split; intros H.
      * exact Hp.
      * eexists. reflexivity.
      * discriminate H.
      * contradiction.
    + assert (Hv : validateFECCompliance localeCompare (e :: r)
                   = Thrown (TypeError CannotPush)).
      { unfold validateFECCompliance. cbn [List.length Nat.eqb].
        rewrite Hc. reflexivity. }
      rewrite Hv. split; split; intros H.
      * destruct H as [report H]. discriminate H.
      * contradiction.
      * exact Hp.
      * reflexivity.
Qed.

(* ================================================================== *)
(** ** When an entry and a ledger are valid *)

Lemma nil_iff_no_member {A : Type} (l : list A) :
  l = [] <-> forall x, ~ In x l.
Proof.
  split; [intros -> x []|].
  destruct l as [|a r]; [reflexivity|].
  intros H. exfalso. apply (H a). now left.
Qed.

Lemma when_nil {A : Type} (c : bool) (x : A) : when c [x] = [] <-> c = false.
Proof. destruct c; simpl; split; congruence. Qed.

Lemma app_nil_iff {A : Type} (l1 l2 : list A) :
  l1 ++ l2 = [] <-> l1 = [] /\ l2 = [].
Proof.
  split; [apply app_eq_nil|]. intros [-> ->]. reflexivity.
Qed.

Lemma valid_iff_no_error (e : Entry) :
  EntryResult.valid (validateEntry e) = true <->
  EntryResult.errors (validateEntry e) = [].
Proof.
  unfold validateEntry. cbn [EntryResult.valid EntryResult.errors].
  match goal with |- context [List.length ?l] => destruct l end;
    simpl; split; congruence.
Qed.

Lemma trim_of_empty (s : string) :
  (Str.isEmpty s || Str.isEmpty (Str.trim s))%bool = Str.isEmpty (Str.trim s).
Proof. destruct s; reflexivity. Qed.

Lemma missing_nil (e : Entry) :
  flat_map (fun field =>
      when (Str.isEmpty (get e field) || Str.isEmpty (Str.trim (get e field)))
           [MissingField field]) requiredFields = []
  <-> List.forallb (fun f => negb (Str.isEmpty (Str.trim (get e f))))
        requiredFields = true.
Proof.
  induction requiredFields as [|f r IH]; [simpl; tauto|].
  cbn [flat_map List.forallb]. rewrite app_nil_iff, IH, andb_true_iff.
  rewrite when_nil, trim_of_empty, negb_true_iff. tauto.
Qed.

Lemma firstChar_not_inherited (s : string) :
  Obj.inherited (firstChar s) = false.
Proof.
  destruct s as [|c r]; [reflexivity|]. cbn [firstChar].
  destruct c as [[] [] [] [] [] [] [] []]; reflexivity.
Qed.

Lemma dated_not_blank (s : string) :
  VALIDATION.DATE_FORMAT s = true -> Str.isEmpty s = false.
Proof.
  unfold VALIDATION.DATE_FORMAT. destruct s; [discriminate|reflexivity].
Qed.

Lemma not_blank_not_empty (s : string) :
  Str.isEmpty (Str.trim s) = false -> Str.isEmpty s = false.
Proof. destruct s; [discriminate|reflexivity]. Qed.

(** X2. An entry passes [validateEntry] exactly when it is well formed:
    the seven required fields are not blank, [EcritureDate] is eight
    digits, [CompteNum] has 3 to 20 characters and begins with a class from
    1 to 8, both amounts are readable and not above the maximum, and they
    are neither both zero nor both positive. Nothing else is looked at. *)
Theorem validateEntry_valid_iff_wellFormed :
  forall e : Entry,
    EntryResult.valid (validateEntry e) = wellFormedEntry e.
Proof.
  intros e. apply eq_true_iff_eq. rewrite valid_iff_no_error.
  unfold validateEntry, wellFormedEntry. cbn [EntryResult.errors].
  fold (debitOf e). fold (creditOf e).
  rewrite !app_nil_iff, missing_nil, !when_nil, !andb_true_iff,
    !negb_true_iff.
  unfold Obj.truthyAt. rewrite firstChar_not_inherited, orb_false_r.
  assert (Hreq : List.forallb
                   (fun f => negb (Str.isEmpty (Str.trim (get e f))))
                   requiredFields = true ->
                 Str.isEmpty (EcritureDate e) = false
                 /\ Str.isEmpty (CompteNum e) = false).
  { cbn [List.forallb requiredFields get]. rewrite !andb_true_iff,
      !negb_true_iff.
    intros [_ [_ [Hd [Hc _]]]].
    split; now apply not_blank_not_empty. }
  unfold VALIDATION.ACCOUNT_MIN_LENGTH, VALIDATION.ACCOUNT_MAX_LENGTH.
  split.
  - intros [Hm [Hdate [Hacc [Hnd [Hnc [Hmd [Hmc [Hz Hp]]]]]]]].
    destruct (Hreq Hm) as [Hde Hce].
    rewrite Hde in Hdate. rewrite Hce in Hacc.
    cbn [negb andb when] in Hdate, Hacc.
    apply negb_false_iff in Hdate.
    apply app_nil_iff in Hacc. destruct Hacc as [Hlen Hclass].
    apply when_nil in Hlen. apply when_nil in Hclass.
    apply orb_false_iff in Hlen. destruct Hlen as [Hlo Hhi].
    apply Nat.ltb_ge in Hlo. apply Nat.ltb_ge in Hhi.
    apply negb_false_iff in Hclass.
    repeat split; try assumption; now apply Nat.leb_le.
  - intros [[[[[[[[[[Hm Hdate] Hlo] Hhi] Hclass] Hnd] Hnc] Hmd] Hmc] Hz] Hp].
    destruct (Hreq Hm) as [Hde Hce].
    rewrite Hde, Hce, Hdate. cbn [negb andb when].
    apply Nat.leb_le in Hlo. apply Nat.leb_le in Hhi.
    repeat split; try assumption; try reflexivity.
    apply app_nil_iff. split; apply when_nil.
    + apply orb_false_iff. split; apply Nat.ltb_ge; assumption.
    + now rewrite Hclass.
Qed.

(** X3. [validateEntry] reads only the seven required fields and the two
    amounts: two entries that agree on these nine fields get the same
    result, whatever their journal label, auxiliary account, document date,
    lettering, validation date and foreign amount. *)
Theorem validateEntry_reads_nine_fields :
  forall e e' : Entry,
    (forall f, In f requiredFields -> get e f = get e' f) ->
    Debit e = Debit e' ->
    Credit e = Credit e' ->
    validateEntry e = validateEntry e'.
Proof.
  intros e e' Hreq Hd Hc.
  assert (H1 := Hreq Field.JournalCode). assert (H2 := Hreq Field.EcritureNum).
  assert (H3 := Hreq Field.EcritureDate). assert (H4 := Hreq Field.CompteNum).
  assert (H5 := Hreq Field.CompteLib). assert (H6 := Hreq Field.PieceRef).
  assert (H7 := Hreq Field.EcritureLib).
  cbn [get requiredFields In] in H1, H2, H3, H4, H5, H6, H7.
  unfold validateEntry. cbn [flat_map requiredFields get].
  rewrite H1, H2, H3, H4, H5, H6, H7, Hd, Hc by tauto.
  reflexivity.
Qed.

Lemma validateEntry_reads_nine_fields_witness :
  JournalLib saleCredit <> JournalLib unlabelledCredit
  /\ validateEntry saleCredit = validateEntry unlabelledCredit.
Proof.
  split; [discriminate|].
  apply (validateEntry_reads_nine_fields saleCredit unlabelledCredit).
  - intros f Hf. cbn [requiredFields In] in Hf.
    repeat (destruct Hf as [<- | Hf]; [reflexivity|]). contradiction.
  - reflexivity.
  - reflexivity.
Defined.

Lemma indexed_In_inv {A : Type} (l : list A) (i : nat) (x : A) :
  In (i, x) (Arr.indexed l) -> In x l.
Proof. unfold Arr.indexed. apply in_combine_r. Qed.

Lemma entryErrors_nil (entries : list Entry) :
  entryErrors entries = [] <->
  forall e, In e entries -> EntryResult.valid (validateEntry e) = true.
Proof.
  split.
  - intros Hnil e He.
    destruct (EntryResult.valid (validateEntry e)) eqn:Ev; [reflexivity|].
    exfalso.
    destruct (In_nth_error _ _ He) as [i Hi].
    assert (Hm : exists m, In m (EntryResult.errors (validateEntry e))).
    { destruct (EntryResult.errors (validateEntry e)) as [|m r] eqn:Ee.
      - apply valid_iff_no_error in Ee. congruence.
      - exists m. now left. }
    destruct Hm as [m Hm].
    pose proof (entryErrors_In entries i e m Hi Hm) as Hin.
    rewrite Hnil in Hin. contradiction.
  - intros Hall. apply nil_iff_no_member. intros x Hx.
    unfold entryErrors in Hx. apply in_flat_map in Hx.
    destruct Hx as [[i e] [Hie Hx]].
    apply when_In in Hx. destruct Hx as [Hv _].
    rewrite (Hall e (indexed_In_inv _ _ _ Hie)) in Hv. discriminate.
Qed.

Lemma collectPieces_keys (entries : list Entry)
  (p : list (string * Totals.t)) (ref : string) (t : Totals.t) :
  collectPieces [] entries = Returned p ->
  In (ref, t) p ->
  In ref (map PieceRef entries).
Proof.
  intros Hp Hin.
  destruct (collectPieces_spec entries [] p (NoDup_nil _) Hp) as [Hnd Hl].
  pose proof (In_lookup _ _ _ Hnd Hin) as Hlook.
  rewrite (Hl ref) in Hlook. cbn [Obj.lookup] in Hlook.
  destruct (pieceOf ref entries) as [|e r] eqn:E; [discriminate|].
  assert (He : In e (pieceOf ref entries)) by (rewrite E; now left).
  apply filter_In in He. destruct He as [He Href].
  apply String.eqb_eq in Href. subst ref. now apply in_map.
Qed.

Lemma balanceErrors_nil (entries : list Entry)
  (p : list (string * Totals.t)) :
  collectPieces [] entries = Returned p ->
  (balanceErrors p = [] <->
   forall ref, In ref (map PieceRef entries) ->
               beyondTolerance ref entries = false).
Proof.
  intros Hp. split.
  - intros Hnil ref Href.
    destruct (beyondTolerance ref entries) eqn:Eb; [|reflexivity].
    exfalso.
    destruct (collectPieces_totals entries p ref Hp Href)
      as [_ [t [Hlook [Hd Hc]]]].
    assert (Hin : In (balanceError ref entries) (balanceErrors p)).
    { apply balanceErrors_In. exists ref, t.
      split; [apply entries_In; now apply lookup_In|].
      unfold beyondTolerance, balanceError in *. rewrite Hd, Hc. auto. }
    rewrite Hnil in Hin. contradiction.
  - intros Hall. apply nil_iff_no_member. intros i Hi.
    apply balanceErrors_In in Hi. destruct Hi as [ref [t [Hmem [Hgt _]]]].
    apply (proj1 (entries_In _ _)) in Hmem.
    pose proof (collectPieces_keys entries p ref t Hp Hmem) as Href.
    destruct (collectPieces_totals entries p ref Hp Href)
      as [Hnd [t' [Hlook [Hd Hc]]]].
    rewrite (In_lookup _ _ _ Hnd Hmem) in Hlook. injection Hlook as <-.
    specialize (Hall ref Href). unfold beyondTolerance in Hall.
    rewrite <- Hd, <- Hc in Hall. congruence.
Qed.

Lemma duplicateErrors_shape (l : list string) (i : Issue.t) :
  In i (duplicateErrors l) ->
  exists b, i = Issue.mk DUPLICATE_NUM (DuplicateNumber b) None.
Proof.
  induction l as [|a [|b r] IH]; simpl; try tauto.
  intros H. apply in_app_or in H. destruct H as [H | H].
  - apply when_In in H. destruct H as [_ [<- | []]]. eauto.
  - apply IH. exact H.
Qed.

Lemma duplicateErrors_nil (entries : list Entry) :
  duplicateErrors (sortedNums entries) = [] <->
  NoDup (map EcritureNum entries).
Proof.
  rewrite (NoDup_count_occ string_dec). split.
  - intros Hnil v.
    pose proof (duplicateErrors_count v _ (sortedNums_StronglySorted entries))
      as Hc.
    rewrite Hnil in Hc. unfold duplicateReports in Hc. simpl in Hc.
    unfold sortedNums in Hc. rewrite sort_count in Hc. lia.
  - intros Hnd. apply nil_iff_no_member. intros i Hi.
    destruct (duplicateErrors_shape _ _ Hi) as [b ->].
    pose proof (duplicateErrors_count b _ (sortedNums_StronglySorted entries))
      as Hc.
    unfold sortedNums in Hc. rewrite sort_count in Hc.
    specialize (Hnd b).
    assert (Hpos : (1 <= duplicateReports b
                          (duplicateErrors (Arr.sort String.leb
                             (map EcritureNum entries))))%nat).
    { unfold duplicateReports.
      apply (in_split) in Hi. destruct Hi as [l1 [l2 Hi]].
      unfold sortedNums in Hi. rewrite Hi, filter_app, length_app.
      cbn [filter isDuplicateOf Issue.type Issue.message IssueType_eqb andb].
      rewrite String.eqb_refl. simpl. lia. }
    lia.
Qed.

(** X4. For a non-empty ledger whose piece references are plain, the report
    is valid exactly when every entry passes [validateEntry], no piece is
    out of balance beyond the tolerance, and no two entries share their
    number. *)
Theorem report_valid_iff :
  forall (localeCompare : string -> string -> Z) (entries : list Entry),
    entries <> [] ->
    plainRefs entries ->
    exists report,
      validateFECCompliance localeCompare entries = Returned report
      /\ (Report.valid report = true <->
          (forall e, In e entries ->
                     EntryResult.valid (validateEntry e) = true)
          /\ (forall ref, In ref (map PieceRef entries) ->
                          beyondTolerance ref entries = false)
          /\ NoDup (map EcritureNum entries)).
Proof.
  intros localeCompare entries Hne Hplain.
  destruct (collectPieces_returns entries Hplain []) as [p Hp].
  rewrite (validate_unfold localeCompare entries p Hne Hp).
  eexists. split; [reflexivity|]. cbn [Report.valid].
  rewrite Nat.eqb_eq, length_zero_iff_nil, !app_nil_iff.
  rewrite entryErrors_nil, (balanceErrors_nil entries p Hp),
    duplicateErrors_nil.
  tauto.
Qed.

Lemma report_valid_iff_witness :
  exists report,
    validateFECCompliance codeUnitCompare [saleCredit; saleDebit] =
    Returned report
    /\ (Report.valid report = true <->
        (forall e, In e [saleCredit; saleDebit] ->
                   EntryResult.valid (validateEntry e) = true)
        /\ (forall ref, In ref (map PieceRef [saleCredit; saleDebit]) ->
                        beyondTolerance ref [saleCredit; saleDebit] = false)
        /\ NoDup (map EcritureNum [saleCredit; saleDebit])).
Proof.
  apply (report_valid_iff codeUnitCompare [saleCredit; saleDebit]).
  - discriminate.
  - apply plainRefs_two; reflexivity.
Defined.

(* ================================================================== *)
(** ** Kinds of issues, VAT and journal warnings *)

Lemma chronologyFrom_type (dates items : list DateNum.t) (prevDate : string)
  (index : nat) (w : Issue.t) :
  In w (chronologyFrom dates prevDate index items) ->
  Issue.type w = CHRONOLOGY_WARNING.
Proof.
  revert prevDate index. induction items as [|item rest IH];
    intros prevDate index H; [contradiction|].
  cbn [chronologyFrom] in H. apply in_app_or in H. destruct H as [H | H].
  - apply when_In in H. destruct H as [_ [<- | []]]. reflexivity.
  - exact (IH _ _ H).
Qed.

(** X5. In every report, [errors] holds only issues of the kinds
    [EMPTY_FEC], [ENTRY_INVALID], [BALANCE_ERROR] and [DUPLICATE_NUM], and
    [warnings] only [CHRONOLOGY_WARNING], [VAT_WARNING] and
    [UNKNOWN_JOURNAL]: a VAT, journal or chronology issue is never an
    error, so it never makes the ledger invalid. *)
Theorem report_kinds :
  forall (localeCompare : string -> string -> Z) (entries : list Entry)
         (report : Report.t),
    validateFECCompliance localeCompare entries = Returned report ->
    (forall i, In i (Report.errors report) ->
               isErrorKind (Issue.type i) = true)
    /\ (forall w, In w (Report.warnings report) ->
                  isWarningKind (Issue.type w) = true).
Proof.
  intros localeCompare entries report Hr.
  destruct (Nat.eq_dec (List.length entries) 0) as [Hlen | Hlen].
  - destruct entries; [|discriminate Hlen].
    injection Hr as <-. split.
    + intros i [<- | []]. reflexivity.
    + intros w [].
  - assert (Hne : entries <> []) by (intros ->; apply Hlen; reflexivity).
    destruct (collectPieces_cases entries [] (Forall_nil _))
      as [[Hp [p Hc]] | [Hp Hc]].
    + rewrite (validate_unfold localeCompare entries p Hne Hc) in Hr.
      injection Hr as <-. cbn [Report.errors Report.warnings]. split.
      * intros i Hi. apply in_app_or in Hi. destruct Hi as [Hi | Hi].
        { now rewrite (entryErrors_type _ _ Hi). }
        apply in_app_or in Hi. destruct Hi as [Hi | Hi].
        { apply balanceErrors_In in Hi.
          destruct Hi as [ref [t [_ [_ ->]]]]. reflexivity. }
        now rewrite (duplicateErrors_type _ _ Hi).
      * intros w Hw. apply in_app_or in Hw. destruct Hw as [Hw | Hw].
        { unfold chronologyWarnings in Hw.
          now rewrite (chronologyFrom_type _ _ _ _ _ Hw). }
        apply in_app_or in Hw. destruct Hw as [Hw | Hw].
        { now rewrite (vatWarnings_type _ _ Hw). }
        now rewrite (journalWarnings_type _ _ Hw).
    + destruct entries as [|e r]; [congruence|].
      unfold validateFECCompliance in Hr. cbn [List.length Nat.eqb] in Hr.
      rewrite Hc in Hr. discriminate.
Qed.

Lemma report_kinds_witness :
  validateFECCompliance codeUnitCompare [vatCredit]
  = Returned
      (Report.mk false
         [Issue.mk BALANCE_ERROR (Unbalanced "F002" "0.00" "200.00")
            (Some "F002")]
         [Issue.mk VAT_WARNING (ZeroVat "445710") (Some "3")])
  /\ isWarningKind
       (Issue.type (Issue.mk VAT_WARNING (ZeroVat "445710") (Some "3")))
     = true.
Proof.
  split; [reflexivity|].
  exact (proj2 (report_kinds codeUnitCompare [vatCredit]
                  (Report.mk false
                     [Issue.mk BALANCE_ERROR (Unbalanced "F002" "0.00" "200.00")
                        (Some "F002")]
                     [Issue.mk VAT_WARNING (ZeroVat "445710") (Some "3")])
                  eq_refl)
               (Issue.mk VAT_WARNING (ZeroVat "445710") (Some "3"))
               (or_introl eq_refl)).
Defined.

(** X6. In a ledger whose piece references are plain, an entry on a VAT
    account (number beginning with 445) whose debit and credit are both
    zero gets a [VAT_WARNING] that carries its account and its number. *)
Theorem vat_warning_when_both_zero :
  forall (localeCompare : string -> string -> Z) (entries : list Entry)
         (e : Entry),
    plainRefs entries ->
    In e entries ->
    prefix "445" (CompteNum e) = true ->
    Num.eq (debitOf e) Num.zero = true ->
    Num.eq (creditOf e) Num.zero = true ->
    exists report,
      validateFECCompliance localeCompare entries = Returned report
      /\ In (Issue.mk VAT_WARNING (ZeroVat (CompteNum e))
               (Some (EcritureNum e)))
            (Report.warnings report).
Proof.
  intros localeCompare entries e Hplain He Hvat Hd Hc.
  destruct (collectPieces_returns entries Hplain []) as [p Hp].
  assert (Hne : entries <> []) by (intros ->; contradiction).
  rewrite (validate_unfold localeCompare entries p Hne Hp).
  eexists. split; [reflexivity|]. cbn [Report.warnings].
  apply in_or_app. right. apply in_or_app. left.
  unfold vatWarnings. apply in_flat_map. exists e. split; [exact He|].
  apply when_In. split.
  - rewrite Hvat. destruct (CompteNum e); [discriminate Hvat|reflexivity].
  - apply when_In. split; [|now left].
    unfold Str.or, debitOf, creditOf in *.
    destruct (Debit e) as [|c r] eqn:Ed.
    + cbn [Str.isEmpty]. exact Hc.
    + cbn [Str.isEmpty]. exact Hd.
Qed.

Lemma vat_warning_when_both_zero_witness :
  exists report,
    validateFECCompliance codeUnitCompare [vatEmpty] = Returned report
    /\ In (Issue.mk VAT_WARNING (ZeroVat "445710") (Some "4"))
          (Report.warnings report).
Proof.
  apply (vat_warning_when_both_zero codeUnitCompare [vatEmpty] vatEmpty).
  - apply plainRefs_one. reflexivity.
  - left. reflexivity.
  - reflexivity.
  - reflexivity.
  - reflexivity.
Defined.

Lemma mem_In (k : string) (l : list string) :
  Obj.mem k l = true <-> In k l.
Proof.
  unfold Obj.mem. rewrite existsb_exists. split.
  - intros [x [Hx E]]. apply String.eqb_eq in E. now subst x.
  - intros H. exists k. split; [exact H|apply String.eqb_refl].
Qed.

(** X7. In the report of a ledger, an [UNKNOWN_JOURNAL] warning for the
    code [code] and the number [num] is issued exactly when some entry has
    that number and that journal code, and the code is not empty, is none
    of AC, VE, BQ, CA, OD, AN, and does not name a member of
    [Object.prototype] (such a name is found in the table of codes by
    inheritance). *)
Theorem unknown_journal_iff :
  forall (localeCompare : string -> string -> Z) (entries : list Entry)
         (report : Report.t) (code num : string),
    entries <> [] ->
    validateFECCompliance localeCompare entries = Returned report ->
    (In (Issue.mk UNKNOWN_JOURNAL (NonStandardJournal code) (Some num))
        (Report.warnings report)
     <-> (exists e, In e entries
                    /\ JournalCode e = code /\ EcritureNum e = num)
         /\ code <> ""
         /\ ~ In code JOURNAL_CODES
         /\ ~ In code Obj.inheritedNames).
Proof.
  intros localeCompare entries report code num Hne Hr.
  destruct (collectPieces_cases entries [] (Forall_nil _))
    as [[Hp [p Hc]] | [Hp Hc]].
  2:{ destruct entries as [|e r]; [congruence|].
      unfold validateFECCompliance in Hr. cbn [List.length Nat.eqb] in Hr.
      rewrite Hc in Hr. discriminate. }
  rewrite (validate_unfold localeCompare entries p Hne Hc) in Hr.
  injection Hr as <-. cbn [Report.warnings].
  assert (Hunknown : forall c,
             (negb (Str.isEmpty c) && negb (Obj.truthyAt JOURNAL_CODES c)
              = true)%bool
             <-> c <> "" /\ ~ In c JOURNAL_CODES
                 /\ ~ In c Obj.inheritedNames).
  { intros c. unfold Obj.truthyAt, Obj.inherited.
    rewrite andb_true_iff, !negb_true_iff, orb_false_iff, isEmpty_false.
    rewrite <- !mem_In.
    destruct (Obj.mem c JOURNAL_CODES), (Obj.mem c Obj.inheritedNames);
      intuition congruence. }
  split.
  - intros Hin. apply in_app_or in Hin. destruct Hin as [Hin | Hin].
    { unfold chronologyWarnings in Hin.
      apply chronologyFrom_type in Hin. discriminate. }
    apply in_app_or in Hin. destruct Hin as [Hin | Hin].
    { apply vatWarnings_type in Hin. discriminate. }
    unfold journalWarnings in Hin. apply in_flat_map in Hin.
    destruct Hin as [e [He Hin]]. apply when_In in Hin.
    destruct Hin as [Hcond [Heq | []]]. injection Heq as <- <-.
    apply Hunknown in Hcond. split; [eauto|exact Hcond].
  - intros [[e [He [<- <-]]] Hcond].
    apply in_or_app. right. apply in_or_app. right.
    unfold journalWarnings. apply in_flat_map. exists e.
    split; [exact He|]. apply when_In. split; [|now left].
    now apply Hunknown.
Qed.

Lemma unknown_journal_iff_witness :
  In (Issue.mk UNKNOWN_JOURNAL (NonStandardJournal "ZZ") (Some "1"))
     [Issue.mk UNKNOWN_JOURNAL (NonStandardJournal "ZZ") (Some "1")]
  <-> (exists e, In e [oddJournalCredit; saleDebit]
                 /\ JournalCode e = "ZZ" /\ EcritureNum e = "1")
      /\ "ZZ" <> ""
      /\ ~ In "ZZ" JOURNAL_CODES
      /\ ~ In "ZZ" Obj.inheritedNames.
Proof.
  apply (unknown_journal_iff codeUnitCompare [oddJournalCredit; saleDebit]
           (Report.mk true []
              [Issue.mk UNKNOWN_JOURNAL (NonStandardJournal "ZZ") (Some "1")])
           "ZZ" "1").
  - discriminate.
  - vm_compute. reflexivity.
Defined.

(* ================================================================== *)
(** ** The generated file *)

(** X8. [generateFECFile] throws exactly on the empty list. Otherwise it
    returns the header and one line per entry joined by CRLF, and each of
    these lines splits on '|' into exactly 18 columns, whatever the field
    values hold (a '|' inside a value is removed). *)
Theorem generated_file_shape :
  forall entries : list EntryObject,
    (generateFECFile entries = Thrown (Error NothingToExport)
     <-> entries = [])
    /\ (entries <> [] ->
        generateFECFile entries =
          Returned (Str.join CRLF (headerLine :: map dataLine entries))
        /\ Forall (fun line => columns line = 18%nat)
                  (headerLine :: map dataLine entries)).
Proof.
  intros entries. split.
  - destruct entries; cbn [generateFECFile List.length Nat.eqb]; split;
      intros H; try reflexivity; discriminate H.
  - intros Hne. split.
    + destruct entries; [congruence|reflexivity].
    + constructor; [reflexivity|].
      apply Forall_forall. intros line Hl. apply in_map_iff in Hl.
      destruct Hl as [o [<- _]]. apply dataLine_columns.
Qed.

Lemma generated_file_shape_witness :
  generateFECFile [oddAmounts] =
    Returned (Str.join CRLF (headerLine :: map dataLine [oddAmounts]))
  /\ Forall (fun line => columns line = 18%nat)
            (headerLine :: map dataLine [oddAmounts]).
Proof.
  apply (proj2 (generated_file_shape [oddAmounts])). discriminate.
Defined.

Lemma count_replaceFirst_same (c d : ascii) (s : string) :
  Ascii.eqb d c = false ->
  Str.count c (Str.replaceFirst c d s) = pred (Str.count c s).
Proof.
  intros Hdc. induction s as [|x r IH]; [reflexivity|].
  cbn [Str.replaceFirst Str.count].
  destruct (Ascii.eqb x c) eqn:E; cbn [Str.count].
  - rewrite Hdc. reflexivity.
  - rewrite E. exact IH.
Qed.

Lemma count_replaceFirst_new (c d : ascii) (s : string) :
  (Str.count d (Str.replaceFirst c d s) <= S (Str.count d s))%nat.
Proof.
  induction s as [|x r IH]; [simpl; lia|].
  cbn [Str.replaceFirst Str.count].
  destruct (Ascii.eqb x c) eqn:E; cbn [Str.count].
  - rewrite Ascii.eqb_refl. destruct (Ascii.eqb x d); lia.
  - destruct (Ascii.eqb x d); lia.
Qed.

Lemma digits_no_point (s : string) :
  Str.forallb Str.isDigit s = true -> Str.count "." s = 0%nat.
Proof. apply forallb_count. reflexivity. Qed.

Lemma toFixed2_one_point (x : Num.number) :
  (Str.count "." (Num.toFixed2 x) <= 1)%nat.
Proof.
  destruct x as [s | s | | s m e]; cbn [Num.toFixed2];
    try (destruct s; simpl; lia); try (simpl; lia).
  rewrite count_app.
  assert (Hsign : Str.count "." (if s then "-" else "") = 0%nat)
    by (destruct s; reflexivity).
  rewrite Hsign. cbn [Nat.add].
  destruct (Num.atLeast1e21 m e).
  - unfold Num.toStringLarge.
    destruct (Num.shortestFrom _ _ _ _ _) as [s0 p0].
    destruct (Num.stripZeros _ s0 p0) as [s1 p1].
    unfold Num.exponential.
    pose proof (ofZ_digits s1) as Hd.
    destruct (Str.ofZ s1) as [|d [|d' rest]]; [simpl; lia| |].
    + cbn [Str.forallb] in Hd. apply andb_true_iff in Hd.
      destruct Hd as [Hd _].
      change (Str.count "." (String d ?t))
        with (if Ascii.eqb d "." then S (Str.count "." t) else Str.count "." t).
      assert (Ed : Ascii.eqb d "." = false).
      { destruct (Ascii.eqb d ".") eqn:E; [|reflexivity].
        apply Ascii.eqb_eq in E. subst d. discriminate Hd. }
      rewrite Ed.
      change ("e+" ++ ?t)%string with (String "e" (String "+" t)).
      cbn [Str.count Ascii.eqb Bool.eqb]. rewrite digits_no_point; [lia|].
      apply ofZ_digits.
    + cbn [Str.forallb] in Hd. apply andb_true_iff in Hd.
      destruct Hd as [Hd Hrest].
      assert (Ed : Ascii.eqb d "." = false).
      { destruct (Ascii.eqb d ".") eqn:E; [|reflexivity].
        apply Ascii.eqb_eq in E. subst d. discriminate Hd. }
      set (tail := String d' rest) in *.
      change (Str.count "." (String d ?t))
        with (if Ascii.eqb d "." then S (Str.count "." t) else Str.count "." t).
      rewrite Ed.
      change ("." ++ ?t)%string with (String "." t).
      change (Str.count "." (String "." ?t)) with (S (Str.count "." t)).
      rewrite count_app.
      change ("e+" ++ ?t)%string with (String "e" (String "+" t)).
      cbn [Str.count Ascii.eqb Bool.eqb].
      rewrite (digits_no_point tail); [|exact Hrest].
      rewrite digits_no_point; [lia|apply ofZ_digits].
  - unfold Num.fixed2. rewrite count_app.
    rewrite (digits_no_point _ (ofZ_digits _)).
    change ("." ++ ?t)%string with (String "." t).
    change (Str.count "." (String "." ?t)) with (S (Str.count "." t)).
    unfold Num.twoDigits. destruct (_ <? 10).
    + change ("0" ++ ?t)%string with (String "0" t).
      cbn [Str.count Ascii.eqb Bool.eqb].
      rewrite (digits_no_point _ (ofZ_digits _)). lia.
    + rewrite (digits_no_point _ (ofZ_digits _)). lia.
Qed.

(** X9. Whatever an entry object holds, the text written for [Debit],
    [Credit] or [Montantdevise] contains no point, no '|' and no white
    space, and at most one comma: the decimal separator of the file is the
    comma. *)
Theorem amount_column_uses_comma :
  forall (entry : EntryObject) (field : Field.t),
    isAmountField field = true ->
    Str.count "." (columnText entry field) = 0%nat
    /\ Str.count "|" (columnText entry field) = 0%nat
    /\ Str.forallb (fun c => negb (Str.isWhiteSpace c))
                   (columnText entry field) = true
    /\ (Str.count "," (columnText entry field) <= 1)%nat.
Proof.
  intros entry field Hf.
  rewrite (columnText_amount entry field Hf).
  set (x := Num.parseFloatOr0 _).
  destruct (amount_read_back x) as [_ Hsafe]. cbv zeta in Hsafe.
  pose proof (toFixed2_chars x) as Hchars.
  assert (Hw : Str.removeAll "|" (Str.replaceFirst "." "," (Num.toFixed2 x))
               = Str.replaceFirst "." "," (Num.toFixed2 x)).
  { apply removeAll_free. apply (forallb_count safeChar); [reflexivity|].
    apply replaceFirst_forallb; [reflexivity|].
    apply (forallb_impl amountChar); [|exact Hchars].
    intros c H. apply (amountChar_plain c H). }
  rewrite Hw in *. repeat split.
  - rewrite count_replaceFirst_same; [|reflexivity].
    pose proof (toFixed2_one_point x). lia.
  - apply (forallb_count safeChar); [reflexivity|exact Hsafe].
  - apply (forallb_impl safeChar); [|exact Hsafe].
    intros c H. destruct (safeChar_spec c H) as [-> _]. reflexivity.
  - pose proof (count_replaceFirst_new "." "," (Num.toFixed2 x)) as Hle.
    assert (Hz : Str.count "," (Num.toFixed2 x) = 0%nat).
    { apply (forallb_count (fun c => negb (Ascii.eqb c ","))); [reflexivity|].
      apply (forallb_impl amountChar); [|exact Hchars].
      intros c H. destruct (amountChar_plain c H) as [_ ->]. reflexivity. }
    lia.
Qed.

Lemma amount_column_uses_comma_witness :
  Str.count "." (columnText oddAmounts Field.Credit) = 0%nat
  /\ Str.count "|" (columnText oddAmounts Field.Credit) = 0%nat
  /\ Str.forallb (fun c => negb (Str.isWhiteSpace c))
                 (columnText oddAmounts Field.Credit) = true
  /\ (Str.count "," (columnText oddAmounts Field.Credit) <= 1)%nat.
Proof.
  apply (amount_column_uses_comma oddAmounts Field.Credit). reflexivity.
Defined.

(* ================================================================== *)
(** ** What the parser returns *)

Lemma split_piece_free (sep : ascii) (s v : string) :
  In v (Str.split sep s) -> Str.count sep v = 0%nat.
Proof.
  revert v. induction s as [|c r IH]; intros v; cbn [Str.split].
  - intros [<- | []]. reflexivity.
  - destruct (Ascii.eqb c sep) eqn:E.
    + intros [<- | H]; [reflexivity|now apply IH].
    + destruct (Str.split sep r) as [|p ps].
      * intros [<- | []]. simpl. now rewrite E.
      * intros [<- | H].
        -- cbn [Str.count]. rewrite E. apply IH. now left.
        -- apply IH. now right.
Qed.

Lemma split_piece_count (sep c : ascii) (s v : string) :
  In v (Str.split sep s) -> (Str.count c v <= Str.count c s)%nat.
Proof.
  revert v. induction s as [|x r IH]; intros v; cbn [Str.split].
  - intros [<- | []]. lia.
  - cbn [Str.count]. destruct (Ascii.eqb x sep) eqn:E.
    + intros [<- | H].
      * simpl. lia.
      * specialize (IH v H). destruct (Ascii.eqb x c); lia.
    + destruct (Str.split sep r) as [|p ps].
      * intros [<- | []]. cbn [Str.count]. destruct (Ascii.eqb x c); lia.
      * intros [<- | H].
        -- cbn [Str.count]. specialize (IH p (or_introl eq_refl)).
           destruct (Ascii.eqb x c); lia.
        -- specialize (IH v (or_intror H)). destruct (Ascii.eqb x c); lia.
Qed.

Lemma splitLines_piece_free (s : string) :
  forall l, In l (Str.splitLines s) -> Str.count Str.LF l = 0%nat.
Proof.
  assert (Hstrong : forall n s, (String.length s <= n)%nat ->
            forall l, In l (Str.splitLines s) -> Str.count Str.LF l = 0%nat).
  { induction n as [|n IH]; intros s0 Hlen l.
    - destruct s0; [|simpl in Hlen; lia]. intros [<- | []]. reflexivity.
    - destruct s0 as [|c r]; [intros [<- | []]; reflexivity|].
      simpl in Hlen.
      assert (Hr : forall l', In l' (Str.splitLines r) ->
                              Str.count Str.LF l' = 0%nat)
        by (apply IH; lia).
      cbn [Str.splitLines].
      destruct (Ascii.eqb c Str.LF) eqn:Ec.
      + intros [<- | H]; [reflexivity|now apply Hr].
      + assert (Hkeep : forall l',
                  In l' match Str.splitLines r with
                        | p :: ps => String c p :: ps
                        | [] => [String c EmptyString]
                        end -> Str.count Str.LF l' = 0%nat).
        { intros l'. destruct (Str.splitLines r) as [|p ps].
          - intros [<- | []]. cbn [Str.count]. now rewrite Ec.
          - intros [<- | H].
            + cbn [Str.count]. rewrite Ec. apply Hr. now left.
            + apply Hr. now right. }
        destruct (Ascii.eqb c Str.CR); [|apply Hkeep].
        destruct r as [|c2 r2]; [apply Hkeep|].
        destruct (Ascii.eqb c2 Str.LF); [|apply Hkeep].
        intros [<- | H]; [reflexivity|].
        apply (IH r2); [simpl in Hlen; lia|exact H]. }
  intros l. apply (Hstrong (String.length s) s). lia.
Qed.

Lemma trimStart_count (c : ascii) (s : string) :
  (Str.count c (Str.trimStart s) <= Str.count c s)%nat.
Proof.
  induction s as [|x r IH]; [simpl; lia|].
  cbn [Str.trimStart]. destruct (Str.isWhiteSpace x); [|lia].
  cbn [Str.count]. destruct (Ascii.eqb x c); lia.
Qed.

Lemma trimEnd_count (c : ascii) (s : string) :
  (Str.count c (Str.trimEnd s) <= Str.count c s)%nat.
Proof.
  induction s as [|x r IH]; [simpl; lia|].
  cbn [Str.trimEnd]. destruct (Str.trimEnd r) as [|y t] eqn:E.
  - destruct (Str.isWhiteSpace x); cbn [Str.count];
      destruct (Ascii.eqb x c); simpl; lia.
  - cbn [Str.count] in *. destruct (Ascii.eqb x c); lia.
Qed.

Lemma trim_count (c : ascii) (s : string) :
  (Str.count c (Str.trim s) <= Str.count c s)%nat.
Proof.
  unfold Str.trim.
  pose proof (trimEnd_count c (Str.trimStart s)).
  pose proof (trimStart_count c s). lia.
Qed.

Lemma trimEnd_idempotent (s : string) :
  Str.trimEnd (Str.trimEnd s) = Str.trimEnd s.
Proof.
  induction s as [|x r IH]; [reflexivity|].
  cbn [Str.trimEnd]. destruct (Str.trimEnd r) as [|y t] eqn:E.
  - destruct (Str.isWhiteSpace x) eqn:Ex; [reflexivity|].
    cbn [Str.trimEnd]. rewrite Ex. reflexivity.
  - cbn [Str.trimEnd]. cbn [Str.trimEnd] in IH. rewrite IH. reflexivity.
Qed.

Lemma trimStart_of_trimEnd (s : string) :
  Str.trimStart s = s -> Str.trimStart (Str.trimEnd s) = Str.trimEnd s.
Proof.
  destruct s as [|x r]; [reflexivity|].
  cbn [Str.trimStart]. destruct (Str.isWhiteSpace x) eqn:Ex.
  - intros H. exfalso.
    assert (Hl : (String.length (Str.trimStart r) <= String.length r)%nat).
    { clear. induction r as [|y t IH]; [simpl; lia|].
      cbn [Str.trimStart]. destruct (Str.isWhiteSpace y); simpl in *; lia. }
    rewrite H in Hl. simpl in Hl. lia.
  - intros _. cbn [Str.trimEnd]. rewrite Ex.
    destruct (Str.trimEnd r); cbn [Str.trimStart]; rewrite Ex; reflexivity.
Qed.

Lemma trimStart_idempotent (s : string) :
  Str.trimStart (Str.trimStart s) = Str.trimStart s.
Proof.
  induction s as [|x r IH]; [reflexivity|].
  cbn [Str.trimStart]. destruct (Str.isWhiteSpace x) eqn:Ex; [exact IH|].
  cbn [Str.trimStart]. rewrite Ex. reflexivity.
Qed.

Lemma trim_idempotent (s : string) : Str.trim (Str.trim s) = Str.trim s.
Proof.
  unfold Str.trim.
  rewrite (trimStart_of_trimEnd _ (trimStart_idempotent s)).
  apply trimEnd_idempotent.
Qed.

Lemma trimStart_replaceFirst (c d : ascii) (s : string) :
  Str.isWhiteSpace c = false -> Str.isWhiteSpace d = false ->
  Str.trimStart (Str.replaceFirst c d s) =
  Str.replaceFirst c d (Str.trimStart s).
Proof.
  intros Hc Hd. induction s as [|x r IH]; [reflexivity|].
  cbn [Str.replaceFirst Str.trimStart].
  destruct (Ascii.eqb x c) eqn:E.
  - apply Ascii.eqb_eq in E. subst x. rewrite Hc.
    cbn [Str.trimStart Str.replaceFirst]. rewrite Hd, Ascii.eqb_refl.
    reflexivity.
  - cbn [Str.trimStart]. destruct (Str.isWhiteSpace x); [exact IH|].
    cbn [Str.replaceFirst]. rewrite E. reflexivity.
Qed.

Lemma trimEnd_replaceFirst (c d : ascii) (s : string) :
  Str.isWhiteSpace c = false -> Str.isWhiteSpace d = false ->
  Str.trimEnd (Str.replaceFirst c d s) =
  Str.replaceFirst c d (Str.trimEnd s).
Proof.
  intros Hc Hd. induction s as [|x r IH]; [reflexivity|].
  cbn [Str.replaceFirst]. destruct (Ascii.eqb x c) eqn:E.
  - apply Ascii.eqb_eq in E. subst x. cbn [Str.trimEnd]. rewrite Hc, Hd.
    destruct (Str.trimEnd r); cbn [Str.replaceFirst];
      rewrite Ascii.eqb_refl; reflexivity.
  - cbn [Str.trimEnd]. rewrite IH.
    destruct (Str.trimEnd r) as [|y t] eqn:Et.
    + cbn [Str.replaceFirst].
      destruct (Str.isWhiteSpace x); cbn [Str.replaceFirst];
        rewrite ?E; reflexivity.
    + cbn [Str.replaceFirst]. rewrite E.
      destruct (Ascii.eqb y c); reflexivity.
Qed.

Lemma trim_replaceFirst (s : string) :
  Str.trim (Str.replaceFirst "," "." s) =
  Str.replaceFirst "," "." (Str.trim s).
Proof.
  unfold Str.trim.
  rewrite trimStart_replaceFirst, trimEnd_replaceFirst; reflexivity.
Qed.

Lemma count_replaceFirst_other (c d x : ascii) (s : string) :
  Ascii.eqb c x = false -> Ascii.eqb d x = false ->
  Str.count x (Str.replaceFirst c d s) = Str.count x s.
Proof.
  intros Hc Hd. induction s as [|y r IH]; [reflexivity|].
  cbn [Str.replaceFirst]. destruct (Ascii.eqb y c) eqn:E.
  - apply Ascii.eqb_eq in E. subst y. cbn [Str.count]. now rewrite Hc, Hd.
  - cbn [Str.count]. rewrite IH. reflexivity.
Qed.

Lemma cleanText_trim (v : string) :
  Str.count "|" v = 0%nat -> Str.count Str.LF v = 0%nat ->
  cleanText (Str.trim v).
Proof.
  intros Hp Hl. unfold cleanText.
  pose proof (trim_count "|" v). pose proof (trim_count Str.LF v).
  repeat split; try lia. apply trim_idempotent.
Qed.

Lemma cleanText_amount (v : string) :
  cleanText v -> cleanText (Str.replaceFirst "," "." v).
Proof.
  intros [Hp [Hl Ht]]. unfold cleanText.
  rewrite !count_replaceFirst_other by reflexivity.
  rewrite trim_replaceFirst, Ht. auto.
Qed.

Lemma nth_clean (values : list string) (i : nat) :
  Forall (fun v => Str.count "|" v = 0%nat /\ Str.count Str.LF v = 0%nat)
         values ->
  cleanText (Str.trim (nth i values "")).
Proof.
  intros Hall.
  destruct (nth_in_or_default i values "") as [Hin | ->].
  - destruct (proj1 (Forall_forall _ _) Hall _ Hin) as [Hp Hl].
    now apply cleanText_trim.
  - repeat split; reflexivity.
Qed.

Lemma entryOfValues_fields (values : list string) (field : Field.t) :
  get (entryOfValues values) field =
  if isAmountField field
  then Str.replaceFirst "," "." (Str.trim (nth (position field) values ""))
  else Str.trim (nth (position field) values "").
Proof. destruct field; reflexivity. Qed.

Lemma entryOfValues_clean (line : string) (field : Field.t) :
  Str.count Str.LF line = 0%nat ->
  cleanText (get (entryOfValues (Str.split "|" line)) field).
Proof.
  intros Hl. rewrite entryOfValues_fields.
  assert (Hall : Forall (fun v => Str.count "|" v = 0%nat
                                  /\ Str.count Str.LF v = 0%nat)
                        (Str.split "|" line)).
  { apply Forall_forall. intros v Hv. split.
    - exact (split_piece_free _ _ _ Hv).
    - pose proof (split_piece_count "|" Str.LF _ _ Hv). lia. }
  destruct (isAmountField field).
  - apply cleanText_amount. now apply nth_clean.
  - now apply nth_clean.
Qed.

Lemma parsed_entry_clean (content : string) (entries : list Entry)
  (e : Entry) (field : Field.t) :
  parseFECFile content = Returned entries ->
  In e entries ->
  cleanText (get e field).
Proof.
  intros Hp He.
  destruct (parseFECFile_cases content)
    as [[_ H] | [[_ [_ H]] | [[_ [_ [_ H]]] | [_ [_ [_ H]]]]]];
    rewrite H in Hp; try discriminate.
  injection Hp as <-. unfold parseLines in He. apply in_flat_map in He.
  destruct He as [line [Hline He]].
  destruct (negb _); [contradiction|]. destruct He as [<- | []].
  apply entryOfValues_clean. apply (splitLines_piece_free content).
  assert (Hnb : In line (nonBlankLines content)).
  { destruct (nonBlankLines content); [contradiction|now right]. }
  unfold nonBlankLines in Hnb. apply filter_In in Hnb. tauto.
Qed.

(** X12. Every field of every entry [parseFECFile] returns has no white
    space at either end and contains neither '|' nor a line feed. *)
Theorem parsed_fields_are_clean :
  forall (content : string) (entries : list Entry) (e : Entry)
         (field : Field.t),
    parseFECFile content = Returned entries ->
    In e entries ->
    Str.trim (get e field) = get e field
    /\ Str.count "|" (get e field) = 0%nat
    /\ Str.count Str.LF (get e field) = 0%nat.
Proof.
  intros content entries e field Hp He.
  destruct (parsed_entry_clean content entries e field Hp He)
    as [H1 [H2 H3]].
  auto.
Qed.

Lemma parsed_fields_are_clean_witness :
  exists e,
    parseFECFile looseFile = Returned [e]
    /\ Str.trim (get e Field.Idevise) = get e Field.Idevise
    /\ Str.count "|" (get e Field.Idevise) = 0%nat
    /\ Str.count Str.LF (get e Field.Idevise) = 0%nat.
Proof.
  eexists. split; [vm_compute; reflexivity|].
  eapply (parsed_fields_are_clean looseFile).
  - vm_compute. reflexivity.
  - left. reflexivity.
Defined.

(** X13. Exporting what was imported: when [parseFECFile] returns a
    non-empty ledger, the file generated from that ledger parses again, to
    the same ledger with its three amounts written with two decimals. *)
Theorem reexport_of_parsed_ledger :
  forall (content : string) (L : list Entry),
    parseFECFile content = Returned L ->
    L <> [] ->
    exists text,
      generateFECFile (map objectOf L) = Returned text
      /\ parseFECFile text = Returned (map normalizeAmounts L).
Proof.
  intros content L Hp Hne.
  exists (Str.join CRLF (headerLine :: map dataLine (map objectOf L))).
  split.
  - unfold generateFECFile. destruct L; [congruence|reflexivity].
  - apply generated_text_parses; [exact Hne|].
    apply Forall_forall. intros e He field _.
    exact (parsed_entry_clean content L e field Hp He).
Qed.

Lemma reexport_of_parsed_ledger_witness :
  exists L text,
    parseFECFile looseFile = Returned L
    /\ generateFECFile (map objectOf L) = Returned text
    /\ parseFECFile text = Returned (map normalizeAmounts L).
Proof.
  eexists.
  destruct (reexport_of_parsed_ledger looseFile _
              ltac:(vm_compute; reflexivity) ltac:(discriminate))
    as [text [Hg Hp]].
  exists text. split; [vm_compute; reflexivity|]. split; assumption.
Defined.

(* ================================================================== *)
(** ** What the parser does not look at *)

Lemma trim_blank_iff (s : string) :
  Str.isEmpty (Str.trim s) = Str.forallb Str.isWhiteSpace s.
Proof.
  unfold Str.trim. induction s as [|c r IH]; [reflexivity|].
  cbn [Str.trimStart Str.forallb].
  destruct (Str.isWhiteSpace c) eqn:E; [exact IH|].
  cbn [Str.trimEnd andb]. rewrite E. destruct (Str.trimEnd r); reflexivity.
Qed.

Lemma blank_iff_lines (s : string) :
  Str.forallb Str.isWhiteSpace s =
  List.forallb (Str.forallb Str.isWhiteSpace) (Str.splitLines s).
Proof.
  assert (Hstrong : forall n s, (String.length s <= n)%nat ->
            Str.forallb Str.isWhiteSpace s =
            List.forallb (Str.forallb Str.isWhiteSpace) (Str.splitLines s)).
  { induction n as [|n IH]; intros s0 Hlen.
    - destruct s0; [reflexivity|simpl in Hlen; lia].
    - destruct s0 as [|c r]; [reflexivity|]. simpl in Hlen.
      assert (Hr := IH r ltac:(lia)).
      cbn [Str.splitLines Str.forallb].
      destruct (Ascii.eqb c Str.LF) eqn:Ec.
      + apply Ascii.eqb_eq in Ec. subst c. cbn [List.forallb Str.forallb].
        rewrite Hr. reflexivity.
      + assert (Hkeep :
          (Str.isWhiteSpace c && Str.forallb Str.isWhiteSpace r)%bool =
          List.forallb (Str.forallb Str.isWhiteSpace)
            match Str.splitLines r with
            | p :: ps => String c p :: ps
            | [] => [String c EmptyString]
            end).
        { rewrite Hr. destruct (Str.splitLines r) as [|p ps].
          - cbn [List.forallb Str.forallb]. rewrite !andb_true_r. reflexivity.
          - cbn [List.forallb Str.forallb]. apply andb_assoc. }
        destruct (Ascii.eqb c Str.CR) eqn:Ecr; [|exact Hkeep].
        destruct r as [|c2 r2]; [exact Hkeep|].
        destruct (Ascii.eqb c2 Str.LF) eqn:Ec2; [|exact Hkeep].
        apply Ascii.eqb_eq in Ecr. apply Ascii.eqb_eq in Ec2. subst c c2.
        cbn [List.forallb Str.forallb].
        rewrite <- (IH r2); [reflexivity|simpl in Hlen; lia]. }
  apply (Hstrong (String.length s) s). lia.
Qed.

(** The outcome of [parseFECFile] depends on the content only through its
    lines. *)
Lemma parse_by_lines (c1 c2 : string) :
  Str.splitLines c1 = Str.splitLines c2 ->
  parseFECFile c1 = parseFECFile c2.
Proof.
  intros H. unfold parseFECFile, nonBlankLines.
  rewrite !trim_of_empty, !trim_blank_iff, !blank_iff_lines, H.
  reflexivity.
Qed.

Lemma splitLines_app_LF (s t : string) :
  Str.count Str.LF s = 0%nat -> Str.count Str.CR s = 0%nat ->
  Str.splitLines (s ++ String Str.LF t)%string = s :: Str.splitLines t.
Proof.
  induction s as [|c r IH]; [reflexivity|].
  intros Hl Hc. apply count_cons_zero in Hl. destruct Hl as [El Hl].
  apply count_cons_zero in Hc. destruct Hc as [Ec Hc].
  change (String c r ++ String Str.LF t)%string
    with (String c (r ++ String Str.LF t)%string).
  cbn [Str.splitLines]. rewrite El, Ec, (IH Hl Hc). reflexivity.
Qed.

Lemma splitLines_join_LF (lines : list string) :
  lines <> [] ->
  Forall (fun l => Str.count Str.LF l = 0%nat /\ Str.count Str.CR l = 0%nat)
         lines ->
  Str.splitLines (Str.join (String Str.LF "") lines) = lines.
Proof.
  intros Hne Hall. induction Hall as [|l r [Hl Hc] Hr IH]; [congruence|].
  destruct r as [|l' r'].
  - simpl. now apply splitLines_free.
  - change (Str.join (String Str.LF "") (l :: l' :: r'))
      with (l ++ String Str.LF (Str.join (String Str.LF "") (l' :: r')))%string.
    rewrite (splitLines_app_LF _ _ Hl Hc), IH; [reflexivity|discriminate].
Qed.

(** X14. Line endings: lines that hold no carriage return and no line feed
    give the same outcome, entry for entry or error for error, whether they
    are joined by LF or by CRLF. *)
Theorem parse_accepts_both_line_endings :
  forall lines : list string,
    Forall (fun l => Str.count Str.LF l = 0%nat /\ Str.count Str.CR l = 0%nat)
           lines ->
    parseFECFile (Str.join (String Str.LF "") lines) =
    parseFECFile (Str.join CRLF lines).
Proof.
  intros lines Hall. destruct lines as [|l r]; [reflexivity|].
  apply parse_by_lines.
  rewrite splitLines_join_LF, splitLines_join;
    [reflexivity|discriminate| |discriminate|exact Hall].
  eapply Forall_impl; [|exact Hall]. intros a [H _]. exact H.
Qed.

Lemma parse_accepts_both_line_endings_witness :
  parseFECFile (Str.join (String Str.LF "") [headerLine; dataLine oddAmounts])
  = parseFECFile (Str.join CRLF [headerLine; dataLine oddAmounts]).
Proof.
  apply (parse_accepts_both_line_endings [headerLine; dataLine oddAmounts]).
  repeat constructor.
Defined.

Lemma parse_with_header (header body : string) :
  columns header = 18%nat ->
  Str.count Str.LF header = 0%nat ->
  parseFECFile (header ++ CRLF ++ body)%string =
  if Nat.ltb (List.length (nonBlankLines body)) 1
  then Thrown (Error TooFewLines)
  else Returned (parseLines (nonBlankLines body)).
Proof.
  intros Hcols Hlf.
  assert (Hpipes : Str.count "|" header = 17%nat).
  { unfold columns in Hcols. rewrite split_length in Hcols. lia. }
  assert (Hnb : Str.isEmpty (Str.trim header) = false)
    by (apply separator_not_blank; lia).
  assert (Hlines : nonBlankLines (header ++ CRLF ++ body)%string
                   = header :: nonBlankLines body).
  { unfold nonBlankLines. rewrite (splitLines_app _ _ Hlf).
    cbn [filter]. rewrite Hnb. reflexivity. }
  assert (Hblank : Str.trim (header ++ CRLF ++ body)%string <> "").
  { apply isEmpty_false. apply separator_not_blank.
    rewrite count_app. lia. }
  destruct (parseFECFile_cases (header ++ CRLF ++ body)%string)
    as [[Ht _] | [[_ [Hl Hp]] | [[_ [_ [Hh _]]] | [_ [Hl [_ Hp]]]]]].
  - contradiction.
  - rewrite Hp. rewrite Hlines in Hl. cbn [List.length] in Hl.
    destruct (nonBlankLines body); [reflexivity|simpl in Hl; lia].
  - rewrite Hlines in Hh. cbn [nth] in Hh. contradiction.
  - rewrite Hp, Hlines. rewrite Hlines in Hl. cbn [List.length tl] in *.
    destruct (nonBlankLines body); [simpl in Hl; lia|reflexivity].
Qed.

(** X15. The header is only counted: two files with the same body, whose
    first lines both have 18 columns, give the same outcome whatever the
    names in those first lines; and a file reduced to such a first line is
    refused for having fewer than 2 lines. *)
Theorem header_names_are_not_checked :
  forall header1 header2 body : string,
    columns header1 = 18%nat -> Str.count Str.LF header1 = 0%nat ->
    columns header2 = 18%nat -> Str.count Str.LF header2 = 0%nat ->
    parseFECFile (header1 ++ CRLF ++ body)%string =
      parseFECFile (header2 ++ CRLF ++ body)%string
    /\ (nonBlankLines body = [] ->
        parseFECFile (header1 ++ CRLF ++ body)%string =
          Thrown (Error TooFewLines)).
Proof.
  intros header1 header2 body Hc1 Hl1 Hc2 Hl2.
  rewrite (parse_with_header header1 body Hc1 Hl1).
  rewrite (parse_with_header header2 body Hc2 Hl2).
  split; [reflexivity|]. intros ->. reflexivity.
Qed.

Lemma header_names_are_not_checked_witness :
  parseFECFile (headerLine ++ CRLF ++ dataLine oddAmounts)%string =
  parseFECFile ("a|b|c|d|e|f|g|h|i|j|k|l|m|n|o|p|q|r" ++ CRLF
                ++ dataLine oddAmounts)%string.
Proof.
  apply (header_names_are_not_checked headerLine
           "a|b|c|d|e|f|g|h|i|j|k|l|m|n|o|p|q|r" (dataLine oddAmounts));
    reflexivity.
Defined.

(* ================================================================== *)
(** ** Statistics *)

Lemma countAccountClasses_from (key : string) (entries : list Entry) :
  forall acc : list (string * ClassCount.t),
    Obj.lookup key
      (fold_left (fun classes entry =>
         if Str.isEmpty (CompteNum entry) then classes
         else
           let classNum := firstChar (CompteNum entry) in
           let classes :=
             match Obj.lookup classNum classes with
             | Some _ => classes
             | None =>
                 classes ++ [(classNum, ClassCount.mk (className classNum) 0)]
             end in
           Obj.update classNum
             (fun c => ClassCount.mk (ClassCount.name c)
                                     (ClassCount.count c + 1))
             classes)
         entries acc) =
    let k := List.length (filter (inClass key) entries) in
    match Obj.lookup key acc with
    | Some c => Some (ClassCount.mk (ClassCount.name c)
                                    (ClassCount.count c + k))
    | None => if Nat.eqb k 0 then None
              else Some (ClassCount.mk (className key) k)
    end.
Proof.
  induction entries as [|e r IH]; intros acc.
  - cbn [fold_left filter List.length Nat.eqb].
    destruct (Obj.lookup key acc) as [[n c]|]; [|reflexivity].
    cbn [ClassCount.name ClassCount.count]. now rewrite Nat.add_0_r.
  - cbn [fold_left filter]. rewrite IH. clear IH.
    assert (Ei : inClass key e =
                 (negb (Str.isEmpty (CompteNum e))
                  && String.eqb (firstChar (CompteNum e)) key)%bool)
      by reflexivity.
    rewrite Ei. clear Ei.
    destruct (Str.isEmpty (CompteNum e)) eqn:Ee; cbn [negb andb];
      [reflexivity|].
    cbv zeta. rewrite lookup_update.
    rewrite (String.eqb_sym (firstChar (CompteNum e)) key).
    destruct (String.eqb key (firstChar (CompteNum e))) eqn:Ek.
    + apply String.eqb_eq in Ek. subst key.
      destruct (Obj.lookup (firstChar (CompteNum e)) acc) as [[n c]|] eqn:El.
      * rewrite El. cbn [option_map ClassCount.name ClassCount.count
                         List.length].
        do 2 f_equal. lia.
      * rewrite lookup_app_one, El, String.eqb_refl.
        cbn [option_map ClassCount.name ClassCount.count List.length Nat.eqb].
        do 2 f_equal.
    + destruct (Obj.lookup (firstChar (CompteNum e)) acc) eqn:El;
        [reflexivity|].
      rewrite lookup_app_one, Ek.
      destruct (Obj.lookup key acc); reflexivity.
Qed.

(** X16. [countAccountClasses] files an entry under the first character of
    its account number: the object has a property for a class exactly when
    some entry with a non-empty account number begins with it, and then its
    count is the number of such entries and its name the label of the
    class, or [Classe inconnue] when the class has none. *)
Theorem countAccountClasses_counts :
  forall (entries : list Entry) (key : string),
    Obj.lookup key (countAccountClasses entries) =
    if Nat.eqb (List.length (filter (inClass key) entries)) 0 then None
    else Some (ClassCount.mk (className key)
                             (List.length (filter (inClass key) entries))).
Proof.
  intros entries key. unfold countAccountClasses.
  rewrite countAccountClasses_from. reflexivity.
Qed.

Section Tallies.
Variable sourceText : string -> string.

Lemma tally_lookup_other (counts : list (string * Tally)) (value key : string) :
  String.eqb key value = false ->
  Obj.lookup key (tally sourceText counts value) = Obj.lookup key counts.
Proof.
  intros Hk. unfold tally.
  destruct (Obj.lookup value counts) eqn:El.
  - rewrite lookup_update, Hk. reflexivity.
  - destruct (String.eqb value "__proto__"); [reflexivity|].
    destruct (Obj.inherited value); rewrite lookup_app_one, Hk;
      destruct (Obj.lookup key counts); reflexivity.
Qed.

Lemma inherited_proto : Obj.inherited "__proto__" = true.
Proof. reflexivity. Qed.

Lemma tally_lookup_same (counts : list (string * Tally)) (key : string) :
  Obj.inherited key = false ->
  Obj.lookup key (tally sourceText counts key) =
  match Obj.lookup key counts with
  | Some (Count n) => Some (Count (n + 1))
  | Some (Text s) => Some (Text (s ++ "1"))
  | None => Some (Count 1)
  end.
Proof.
  intros Hk. unfold tally.
  destruct (Obj.lookup key counts) as [t|] eqn:El.
  - rewrite lookup_update, String.eqb_refl, El. destruct t; reflexivity.
  - destruct (String.eqb key "__proto__") eqn:Ep.
    + apply String.eqb_eq in Ep. subst key. discriminate Hk.
    + rewrite Hk, lookup_app_one, El, String.eqb_refl. reflexivity.
Qed.

Lemma countByField_from (field : Field.t) (key : string)
  (entries : list Entry) :
  Obj.inherited key = false ->
  forall acc : list (string * Tally),
    (forall s, Obj.lookup key acc <> Some (Text s)) ->
    Obj.lookup key
      (fold_left (fun counts entry => tally sourceText counts
                                        (tallyKey field entry))
                 entries acc) =
    let k := List.length (filter (filedUnder field key) entries) in
    match Obj.lookup key acc with
    | Some (Count n) => Some (Count (n + k))
    | _ => if Nat.eqb k 0 then None else Some (Count k)
    end.
Proof.
  intros Hk. induction entries as [|e r IH]; intros acc Hacc.
  - cbn [fold_left filter List.length Nat.eqb].
    destruct (Obj.lookup key acc) as [[n|s]|] eqn:El; try reflexivity.
    + now rewrite Nat.add_0_r.
    + exfalso. exact (Hacc s eq_refl).
  - cbn [fold_left filter].
    assert (Ef : filedUnder field key e = String.eqb (tallyKey field e) key)
      by reflexivity.
    rewrite Ef. clear Ef.
    destruct (String.eqb (tallyKey field e) key) eqn:Ee.
    + apply String.eqb_eq in Ee. rewrite Ee.
      pose proof (tally_lookup_same acc key Hk) as Hs.
      rewrite IH.
      * rewrite Hs. cbv zeta. cbn [List.length].
        destruct (Obj.lookup key acc) as [[n|s]|] eqn:El.
        -- replace (n + 1 + List.length (filter (filedUnder field key) r))%nat
             with (n + S (List.length (filter (filedUnder field key) r)))%nat
             by lia.
           reflexivity.
        -- exfalso. exact (Hacc s eq_refl).
        -- cbn [Nat.eqb]. rewrite Nat.add_1_l. reflexivity.
      * intros s. rewrite Hs.
        destruct (Obj.lookup key acc) as [[n|s']|] eqn:El; try discriminate.
        exfalso. exact (Hacc s' eq_refl).
    + rewrite String.eqb_sym in Ee.
      rewrite IH; rewrite (tally_lookup_other acc _ key Ee);
        [reflexivity|exact Hacc].
Qed.

(** X17. [countByField] files an entry under the value of the field, or
    under [Non renseigne] when the value is empty. For a key that does not
    name a member of [Object.prototype], the object has a property exactly
    when some entry is filed under it, and its value is then the number of
    those entries. *)
Theorem countByField_counts :
  forall (entries : list Entry) (field : Field.t) (key : string),
    Obj.inherited key = false ->
    Obj.lookup key (countByField sourceText entries field) =
    if Nat.eqb (List.length (filter (filedUnder field key) entries)) 0
    then None
    else Some (Count (List.length (filter (filedUnder field key) entries))).
Proof.
  intros entries field key Hk. unfold countByField.
  change (fun counts entry =>
            tally sourceText counts (Str.or (get entry field) NonRenseigne))
    with (fun counts entry => tally sourceText counts (tallyKey field entry)).
  rewrite (countByField_from field key entries Hk []); [reflexivity|].
  intros s. discriminate.
Qed.

Lemma totalCount_app (a b : list (string * Tally)) :
  totalCount (a ++ b) = (totalCount a + totalCount b)%nat.
Proof.
  induction a as [|[k t] r IH]; [reflexivity|].
  cbn [app totalCount fold_right snd]. fold (totalCount (r ++ b)).
  fold (totalCount r). rewrite IH. destruct t; lia.
Qed.

Lemma totalCount_update (value : string) (counts : list (string * Tally)) :
  Forall (fun kv => exists n, snd kv = Count n) counts ->
  Obj.lookup value counts <> None ->
  totalCount (Obj.update value
                (fun t => match t with
                          | Count n => Count (n + 1)
                          | Text s => Text (s ++ "1")
                          end) counts) = S (totalCount counts)
  /\ Forall (fun kv => exists n, snd kv = Count n)
            (Obj.update value
               (fun t => match t with
                         | Count n => Count (n + 1)
                         | Text s => Text (s ++ "1")
                         end) counts).
Proof.
  induction 1 as [|[k t] r [n Hn] Hr IH]; [simpl; congruence|].
  cbn [snd] in Hn. subst t. cbn [Obj.lookup Obj.update].
  destruct (String.eqb value k).
  - intros _. split.
    + cbn [totalCount fold_right snd]. lia.
    + constructor; [exists (n + 1)%nat; reflexivity|exact Hr].
  - intros Hl. destruct (IH Hl) as [Ht Hf]. split.
    + change (totalCount ((k, Count n) :: ?l)) with (n + totalCount l)%nat.
      rewrite Ht. lia.
    + constructor; [exists n; reflexivity|exact Hf].
Qed.

Lemma countByField_total_from (field : Field.t) (entries : list Entry) :
  Forall (fun e => Obj.inherited (tallyKey field e) = false) entries ->
  forall acc,
    Forall (fun kv => exists n, snd kv = Count n) acc ->
    totalCount
      (fold_left (fun counts entry => tally sourceText counts
                                        (tallyKey field entry))
                 entries acc) = (totalCount acc + List.length entries)%nat.
Proof.
  induction 1 as [|e r He Hr IH]; intros acc Hacc.
  - simpl. lia.
  - cbn [fold_left List.length].
    assert (Hstep : totalCount (tally sourceText acc (tallyKey field e))
                    = S (totalCount acc)
                    /\ Forall (fun kv => exists n, snd kv = Count n)
                              (tally sourceText acc (tallyKey field e))).
    { unfold tally.
      destruct (Obj.lookup (tallyKey field e) acc) eqn:El.
      - apply totalCount_update; [exact Hacc|congruence].
      - destruct (String.eqb (tallyKey field e) "__proto__") eqn:Ep.
        + apply String.eqb_eq in Ep. rewrite Ep in He. discriminate He.
        + rewrite He. split.
          * rewrite totalCount_app. simpl. lia.
          * apply Forall_app. split; [exact Hacc|].
            constructor; [exists 1%nat; reflexivity|constructor]. }
    destruct Hstep as [Ht Hf]. rewrite (IH _ Hf), Ht. lia.
Qed.

(** X18. When no journal code of the ledger names a member of
    [Object.prototype], the counts per journal of [getStatistics] add up to
    its [totalEntries]: every entry is counted once, the ones without a
    code under [Non renseigne]. *)
Theorem journalCounts_add_up :
  forall entries : list Entry,
    Forall (fun e => Obj.inherited (tallyKey Field.JournalCode e) = false)
           entries ->
    totalCount (Stats.journalCounts (getStatistics sourceText entries)) =
    Stats.totalEntries (getStatistics sourceText entries).
Proof.
  intros entries Hplain. cbn [getStatistics Stats.journalCounts
                              Stats.totalEntries].
  unfold countByField.
  change (fun counts entry =>
            tally sourceText counts
              (Str.or (get entry Field.JournalCode) NonRenseigne))
    with (fun counts entry =>
            tally sourceText counts (tallyKey Field.JournalCode entry)).
  rewrite (countByField_total_from Field.JournalCode entries Hplain []);
    [reflexivity|constructor].
Qed.

End Tallies.

Lemma countByField_counts_witness :
  Obj.lookup "VE"
    (countByField (fun _ => "") [saleCredit; saleDebit; oddJournalCredit]
                  Field.JournalCode) = Some (Count 2).
Proof.
  exact (countByField_counts (fun _ => "")
           [saleCredit; saleDebit; oddJournalCredit] Field.JournalCode "VE"
           eq_refl).
Defined.

Lemma journalCounts_add_up_witness :
  totalCount (Stats.journalCounts
                (getStatistics (fun _ => "")
                   [saleCredit; saleDebit; oddJournalCredit])) = 3%nat.
Proof.
  apply (journalCounts_add_up (fun _ => "")
           [saleCredit; saleDebit; oddJournalCredit]).
  repeat constructor.
Defined.

Lemma min2_NaN_l (x : Num.number) : min2 Num.NaN x = Num.NaN.
Proof. reflexivity. Qed.

Lemma fold_min2_NaN (l : list Num.number) :
  fold_left min2 l Num.NaN = Num.NaN.
Proof. induction l as [|x r IH]; [reflexivity|exact IH]. Qed.

Lemma fold_max2_NaN (l : list Num.number) :
  fold_left max2 l Num.NaN = Num.NaN.
Proof. induction l as [|x r IH]; [reflexivity|exact IH]. Qed.

Lemma fold_min2_poisoned (l : list Num.number) (acc : Num.number) :
  In Num.NaN l -> fold_left min2 l acc = Num.NaN.
Proof.
  revert acc. induction l as [|x r IH]; intros acc; [contradiction|].
  intros [-> | H]; cbn [fold_left].
  - assert (E : min2 acc Num.NaN = Num.NaN).
    { unfold min2. cbn [Num.isNaN Num.NaN]. now rewrite orb_true_r. }
    rewrite E. apply fold_min2_NaN.
  - now apply IH.
Qed.

Lemma fold_max2_poisoned (l : list Num.number) (acc : Num.number) :
  In Num.NaN l -> fold_left max2 l acc = Num.NaN.
Proof.
  revert acc. induction l as [|x r IH]; intros acc; [contradiction|].
  intros [-> | H]; cbn [fold_left].
  - assert (E : max2 acc Num.NaN = Num.NaN).
    { unfold max2. cbn [Num.isNaN Num.NaN]. now rewrite orb_true_r. }
    rewrite E. apply fold_max2_NaN.
  - now apply IH.
Qed.

(** X19. The date range of [getStatistics] is made of numbers, not of
    texts: the dates go through [Math.min] and [Math.max], so a single
    entry whose [EcritureDate] does not read as a number makes both ends of
    the range NaN. *)
Theorem dateRange_poisoned_by_one_date :
  forall (sourceText : string -> string) (entries : list Entry) (e : Entry),
    In e entries ->
    Num.isNaN (NumText.toNumber (EcritureDate e)) = true ->
    Stats.dateRangeStart (getStatistics sourceText entries) = Some Num.NaN
    /\ Stats.dateRangeEnd (getStatistics sourceText entries) = Some Num.NaN.
Proof.
  intros sourceText entries e He Hnan.
  assert (Hin : In Num.NaN
                   (map (fun e => NumText.toNumber (EcritureDate e)) entries)).
  { apply in_map_iff. exists e. split; [|exact He].
    destruct (NumText.toNumber (EcritureDate e)); try discriminate Hnan.
    reflexivity. }
  cbn [getStatistics Stats.dateRangeStart Stats.dateRangeEnd].
  assert (Hpos : Nat.ltb 0 (List.length entries) = true).
  { destruct entries; [contradiction|reflexivity]. }
  rewrite Hpos. unfold Math_min, Math_max.
  rewrite (fold_min2_poisoned _ _ Hin), (fold_max2_poisoned _ _ Hin).
  split; reflexivity.
Qed.

Lemma dateRange_poisoned_by_one_date_witness :
  Stats.dateRangeStart
    (getStatistics (fun _ => "") [saleDebit; dashedDate]) = Some Num.NaN
  /\ Stats.dateRangeEnd
       (getStatistics (fun _ => "") [saleDebit; dashedDate]) = Some Num.NaN.
Proof.
  apply (dateRange_poisoned_by_one_date (fun _ => "")
           [saleDebit; dashedDate] dashedDate).
  - right. left. reflexivity.
  - reflexivity.
Defined.

(* ================================================================== *)
(** ** The module loader *)

Lemma lookup_static (k : string) (registry : Registry) :
  Obj.lookup k (static registry) = option_map unmarked (Obj.lookup k registry).
Proof.
  induction registry as [|[k' m] r IH]; [reflexivity|].
  cbn [static map fst snd Obj.lookup]. fold (static r).
  destruct (String.eqb k k'); [reflexivity|exact IH].
Qed.

Lemma static_update (k : string) (registry : Registry) :
  static (Obj.update k ModuleInfo.markLoaded registry) = static registry.
Proof.
  induction registry as [|[k' m] r IH]; [reflexivity|].
  cbn [Obj.update]. destruct (String.eqb k k').
  - reflexivity.
  - cbn [static map fst snd]. fold (static r).
    fold (static (Obj.update k ModuleInfo.markLoaded r)). now rewrite IH.
Qed.

Lemma isModuleLoaded_static (defined : string -> bool) (registry : Registry)
  (name : string) :
  static (snd (isModuleLoaded defined registry name)) = static registry.
Proof.
  unfold isModuleLoaded.
  destruct (Obj.lookup name registry) as [m|].
  - destruct (Str.isEmpty (ModuleInfo.global m)); [reflexivity|].
    cbn [snd].
    destruct (defined (ModuleInfo.global m) && negb (ModuleInfo.loaded m))%bool;
      [apply static_update|reflexivity].
  - destruct (Obj.inherited name); reflexivity.
Qed.

Lemma registry_globals (name : string) (m : ModuleInfo.t) :
  Obj.lookup name moduleRegistry = Some m ->
  Str.isEmpty (ModuleInfo.global m) = false.
Proof.
  unfold moduleRegistry. cbn [Obj.lookup].
  repeat match goal with
         | |- (if ?c then _ else _) = _ -> _ => destruct c
         end;
    intros H; inversion H; reflexivity.
Qed.

Lemma registry_not_inherited (name : string) :
  Obj.inherited name = true -> Obj.lookup name moduleRegistry = None.
Proof.
  unfold Obj.inherited, Obj.mem, Obj.inheritedNames. cbn [existsb].
  intros H. repeat (apply orb_true_iff in H; destruct H as [H|H]);
    try discriminate H; apply String.eqb_eq in H; subst name; reflexivity.
Qed.

Lemma isModuleLoaded_registered (defined : string -> bool)
  (registry : Registry) (name : string) :
  registered registry ->
  fst (isModuleLoaded defined registry name) =
  match Obj.lookup name moduleRegistry with
  | Some m => Boolean (defined (ModuleInfo.global m))
  | None => if Obj.inherited name then Undefined else Boolean false
  end.
Proof.
  intros Hreg. unfold isModuleLoaded.
  rewrite <- Hreg, lookup_static.
  destruct (Obj.lookup name registry) as [m|] eqn:El; cbn [option_map].
  - assert (Hg : Str.isEmpty (ModuleInfo.global m) = false).
    { apply (registry_globals name (unmarked m)).
      rewrite <- Hreg, lookup_static, El. reflexivity. }
    rewrite Hg. reflexivity.
  - destruct (Obj.inherited name); reflexivity.
Qed.

Lemma truthy_registered (defined : string -> bool) (registry : Registry)
  (name : string) :
  registered registry ->
  truthy (fst (isModuleLoaded defined registry name)) = detected defined name.
Proof.
  intros Hreg. rewrite (isModuleLoaded_registered _ _ _ Hreg).
  unfold detected. destruct (Obj.lookup name moduleRegistry); [reflexivity|].
  destruct (Obj.inherited name); reflexivity.
Qed.

Lemma checkEach_from (defined : string -> bool) (depends : list string) :
  forall (acc : list string) (registry : Registry),
    registered registry ->
    fst (fold_left (fun (acc : list string * Registry) depName =>
                      let (answer, registry) :=
                        isModuleLoaded defined (snd acc) depName in
                      if truthy answer then (fst acc, registry)
                      else (fst acc ++ [depName], registry))
                   depends (acc, registry)) =
    acc ++ filter (fun dep => negb (detected defined dep)) depends
    /\ registered
         (snd (fold_left (fun (acc : list string * Registry) depName =>
                            let (answer, registry) :=
                              isModuleLoaded defined (snd acc) depName in
                            if truthy answer then (fst acc, registry)
                            else (fst acc ++ [depName], registry))
                         depends (acc, registry))).
Proof.
  induction depends as [|dep r IH]; intros acc registry Hreg.
  - cbn [fold_left filter fst snd]. now rewrite app_nil_r.
  - cbn [fold_left filter fst snd].
    pose proof (truthy_registered defined registry dep Hreg) as Ht.
    pose proof (isModuleLoaded_static defined registry dep) as Hs.
    destruct (isModuleLoaded defined registry dep) as [answer registry'].
    cbn [fst snd] in Ht, Hs.
    assert (Hreg' : registered registry')
      by (unfold registered; now rewrite Hs).
    rewrite Ht. destruct (detected defined dep); cbn [negb].
    + exact (IH acc registry' Hreg').
    + destruct (IH (acc ++ [dep]) registry' Hreg') as [E R].
      split; [|exact R]. rewrite E, <- app_assoc. reflexivity.
Qed.

Lemma checkDependencies_registered (defined : string -> bool)
  (registry : Registry) (name : string) :
  registered registry ->
  fst (checkDependencies defined registry name) =
  Dependencies.mk (Nat.eqb (List.length (missingOf defined name)) 0)
                  (missingOf defined name)
  /\ registered (snd (checkDependencies defined registry name)).
Proof.
  intros Hreg. unfold checkDependencies, missingOf, dependsOf.
  assert (Hl : Obj.lookup name moduleRegistry
               = option_map unmarked (Obj.lookup name registry)).
  { unfold registered in Hreg. rewrite <- Hreg. apply lookup_static. }
  rewrite Hl. clear Hl.
  destruct (Obj.lookup name registry) as [m|]; cbn [option_map];
    [|split; [reflexivity|exact Hreg]].
  cbn [unmarked ModuleInfo.depends].
  destruct (ModuleInfo.depends m) as [deps|];
    [|split; [reflexivity|exact Hreg]].
  unfold checkEach.
  destruct (checkEach_from defined deps [] registry Hreg) as [E R].
  destruct (fold_left _ deps ([], registry)) as [missing registry'].
  cbn [fst snd] in E, R |- *. subst missing. split; [reflexivity|exact R].
Qed.

Lemma checkModule_registered (defined : string -> bool)
  (registry : Registry) (state : LoadingState.t)
  (entry : string * ModuleInfo.t) :
  registered registry ->
  registered (fst (checkModule defined (registry, state) entry))
  /\ LoadingState.initialized
       (snd (checkModule defined (registry, state) entry))
     = LoadingState.initialized state
  /\ LoadingState.errors (snd (checkModule defined (registry, state) entry))
     = LoadingState.errors state ++ errorNote defined entry
  /\ LoadingState.warnings (snd (checkModule defined (registry, state) entry))
     = LoadingState.warnings state ++ warningNote defined entry.
Proof.
  intros Hreg. destruct entry as [name m].
  unfold checkModule, errorNote, warningNote. cbn [fst snd].
  pose proof (truthy_registered defined registry name Hreg) as Ht.
  pose proof (isModuleLoaded_static defined registry name) as Hs.
  destruct (isModuleLoaded defined registry name) as [answer registry'].
  cbn [fst snd] in Ht, Hs.
  assert (Hreg' : registered registry') by (unfold registered; now rewrite Hs).
  rewrite Ht. destruct (detected defined name); cbn [negb].
  - destruct (checkDependencies_registered defined registry' name Hreg')
      as [E R].
    destruct (checkDependencies defined registry' name) as [deps registry''].
    cbn [fst snd] in E, R. subst deps.
    cbn [Dependencies.satisfied Dependencies.missing].
    destruct (missingOf defined name) as [|dep r];
      cbn [List.length Nat.eqb negb fst snd LoadingState.pushWarning
           LoadingState.initialized LoadingState.errors
           LoadingState.warnings];
      rewrite ?app_nil_r; repeat split; assumption.
  - destruct (ModuleInfo.required m);
      cbn [fst snd LoadingState.pushWarning LoadingState.pushError
           LoadingState.initialized LoadingState.errors
           LoadingState.warnings];
      rewrite ?app_nil_r; repeat split; assumption.
Qed.

Lemma checkModules_registered (defined : string -> bool)
  (entries : list (string * ModuleInfo.t)) :
  forall (registry : Registry) (state : LoadingState.t),
    registered registry ->
    registered (fst (fold_left (checkModule defined) entries
                               (registry, state)))
    /\ LoadingState.errors
         (snd (fold_left (checkModule defined) entries (registry, state)))
       = LoadingState.errors state ++ flat_map (errorNote defined) entries
    /\ LoadingState.warnings
         (snd (fold_left (checkModule defined) entries (registry, state)))
       = LoadingState.warnings state
         ++ flat_map (warningNote defined) entries.
Proof.
  induction entries as [|entry r IH]; intros registry state Hreg.
  - cbn [fold_left flat_map fst snd]. rewrite !app_nil_r. now repeat split.
  - cbn [fold_left flat_map].
    destruct (checkModule_registered defined registry state entry Hreg)
      as (R & _ & E & W).
    destruct (checkModule defined (registry, state) entry)
      as [registry' state'].
    cbn [fst snd] in R, E, W.
    destruct (IH registry' state' R) as (R' & E' & W').
    rewrite E', W', E, W, <- !app_assoc. now repeat split.
Qed.

Lemma filter_static (p : string -> bool) (registry : Registry) :
  filter (fun kv => p (fst kv)) (static registry)
  = static (filter (fun kv => p (fst kv)) registry).
Proof.
  induction registry as [|[k m] r IH]; [reflexivity|].
  cbn [static map filter fst snd]. fold (static r).
  rewrite IH. destruct (p k); reflexivity.
Qed.

Lemma insertIndex_static (kv : string * ModuleInfo.t) (registry : Registry) :
  Obj.insertIndex (fst kv, unmarked (snd kv)) (static registry)
  = static (Obj.insertIndex kv registry).
Proof.
  induction registry as [|[k m] r IH]; [reflexivity|].
  cbn [static map Obj.insertIndex fst snd]. fold (static r).
  destruct (Str.digitsValue (fst kv) <? Str.digitsValue k).
  - reflexivity.
  - rewrite IH. reflexivity.
Qed.

Lemma entries_static (registry : Registry) :
  Obj.entries (static registry) = static (Obj.entries registry).
Proof.
  unfold Obj.entries.
  rewrite (filter_static Obj.isArrayIndex),
          (filter_static (fun k => negb (Obj.isArrayIndex k))).
  unfold static at 3. rewrite map_app. f_equal.
  induction (filter (fun kv => Obj.isArrayIndex (fst kv)) registry)
    as [|kv r IH]; [reflexivity|].
  cbn [static map Obj.sortIndices fold_right]. fold (static r).
  fold (Obj.sortIndices (static r)). fold (Obj.sortIndices r).
  rewrite IH. apply insertIndex_static.
Qed.

Lemma errorNotes_static (defined : string -> bool) (registry : Registry) :
  flat_map (errorNote defined) (static registry)
  = flat_map (errorNote defined) registry.
Proof.
  induction registry as [|[k m] r IH]; [reflexivity|].
  cbn [static map flat_map fst snd]. fold (static r). rewrite IH.
  reflexivity.
Qed.

Lemma warningNotes_static (defined : string -> bool) (registry : Registry) :
  flat_map (warningNote defined) (static registry)
  = flat_map (warningNote defined) registry.
Proof.
  induction registry as [|[k m] r IH]; [reflexivity|].
  cbn [static map flat_map fst snd]. fold (static r). rewrite IH.
  reflexivity.
Qed.

Lemma initializeModules_registered (defined : string -> bool)
  (registry : Registry) (state : LoadingState.t) :
  registered registry ->
  registered (fst (snd (initializeModules defined (registry, state))))
  /\ LoadingState.errors
       (snd (snd (initializeModules defined (registry, state))))
     = LoadingState.errors state
       ++ flat_map (errorNote defined) moduleRegistry
  /\ LoadingState.warnings
       (snd (snd (initializeModules defined (registry, state))))
     = LoadingState.warnings state
       ++ flat_map (warningNote defined) moduleRegistry.
Proof.
  intros Hreg. unfold initializeModules. cbn [fst snd].
  destruct (checkModules_registered defined (Obj.entries registry) registry
              (LoadingState.setInitialized state) Hreg) as (R & E & W).
  rewrite E, W. cbn [LoadingState.setInitialized LoadingState.errors
                    LoadingState.warnings].
  assert (Hentries : static (Obj.entries registry) = moduleRegistry).
  { rewrite <- entries_static. unfold registered in Hreg. rewrite Hreg.
    reflexivity. }
  rewrite <- (errorNotes_static defined (Obj.entries registry)),
          <- (warningNotes_static defined (Obj.entries registry)), Hentries.
  now repeat split.
Qed.

Lemma if_both {A : Type} (b : bool) (x : A) : (if b then x else x) = x.
Proof. destruct b; reflexivity. Qed.

Lemma errorNotes_of_registry (defined : string -> bool) :
  flat_map (errorNote defined) moduleRegistry =
  (if defined "NUMMA_SECURITY" then [] else ["Module security not loaded"])
  ++ (if defined "TABLE_HELPERS" then []
      else ["Module table-helpers not loaded"])
  ++ (if defined "showMessage" then [] else ["Module messages not loaded"])
  ++ (if defined "AppState" then [] else ["Module main not loaded"]).
Proof.
  unfold moduleRegistry, errorNote. cbn [flat_map fst snd ModuleInfo.required].
  rewrite !if_both. cbn [app]. rewrite app_nil_r. reflexivity.
Qed.

Lemma flat_map_nil {A B : Type} (f : A -> list B) (l : list A) :
  flat_map f l = [] <-> forall x, In x l -> f x = [].
Proof.
  induction l as [|a r IH]; cbn [flat_map In].
  - split; [intros _ x []|reflexivity].
  - split.
    + intros H. apply app_eq_nil in H. destruct H as [Ha Hr].
      intros x [<-|Hx]; [exact Ha|exact (proj1 IH Hr x Hx)].
    + intros H. rewrite (H a (or_introl eq_refl)).
      apply IH. intros x Hx. apply H. now right.
Qed.

Lemma detected_of_registry (defined : string -> bool) :
  forallb (fun kv => detected defined (fst kv)) moduleRegistry
  = forallb (fun kv => defined (ModuleInfo.global (snd kv))) moduleRegistry.
Proof. reflexivity. Qed.

Lemma depends_registered (name dep : string) :
  In dep (dependsOf name) -> In dep (map fst moduleRegistry).
Proof.
  unfold dependsOf, moduleRegistry. cbn [Obj.lookup].
  repeat match goal with
         | |- In _ (match (if ?c then _ else _) with _ => _ end) -> _ =>
             destruct c
         end;
    cbn; intuition.
Qed.

Lemma filter_nil_inv {A : Type} (p : A -> bool) (l : list A) :
  filter p l = [] -> forall x, In x l -> p x = false.
Proof.
  induction l as [|a r IH]; intros H x; [intros []|].
  cbn [filter] in H. destruct (p a) eqn:Ea; [discriminate H|].
  intros [<-|Hx]; [exact Ea|exact (IH H x Hx)].
Qed.

Lemma checkModule_keeps_errors (defined : string -> bool)
  (state : Registry * LoadingState.t) (entry : string * ModuleInfo.t) :
  exists new,
    LoadingState.errors (snd (checkModule defined state entry))
    = LoadingState.errors (snd state) ++ new.
Proof.
  destruct entry as [name m]. unfold checkModule.
  destruct (isModuleLoaded defined (fst state) name) as [answer registry].
  destruct (negb (truthy answer)).
  - destruct (ModuleInfo.required m); cbn [snd LoadingState.pushError
      LoadingState.pushWarning LoadingState.errors].
    + eexists; reflexivity.
    + exists []. now rewrite app_nil_r.
  - destruct (checkDependencies defined registry name) as [deps registry'].
    exists []. rewrite app_nil_r.
    destruct (negb (Dependencies.satisfied deps)); reflexivity.
Qed.

Lemma checkModules_keep_errors (defined : string -> bool)
  (entries : list (string * ModuleInfo.t)) :
  forall state : Registry * LoadingState.t,
  exists new,
    LoadingState.errors (snd (fold_left (checkModule defined) entries state))
    = LoadingState.errors (snd state) ++ new.
Proof.
  induction entries as [|entry r IH]; intros state.
  - exists []. cbn [fold_left]. now rewrite app_nil_r.
  - cbn [fold_left].
    destruct (IH (checkModule defined state entry)) as [new' E'].
    destruct (checkModule_keeps_errors defined state entry) as [new E].
    exists (new ++ new'). rewrite E', E, app_assoc. reflexivity.
Qed.

(** X20. [initializeModules] answers for the required modules only, and
    for every call so far: in any state of the registry it returns [true]
    exactly when the loading state held no error before the call and the
    four globals of the required modules, [NUMMA_SECURITY],
    [TABLE_HELPERS], [showMessage] and [AppState], are defined. *)
Theorem initializeModules_true_iff :
  forall (defined : string -> bool) (registry : Registry)
         (state : LoadingState.t),
    registered registry ->
    fst (initializeModules defined (registry, state)) = true <->
    LoadingState.errors state = []
    /\ defined "NUMMA_SECURITY" = true
    /\ defined "TABLE_HELPERS" = true
    /\ defined "showMessage" = true
    /\ defined "AppState" = true.
Proof.
  intros defined registry state Hreg.
  destruct (initializeModules_registered defined registry state Hreg)
    as (_ & E & _).
  change (fst (initializeModules defined (registry, state)))
    with (Nat.eqb
            (List.length
               (LoadingState.errors
                  (snd (snd (initializeModules defined (registry, state))))))
            0).
  rewrite E, errorNotes_of_registry. clear E.
  destruct (LoadingState.errors state) as [|x r].
  - destruct (defined "NUMMA_SECURITY"), (defined "TABLE_HELPERS"),
      (defined "showMessage"), (defined "AppState");
      cbn; intuition discriminate.
  - cbn. intuition discriminate.
Qed.

Lemma initializeModules_true_iff_witness :
  fst (initializeModules
         (windowOf ["NUMMA_SECURITY"; "TABLE_HELPERS"; "showMessage";
                    "AppState"])
         (securityDetected, LoadingState.initial)) = true.
Proof.
  apply (proj2 (initializeModules_true_iff
                  (windowOf ["NUMMA_SECURITY"; "TABLE_HELPERS";
                             "showMessage"; "AppState"])
                  securityDetected LoadingState.initial eq_refl)).
  repeat split; reflexivity.
Defined.

(** X21. The errors of the loading state are never cleared: a call of
    [initializeModules] keeps the errors of the earlier calls and adds its
    own after them, so once a call has failed, every later call returns
    [false], whatever has been loaded since. This holds for every
    registry. *)
Theorem errors_are_never_cleared :
  forall (defined : string -> bool) (registry : Registry)
         (state : LoadingState.t),
    LoadingState.errors state <> [] ->
    fst (initializeModules defined (registry, state)) = false
    /\ exists new,
         LoadingState.errors
           (snd (snd (initializeModules defined (registry, state))))
         = LoadingState.errors state ++ new.
Proof.
  intros defined registry state Herr.
  unfold initializeModules. cbn [fst snd].
  destruct (checkModules_keep_errors defined (Obj.entries registry)
              (registry, LoadingState.setInitialized state)) as [new E].
  cbn [snd LoadingState.setInitialized LoadingState.errors] in E.
  rewrite E. split; [|exists new; reflexivity].
  destruct (LoadingState.errors state); [congruence|reflexivity].
Qed.

Lemma errors_are_never_cleared_witness :
  fst (initializeModules (fun _ => true)
         (moduleRegistry,
          LoadingState.mk true ["Module main not loaded"] [])) = false
  /\ exists new,
       LoadingState.errors
         (snd (snd (initializeModules (fun _ => true)
                      (moduleRegistry,
                       LoadingState.mk true ["Module main not loaded"] []))))
       = LoadingState.errors
           (LoadingState.mk true ["Module main not loaded"] []) ++ new.
Proof.
  apply (errors_are_never_cleared (fun _ => true) moduleRegistry
           (LoadingState.mk true ["Module main not loaded"] [])).
  discriminate.
Defined.

(** X22. [checkDependencies] reports, in any state of the registry, the
    dependencies of the module whose global is not defined, in the order
    the registry lists them, and is satisfied exactly when there is none.
    A name the registry does not hold, a member of [Object.prototype]
    included, has no dependency and is satisfied. *)
Theorem checkDependencies_missing :
  forall (defined : string -> bool) (registry : Registry) (name : string),
    registered registry ->
    Dependencies.missing (fst (checkDependencies defined registry name))
    = filter (fun dep => negb (detected defined dep)) (dependsOf name)
    /\ (Dependencies.satisfied (fst (checkDependencies defined registry name))
        = true
        <-> forall dep, In dep (dependsOf name) -> detected defined dep = true)
    /\ (Obj.lookup name moduleRegistry = None ->
        fst (checkDependencies defined registry name)
        = Dependencies.mk true []).
Proof.
  intros defined registry name Hreg.
  destruct (checkDependencies_registered defined registry name Hreg)
    as [E _].
  rewrite E. cbn [Dependencies.missing Dependencies.satisfied].
  split; [reflexivity|]. split.
  - unfold missingOf. split.
    + intros H dep Hdep.
      destruct (filter (fun dep => negb (detected defined dep))
                       (dependsOf name)) as [|x r] eqn:Ef;
        [|discriminate H].
      pose proof (filter_nil_inv _ _ Ef dep Hdep) as Hn. cbv beta in Hn.
      destruct (detected defined dep); [reflexivity|discriminate Hn].
    + intros H. rewrite filter_none; [reflexivity|].
      intros dep Hdep. now rewrite (H dep Hdep).
  - intros Hnone. unfold missingOf, dependsOf. rewrite Hnone. reflexivity.
Qed.

Lemma checkDependencies_missing_witness :
  Dependencies.missing
    (fst (checkDependencies (windowOf ["NUMMA_SECURITY"; "EmployeeAPI"])
            securityDetected "employees"))
  = ["messages"; "exports"].
Proof.
  exact (proj1 (checkDependencies_missing
                  (windowOf ["NUMMA_SECURITY"; "EmployeeAPI"])
                  securityDetected "employees" eq_refl)).
Defined.

(** X23. After [initializeModules] on a loading state without errors or
    warnings, there is still none exactly when the globals of all twelve
    modules of the registry are defined: every module that is not detected
    leaves an error or a warning, and a module that is detected leaves a
    warning only for a dependency that is not. *)
Theorem no_message_iff_all_defined :
  forall (defined : string -> bool) (registry : Registry)
         (state : LoadingState.t),
    registered registry ->
    LoadingState.errors state = [] ->
    LoadingState.warnings state = [] ->
    (LoadingState.errors
       (snd (snd (initializeModules defined (registry, state)))) = []
     /\ LoadingState.warnings
          (snd (snd (initializeModules defined (registry, state)))) = [])
    <-> forallb (fun kv => defined (ModuleInfo.global (snd kv)))
                moduleRegistry = true.
Proof.
  intros defined registry state Hreg He Hw.
  destruct (initializeModules_registered defined registry state Hreg)
    as (_ & E & W).
  rewrite E, W, He, Hw. cbn [app]. clear E W.
  rewrite <- detected_of_registry, forallb_forall, !flat_map_nil.
  split.
  - intros [HE HW] [name m] Hin. specialize (HE _ Hin). specialize (HW _ Hin).
    unfold errorNote in HE. unfold warningNote in HW. cbn [fst snd] in *.
    destruct (detected defined name); [reflexivity|].
    destruct (ModuleInfo.required m); discriminate.
  - intros Hall.
    assert (Hdet : forall name, In name (map fst moduleRegistry) ->
                                detected defined name = true).
    { intros name Hname. apply in_map_iff in Hname.
      destruct Hname as [kv [<- Hkv]]. exact (Hall kv Hkv). }
    split; intros [name m] Hin; pose proof (Hall _ Hin) as Hd;
      cbn [fst] in Hd.
    + unfold errorNote. cbn [fst]. now rewrite Hd.
    + unfold warningNote. cbn [fst]. rewrite Hd.
      unfold missingOf. rewrite filter_none; [reflexivity|].
      intros dep Hdep.
      now rewrite (Hdet dep (depends_registered name dep Hdep)).
Qed.

Lemma no_message_iff_all_defined_witness :
  LoadingState.errors
    (snd (snd (initializeModules (fun _ => true)
                 (moduleRegistry, LoadingState.initial)))) = []
  /\ LoadingState.warnings
       (snd (snd (initializeModules (fun _ => true)
                    (moduleRegistry, LoadingState.initial)))) = [].
Proof.
  apply (proj2 (no_message_iff_all_defined (fun _ => true) moduleRegistry
                  LoadingState.initial eq_refl eq_refl eq_refl)).
  reflexivity.
Defined.

(** X24. [isModuleLoaded] answers from the window and not from the
    [loaded] flag: in any state of the registry it returns whether the
    global of the module is defined at the time of the call. For a name
    the registry does not hold it returns [false], unless the name is a
    member of [Object.prototype]: then it returns [undefined]. *)
Theorem isModuleLoaded_answer :
  forall (defined : string -> bool) (registry : Registry) (name : string),
    registered registry ->
    fst (isModuleLoaded defined registry name) =
    match Obj.lookup name moduleRegistry with
    | Some m => Boolean (defined (ModuleInfo.global m))
    | None => if Obj.inherited name then Undefined else Boolean false
    end.
Proof.
  intros defined registry name Hreg.
  exact (isModuleLoaded_registered defined registry name Hreg).
Qed.

Lemma isModuleLoaded_answer_witness :
  fst (isModuleLoaded (fun _ => false) securityDetected "security")
  = Boolean false
  /\ fst (isModuleLoaded (fun _ => true) securityDetected "constructor")
     = Undefined.
Proof.
  split.
  - exact (isModuleLoaded_answer (fun _ => false) securityDetected "security"
             eq_refl).
  - exact (isModuleLoaded_answer (fun _ => true) securityDetected
             "constructor" eq_refl).
Defined.

Lemma registered_after_isModuleLoaded (defined : string -> bool)
  (registry : Registry) (name : string) :
  registered registry ->
  registered (snd (isModuleLoaded defined registry name)).
Proof.
  intros Hreg. unfold registered. now rewrite isModuleLoaded_static.
Qed.

Lemma lookup_registered (registry : Registry) (name : string) :
  registered registry ->
  Obj.lookup name moduleRegistry
  = option_map unmarked (Obj.lookup name registry).
Proof.
  intros Hreg. unfold registered in Hreg. rewrite <- Hreg.
  apply lookup_static.
Qed.

Lemma isModuleLoaded_flag (defined : string -> bool) (registry : Registry)
  (name k : string) :
  registered registry ->
  flagOf (snd (isModuleLoaded defined registry name)) k
  = (flagOf registry k || (String.eqb k name && detected defined name))%bool.
Proof.
  intros Hreg. unfold isModuleLoaded, detected.
  rewrite (lookup_registered registry name Hreg).
  destruct (Obj.lookup name registry) as [m|] eqn:El; cbn [option_map].
  - assert (Hg : Str.isEmpty (ModuleInfo.global m) = false).
    { apply (registry_globals name (unmarked m)).
      rewrite (lookup_registered registry name Hreg), El. reflexivity. }
    rewrite Hg. cbn [snd unmarked ModuleInfo.global].
    destruct (String.eqb k name) eqn:Ek.
    + apply String.eqb_eq in Ek. subst k.
      destruct (defined (ModuleInfo.global m)), (ModuleInfo.loaded m) eqn:Elo;
        cbn [andb negb]; unfold flagOf;
        rewrite ?lookup_update, ?String.eqb_refl, El; cbn [option_map];
        rewrite ?Elo; reflexivity.
    + cbn [andb]. rewrite orb_false_r.
      destruct (defined (ModuleInfo.global m) && negb (ModuleInfo.loaded m))%bool;
        [|reflexivity].
      unfold flagOf. rewrite lookup_update, Ek. reflexivity.
  - rewrite andb_false_r, orb_false_r.
    destruct (Obj.inherited name); reflexivity.
Qed.

Lemma checkEach_flag (defined : string -> bool) (k : string)
  (depends : list string) :
  forall (acc : list string) (registry : Registry),
    registered registry ->
    flagOf (snd (fold_left
                   (fun (acc : list string * Registry) depName =>
                      let (answer, registry) :=
                        isModuleLoaded defined (snd acc) depName in
                      if truthy answer then (fst acc, registry)
                      else (fst acc ++ [depName], registry))
                   depends (acc, registry))) k
    = (flagOf registry k || (Obj.mem k depends && detected defined k))%bool.
Proof.
  induction depends as [|dep r IH]; intros acc registry Hreg.
  - cbn [fold_left snd Obj.mem existsb andb]. now rewrite orb_false_r.
  - cbn [fold_left snd].
    pose proof (isModuleLoaded_flag defined registry dep k Hreg) as Hf.
    pose proof (registered_after_isModuleLoaded defined registry dep Hreg)
      as Hreg'.
    destruct (isModuleLoaded defined registry dep) as [answer registry'].
    cbn [snd] in Hf, Hreg'.
    assert (E : forall a b : list string,
                flagOf (snd (fold_left
                   (fun (acc : list string * Registry) depName =>
                      let (answer, registry) :=
                        isModuleLoaded defined (snd acc) depName in
                      if truthy answer then (fst acc, registry)
                      else (fst acc ++ [depName], registry))
                   r (if truthy answer then (a, registry')
                      else (b, registry')))) k
                = (flagOf registry' k
                   || (Obj.mem k r && detected defined k))%bool).
    { intros a b. destruct (truthy answer); apply IH; exact Hreg'. }
    rewrite E, Hf. unfold Obj.mem. cbn [existsb].
    destruct (String.eqb k dep) eqn:Ek.
    + apply String.eqb_eq in Ek. subst dep.
      destruct (flagOf registry k), (detected defined k),
        (existsb (String.eqb k) r); reflexivity.
    + cbn [andb orb]. now rewrite orb_false_r.
Qed.

Lemma checkDependencies_flag (defined : string -> bool) (registry : Registry)
  (name k : string) :
  registered registry ->
  flagOf (snd (checkDependencies defined registry name)) k
  = (flagOf registry k
     || (Obj.mem k (dependsOf name) && detected defined k))%bool.
Proof.
  intros Hreg. unfold checkDependencies, dependsOf.
  rewrite (lookup_registered registry name Hreg).
  destruct (Obj.lookup name registry) as [m|]; cbn [option_map snd];
    [|now rewrite orb_false_r].
  cbn [unmarked ModuleInfo.depends].
  destruct (ModuleInfo.depends m) as [deps|]; cbn [snd];
    [|now rewrite orb_false_r].
  unfold checkEach.
  pose proof (checkEach_flag defined k deps [] registry Hreg) as Hf.
  destruct (fold_left _ deps ([], registry)) as [missing registry'].
  exact Hf.
Qed.

Lemma checkModule_flag (defined : string -> bool) (registry : Registry)
  (state : LoadingState.t) (entry : string * ModuleInfo.t) (k : string) :
  registered registry ->
  flagOf (fst (checkModule defined (registry, state) entry)) k
  = (flagOf registry k
     || (visits defined (fst entry) k && detected defined k))%bool.
Proof.
  intros Hreg. destruct entry as [name m].
  unfold checkModule, visits. cbn [fst snd].
  pose proof (truthy_registered defined registry name Hreg) as Ht.
  pose proof (isModuleLoaded_flag defined registry name k Hreg) as Hf.
  pose proof (registered_after_isModuleLoaded defined registry name Hreg)
    as Hreg'.
  destruct (isModuleLoaded defined registry name) as [answer registry'].
  cbn [fst snd] in Ht, Hf, Hreg'. rewrite Ht.
  destruct (detected defined name) eqn:Ed; cbn [negb andb].
  - pose proof (checkDependencies_flag defined registry' name k Hreg') as Hc.
    destruct (checkDependencies defined registry' name) as [deps registry''].
    cbn [snd] in Hc.
    assert (E : fst (if negb (Dependencies.satisfied deps)
                     then (registry'',
                           LoadingState.pushWarning
                             (name ++ " missing dependencies: "
                              ++ Str.join ", " (Dependencies.missing deps))
                             state)
                     else (registry'', state)) = registry'')
      by (destruct (negb (Dependencies.satisfied deps)); reflexivity).
    rewrite E, Hc, Hf.
    destruct (String.eqb k name) eqn:Ek.
    + apply String.eqb_eq in Ek. subst k. rewrite Ed.
      destruct (flagOf registry name), (Obj.mem name (dependsOf name));
        reflexivity.
    + cbn [andb orb]. now rewrite orb_false_r.
  - assert (E : fst (if ModuleInfo.required m
                     then (registry',
                           LoadingState.pushError
                             ("Module " ++ name ++ " not loaded") state)
                     else (registry',
                           LoadingState.pushWarning
                             ("Module " ++ name ++ " not loaded") state))
                = registry')
      by (destruct (ModuleInfo.required m); reflexivity).
    rewrite E, Hf.
    destruct (String.eqb k name) eqn:Ek.
    + apply String.eqb_eq in Ek. subst k. rewrite Ed. reflexivity.
    + reflexivity.
Qed.

Lemma checkModules_flag (defined : string -> bool) (k : string)
  (entries : list (string * ModuleInfo.t)) :
  forall (registry : Registry) (state : LoadingState.t),
    registered registry ->
    flagOf (fst (fold_left (checkModule defined) entries (registry, state))) k
    = (flagOf registry k
       || (existsb (fun name => visits defined name k) (map fst entries)
           && detected defined k))%bool.
Proof.
  induction entries as [|entry r IH]; intros registry state Hreg.
  - cbn [fold_left fst map existsb andb]. now rewrite orb_false_r.
  - cbn [fold_left map existsb].
    pose proof (checkModule_flag defined registry state entry k Hreg) as Hf.
    destruct (checkModule_registered defined registry state entry Hreg)
      as (Hreg' & _).
    destruct (checkModule defined (registry, state) entry)
      as [registry' state'].
    cbn [fst] in Hf, Hreg'. rewrite (IH registry' state' Hreg'), Hf.
    destruct (flagOf registry k), (visits defined (fst entry) k),
      (detected defined k),
      (existsb (fun name => visits defined name k) (map fst r)); reflexivity.
Qed.

Lemma keys_static (registry : Registry) :
  map fst (static registry) = map fst registry.
Proof.
  unfold static. rewrite map_map. reflexivity.
Qed.

Lemma keys_registered (registry : Registry) :
  registered registry ->
  map fst (Obj.entries registry) = map fst moduleRegistry.
Proof.
  intros Hreg. rewrite <- keys_static, <- entries_static.
  unfold registered in Hreg. rewrite Hreg. reflexivity.
Qed.

Lemma detected_is_visited (defined : string -> bool) (k : string) :
  detected defined k = true ->
  existsb (fun name => visits defined name k) (map fst moduleRegistry) = true.
Proof.
  unfold detected. destruct (Obj.lookup k moduleRegistry) as [m|] eqn:El;
    [|discriminate].
  intros _. apply existsb_exists. exists k. split.
  - apply in_map_iff. exists (k, m). split; [reflexivity|].
    now apply lookup_In.
  - unfold visits. now rewrite String.eqb_refl.
Qed.

(** X25. The [loaded] flag of a module is a latch:
    after [initializeModules], in any state of the registry, the flag of a
    module is set exactly when it was set before or the global of the
    module is defined at the time of the call. A flag is never cleared, so
    it can stay set while [isModuleLoaded] answers [false]. *)
Theorem loaded_flags_after_initialization :
  forall (defined : string -> bool) (registry : Registry)
         (state : LoadingState.t) (name : string),
    registered registry ->
    flagOf (fst (snd (initializeModules defined (registry, state)))) name
    = (flagOf registry name || detected defined name)%bool.
Proof.
  intros defined registry state name Hreg.
  unfold initializeModules. cbn [fst snd].
  rewrite (checkModules_flag defined name (Obj.entries registry) registry
             (LoadingState.setInitialized state) Hreg).
  rewrite (keys_registered registry Hreg).
  destruct (detected defined name) eqn:Ed.
  - now rewrite (detected_is_visited defined name Ed).
  - now rewrite andb_false_r.
Qed.

Lemma loaded_flags_after_initialization_witness :
  flagOf (fst (snd (initializeModules (fun _ => false)
                      (securityDetected, LoadingState.initial)))) "security"
  = true.
Proof.
  exact (loaded_flags_after_initialization (fun _ => false) securityDetected
           LoadingState.initial "security" eq_refl).
Defined.

Lemma moduleStatus_registered (defined : string -> bool)
  (status : list (string * ModuleStatus.t)) (registry : Registry)
  (entry : string * ModuleInfo.t) :
  registered registry ->
  fst (moduleStatus defined (status, registry) entry)
  = assign (fst entry) (snd (report defined entry)) status
  /\ registered (snd (moduleStatus defined (status, registry) entry)).
Proof.
  intros Hreg. destruct entry as [name m].
  unfold moduleStatus, report, answerOf. cbn [fst snd].
  pose proof (isModuleLoaded_registered defined registry name Hreg) as Ha.
  pose proof (registered_after_isModuleLoaded defined registry name Hreg)
    as Hreg'.
  destruct (isModuleLoaded defined registry name) as [answer registry'].
  cbn [fst snd] in Ha, Hreg'.
  destruct (checkDependencies_registered defined registry' name Hreg')
    as [E R].
  destruct (checkDependencies defined registry' name) as [deps registry''].
  cbn [fst snd] in E, R |- *. subst answer deps.
  split; [reflexivity|exact R].
Qed.

Lemma moduleStatus_from (defined : string -> bool)
  (entries : list (string * ModuleInfo.t)) :
  forall (status : list (string * ModuleStatus.t)) (registry : Registry),
    registered registry ->
    NoDup (map fst entries) ->
    (forall k, In k (map fst entries) -> Obj.lookup k status = None) ->
    fst (fold_left (moduleStatus defined) entries (status, registry))
    = status ++ map (report defined) entries.
Proof.
  induction entries as [|entry r IH]; intros status registry Hreg Hnd Hnew.
  - cbn [fold_left map fst]. now rewrite app_nil_r.
  - cbn [fold_left map].
    destruct (moduleStatus_registered defined status registry entry Hreg)
      as [E R].
    destruct (moduleStatus defined (status, registry) entry)
      as [status' registry'].
    cbn [fst snd] in E, R. subst status'.
    cbn [map] in Hnd. inversion Hnd as [|? ? Hnotin Hnd']. subst.
    unfold assign. rewrite (Hnew (fst entry) (or_introl eq_refl)).
    rewrite IH; [| exact R | exact Hnd' |].
    + rewrite <- app_assoc. cbn [app]. unfold report at 2. reflexivity.
    + intros k Hk. rewrite lookup_app_one.
      rewrite (Hnew k (or_intror Hk)).
      destruct (String.eqb k (fst entry)) eqn:Ek; [|reflexivity].
      apply String.eqb_eq in Ek. subst k. contradiction.
Qed.

Lemma reports_static (defined : string -> bool) (registry : Registry) :
  map (report defined) (static registry) = map (report defined) registry.
Proof.
  induction registry as [|[k m] r IH]; [reflexivity|].
  cbn [static map fst snd]. fold (static r). rewrite IH. reflexivity.
Qed.

Lemma registry_keys_distinct : NoDup (map fst moduleRegistry).
Proof.
  cbn [moduleRegistry map fst].
  repeat (constructor; [cbn [In]; intuition discriminate|]).
  constructor.
Qed.

Lemma none_missing {A : Type} (p : A -> bool) (l : list A) :
  Nat.eqb (List.length (filter (fun x => negb (p x)) l)) 0 = forallb p l.
Proof.
  induction l as [|a r IH]; [reflexivity|].
  cbn [filter forallb]. destruct (p a); [exact IH|reflexivity].
Qed.

(** X26. [getModuleStatus] describes the window, not the flags: in any
    state of the registry it lists the twelve modules in the order of the
    registry, each with whether its global is defined, its [required] and
    [path], the dependencies the registry declares (none for a module
    without [depends]), those whose global is not defined, and whether
    there is none. *)
Theorem getModuleStatus_reports :
  forall (defined : string -> bool) (registry : Registry),
    registered registry ->
    fst (getModuleStatus defined registry) =
    map (fun entry =>
           (fst entry,
            ModuleStatus.mk
              (Boolean (defined (ModuleInfo.global (snd entry))))
              (ModuleInfo.required (snd entry))
              (ModuleInfo.path (snd entry))
              (dependsOf (fst entry))
              (forallb (detected defined) (dependsOf (fst entry)))
              (filter (fun dep => negb (detected defined dep))
                      (dependsOf (fst entry)))))
        moduleRegistry.
Proof.
  intros defined registry Hreg. unfold getModuleStatus.
  rewrite (moduleStatus_from defined (Obj.entries registry) [] registry Hreg).
  - cbn [app].
    rewrite <- (reports_static defined (Obj.entries registry)),
            <- entries_static.
    unfold registered in Hreg. rewrite Hreg.
    change (Obj.entries moduleRegistry) with moduleRegistry.
    apply map_ext_in. intros [name m] Hin. unfold report, missingOf.
    rewrite none_missing. cbn [fst snd]. f_equal.
    assert (El : Obj.lookup name moduleRegistry = Some m).
    { apply In_lookup; [exact registry_keys_distinct|exact Hin]. }
    unfold answerOf, dependsOf. rewrite El. reflexivity.
  - rewrite (keys_registered registry Hreg). exact registry_keys_distinct.
  - reflexivity.
Qed.

Lemma getModuleStatus_reports_witness :
  Obj.lookup "employees"
    (fst (getModuleStatus (windowOf ["NUMMA_SECURITY"; "EmployeeAPI"])
            securityDetected))
  = Some (ModuleStatus.mk (Boolean true) false "modules/numma-employees.js"
            ["security"; "messages"; "exports"] false
            ["messages"; "exports"]).
Proof.
  rewrite (getModuleStatus_reports
             (windowOf ["NUMMA_SECURITY"; "EmployeeAPI"]) securityDetected
             eq_refl).
  reflexivity.
Defined.

(* ================================================================== *)
(** ** Statistics: totals *)

Lemma add_NaN_l (x : Num.number) : Num.add Num.NaN x = Num.NaN.
Proof. destruct x; reflexivity. Qed.

Lemma add_NaN_r (x : Num.number) : Num.add x Num.NaN = Num.NaN.
Proof. destruct x; reflexivity. Qed.

Lemma isNaN_eq (x : Num.number) : Num.isNaN x = true -> x = Num.NaN.
Proof. destruct x; try discriminate; reflexivity. Qed.

Lemma total_poisoned (amount : Entry -> Num.number) (entries : list Entry)
  (e : Entry) :
  In e entries ->
  Num.isNaN (amount e) = true ->
  forall acc,
    fold_left (fun sum x => Num.add sum (amount x)) entries acc = Num.NaN.
Proof.
  intros Hin Hnan.
  assert (Hstay : forall l, fold_left (fun sum x => Num.add sum (amount x))
                                      l Num.NaN = Num.NaN).
  { induction l as [|x r IH]; [reflexivity|].
    cbn [fold_left]. now rewrite add_NaN_l. }
  induction entries as [|x r IH]; [contradiction|].
  intros acc. cbn [fold_left]. destruct Hin as [->|Hin].
  - rewrite (isNaN_eq _ Hnan), add_NaN_r. apply Hstay.
  - apply IH. exact Hin.
Qed.

(** X27. The totals of [getStatistics] are sums of numbers read with
    [parseFloat]: one entry whose [Debit] does not read as a number makes
    [totalDebit] NaN, and one whose [Credit] does not makes [totalCredit]
    NaN, whatever the other entries hold. *)
Theorem total_poisoned_by_one_amount :
  forall (sourceText : string -> string) (entries : list Entry) (e : Entry),
    In e entries ->
    (Num.isNaN (Num.parseFloatOr0 (Debit e)) = true ->
     Stats.totalDebit (getStatistics sourceText entries) = Num.NaN)
    /\ (Num.isNaN (Num.parseFloatOr0 (Credit e)) = true ->
        Stats.totalCredit (getStatistics sourceText entries) = Num.NaN).
Proof.
  intros sourceText entries e Hin.
  cbn [getStatistics Stats.totalDebit Stats.totalCredit]. split; intros Hnan.
  - exact (total_poisoned (fun x => Num.parseFloatOr0 (Debit x)) entries e
             Hin Hnan Num.zero).
  - exact (total_poisoned (fun x => Num.parseFloatOr0 (Credit x)) entries e
             Hin Hnan Num.zero).
Qed.

Lemma total_poisoned_by_one_amount_witness :
  Stats.totalDebit
    (getStatistics (fun _ => "") [saleDebit; unreadableDebit; saleCredit])
  = Num.NaN.
Proof.
  apply (proj1 (total_poisoned_by_one_amount (fun _ => "")
                  [saleDebit; unreadableDebit; saleCredit] unreadableDebit
                  (or_intror (or_introl eq_refl)))).
  reflexivity.
Defined.
